(** * dkl-metric: the DKL / mutual-information core ([pipeline/utils/dkl.py])

    A shallow embedding of [calculate_dkl] and [get_mutual_info] and of the
    part of pandas / numpy they are written against, followed by the
    properties of the two functions.

    Modelling conventions.
    - A float64 is one of NaN, +Inf, -Inf or a real number.  The special
      values follow IEEE-754; arithmetic on finite values is exact (rounding,
      overflow and the sign of zero are outside the model), and an integer
      cast to float is its real value.
    - A Series is a typed list of values, a DataFrame an ordered list of
      named Series over a common number of rows.
    - DataFrames are Python objects: they live in a store and are passed by
      reference.  Code that can raise runs in a state-and-exception monad
      over that store. *)

From Stdlib Require Import Reals Lra Lia ZArith String List Permutation.
From stdpp Require Import base decidable option list gmap strings sorting pretty.

(* ===================================================================== *)
(** * float64                                                              *)
(* ===================================================================== *)

Module F64.

Inductive float : Type :=
  | NaN
  | PInf
  | NInf
  | Fin (r : R).

#[global] Instance Rlt_decision (x y : R) : Decision (x < y)%R := Rlt_dec x y.
#[global] Instance Rle_decision (x y : R) : Decision (x <= y)%R := Rle_dec x y.
#[global] Instance R_eq_decision : EqDecision R := Req_dec_T.
#[global] Instance float_eq_decision : EqDecision float.
Proof. solve_decision. Defined.

Definition zero : float := Fin 0.

(** [+Inf] or [-Inf], by the sign of a real that is not zero. *)
Definition inf_of_sign (a : R) : float :=
  if decide (0 < a)%R then PInf else NInf.

Definition fneg (x : float) : float :=
  match x with
  | NaN => NaN
  | PInf => NInf
  | NInf => PInf
  | Fin a => Fin (- a)
  end.

(** [x / y].  [a / 0] is an infinity of the sign of [a], and [0 / 0],
    [Inf / Inf] are NaN. *)
Definition fdiv (x y : float) : float :=
  match x, y with
  | NaN, _ | _, NaN => NaN
  | Fin a, Fin b =>
      if decide (b = 0%R) then
        if decide (a = 0%R) then NaN else inf_of_sign a
      else Fin (a / b)
  | Fin _, (PInf | NInf) => Fin 0
  | PInf, Fin b => if decide (b < 0)%R then NInf else PInf
  | NInf, Fin b => if decide (b < 0)%R then PInf else NInf
  | (PInf | NInf), (PInf | NInf) => NaN
  end.

(** [x * y].  [Inf * 0] is NaN. *)
Definition fmul (x y : float) : float :=
  match x, y with
  | NaN, _ | _, NaN => NaN
  | Fin a, Fin b => Fin (a * b)
  | Fin a, PInf | PInf, Fin a =>
      if decide (a = 0%R) then NaN else inf_of_sign a
  | Fin a, NInf | NInf, Fin a =>
      if decide (a = 0%R) then NaN else fneg (inf_of_sign a)
  | PInf, PInf | NInf, NInf => PInf
  | PInf, NInf | NInf, PInf => NaN
  end.

(** [x + y].  [Inf + (-Inf)] is NaN. *)
Definition fadd (x y : float) : float :=
  match x, y with
  | NaN, _ | _, NaN => NaN
  | Fin a, Fin b => Fin (a + b)
  | PInf, NInf | NInf, PInf => NaN
  | PInf, _ | _, PInf => PInf
  | NInf, _ | _, NInf => NInf
  end.

(** [x > y]; every comparison with NaN is false. *)
Definition fgt (x y : float) : bool :=
  match x, y with
  | NaN, _ | _, NaN => false
  | Fin a, Fin b => bool_decide (b < a)%R
  | PInf, (Fin _ | NInf) => true
  | Fin _, NInf => true
  | _, _ => false
  end.

(** [x == y]; NaN is equal to nothing. *)
Definition feq (x y : float) : bool :=
  match x, y with
  | NaN, _ | _, NaN => false
  | _, _ => bool_decide (x = y)
  end.

Definition isnan (x : float) : bool :=
  match x with NaN => true | _ => false end.

(** [np.isfinite] *)
Definition isfinite (x : float) : bool :=
  match x with Fin _ => true | _ => false end.

(** [np.log2]: [log2 0 = -Inf], NaN on negative arguments. *)
Definition log2 (x : float) : float :=
  match x with
  | NaN | NInf => NaN
  | PInf => PInf
  | Fin a =>
      if decide (0 < a)%R then Fin (ln a / ln 2)
      else if decide (a = 0%R) then NInf else NaN
  end.

(** [int -> float] *)
Definition of_int (z : Z) : float := Fin (IZR z).

End F64.
Export F64.

(* ===================================================================== *)
(** * Series and DataFrame                                                 *)
(* ===================================================================== *)

(** A Series by dtype: int64, float64, or object (strings, [None] for a
    missing one). *)
Inductive series : Type :=
  | IntS (l : list Z)
  | FloatS (l : list float)
  | ObjS (l : list (option string)).

Definition series_len (s : series) : nat :=
  match s with
  | IntS l => length l
  | FloatS l => length l
  | ObjS l => length l
  end.

(** A DataFrame: the length of its index and its columns in order. *)
Record DataFrame : Type := mkDF {
  nrows : nat;
  columns : list (string * series)
}.

Fixpoint assoc_get (c : string) (cols : list (string * series)) : option series :=
  match cols with
  | [] => None
  | (c', s) :: rest => if String.eqb c' c then Some s else assoc_get c rest
  end.

(** [cols[c] = s]: an existing column is replaced where it stands, a new
    one is appended. *)
Fixpoint assoc_set (c : string) (s : series) (cols : list (string * series))
  : list (string * series) :=
  match cols with
  | [] => [(c, s)]
  | (c', s') :: rest =>
      if String.eqb c' c then (c', s) :: rest else (c', s') :: assoc_set c s rest
  end.

Definition df_get (d : DataFrame) (c : string) : option series :=
  assoc_get c (columns d).

Definition df_set (d : DataFrame) (c : string) (s : series) : DataFrame :=
  mkDF (nrows d) (assoc_set c s (columns d)).

Definition col_names (d : DataFrame) : list string := (columns d).*1.

(** Every column has one entry per row and no name occurs twice. *)
Definition wf_frame (d : DataFrame) : bool :=
  forallb (fun cs => Nat.eqb (series_len cs.2) (nrows d)) (columns d)
  && bool_decide (NoDup (col_names d)).

(** One value of a Series, as pandas sees it when it groups, compares or
    deduplicates: NaN and [None] are the missing value. *)
Inductive cell : Type :=
  | CInt (z : Z)
  | CFloat (f : float)
  | CStr (s : string)
  | CNull.

#[global] Instance cell_eq_decision : EqDecision cell.
Proof. solve_decision. Defined.

Definition float_cell (f : float) : cell :=
  if isnan f then CNull else CFloat f.

Definition obj_cell (o : option string) : cell :=
  match o with Some s => CStr s | None => CNull end.

Definition cells (s : series) : list cell :=
  match s with
  | IntS l => CInt <$> l
  | FloatS l => float_cell <$> l
  | ObjS l => obj_cell <$> l
  end.

(** [pd.isna] of one value *)
Definition isna (c : cell) : bool :=
  match c with CNull => true | _ => false end.

(* ===================================================================== *)
(** * Exceptions, the store and the monad                                  *)
(* ===================================================================== *)

(** The exception classes: the three that pandas and numpy raise here, and
    the [SchemaError] of the design document. *)
Inductive exn : Type :=
  | KeyError (c : string)
  | ValueError
  | TypeError
  | SchemaError.

Inductive result (A : Type) : Type :=
  | Ok (a : A)
  | Raise (e : exn).
Arguments Ok {A} a.
Arguments Raise {A} e.

#[global] Instance result_ret : MRet result := fun A a => Ok a.
#[global] Instance result_bind : MBind result := fun A B f m =>
  match m with
  | Ok a => f a
  | Raise e => Raise e
  end.

(** References are numbers; the store maps the live ones to their frames. *)
Abbreviation loc := nat (only parsing).
Abbreviation store := (gmap nat DataFrame) (only parsing).

Definition M (A : Type) : Type := store -> result A * store.

#[global] Instance M_ret : MRet M := fun A a h => (Ok a, h).
#[global] Instance M_bind : MBind M := fun A B f m h =>
  match m h with
  | (Ok a, h') => f a h'
  | (Raise e, h') => (Raise e, h')
  end.

Definition lift {A : Type} (r : result A) : M A := fun h => (r, h).

(** A reference held by running code always points to a frame; a dangling
    one has no Python counterpart and is made a [TypeError]. *)
Definition deref (df : loc) : M DataFrame := fun h =>
  match h !! df with
  | Some d => (Ok d, h)
  | None => (Raise TypeError, h)
  end.

Definition alloc (d : DataFrame) : M loc := fun h =>
  let l := fresh (dom h) in (Ok l, <[l := d]> h).

(* ===================================================================== *)
(** * numpy and pandas operations                                          *)
(* ===================================================================== *)

(** [a > 0], [a / b], [a * b], elementwise *)
Definition vgt0 (a : list float) : list bool := (fun x => fgt x zero) <$> a.
Definition vdiv (a b : list float) : list float := zip_with fdiv a b.
Definition vmul (a b : list float) : list float := zip_with fmul a b.

(** [np.where(cond, a, s)] with a scalar [s] *)
Definition np_where (cond : list bool) (a : list float) (s : float) : list float :=
  zip_with (fun (c : bool) x => if c then x else s) cond a.

Definition np_isfinite (a : list float) : list bool := isfinite <$> a.

Definition np_zeros_like (a : list float) : list float := (fun _ => zero) <$> a.

(** [np.log2(x, where=mask, out=out)]: the logarithm where the mask holds,
    the entry of [out] elsewhere. *)
Definition np_log2_where (x : list float) (mask : list bool) (out : list float)
  : list float :=
  zip_with (fun (rm : float * bool) o => if rm.2 then log2 rm.1 else o)
           (zip x mask) out.

(** The values of a numeric Series as floats; arithmetic and comparison
    with a number are refused on an object Series. *)
Definition series_values (s : series) : result (list float) :=
  match s with
  | IntS l => Ok (of_int <$> l)
  | FloatS l => Ok l
  | ObjS _ => Raise TypeError
  end.

(** pandas' [sum]: missing values are skipped. *)
Definition fsum (l : list float) : float := foldr fadd zero l.
Definition nansum (l : list float) : float :=
  fsum (filter (fun x => x ≠ NaN) l).

(** [d[c]] *)
Definition frame_getitem (d : DataFrame) (c : string) : result series :=
  match df_get d c with
  | Some s => Ok s
  | None => Raise (KeyError c)
  end.

Fixpoint frame_getitems (d : DataFrame) (cs : list string) : result (list series) :=
  match cs with
  | [] => Ok []
  | c :: rest =>
      s ← frame_getitem d c; ss ← frame_getitems d rest; mret (s :: ss)
  end.

(** [d[c]] read as numbers *)
Definition frame_values (d : DataFrame) (c : string) : result (list float) :=
  frame_getitem d c ≫= series_values.

(** The key of every row, one cell per key column. *)
Definition row_keys (n : nat) (ks : list series) : list (list cell) :=
  foldr (fun s acc => zip_with cons (cells s) acc) (replicate n []) ks.

Definition frame_keys (d : DataFrame) (by_ : list string) : result (list (list cell)) :=
  ks ← frame_getitems d by_; mret (row_keys (nrows d) ks).

(** A key with a missing component belongs to no group ([dropna=True]). *)
Definition has_na (k : list cell) : bool := existsb isna k.

(** The values of the rows whose key is [k]. *)
Definition group_values {A : Type} (K : list (list cell)) (k : list cell)
  (v : list A) : list A :=
  (filter (fun p => p.1 = k) (zip K v)).*2.

(** [groupby(...)[col].transform("sum")] on keys [K] and values [v]: every
    row gets the sum of its group, a row outside all groups gets NaN. *)
Definition transform_sum (K : list (list cell)) (v : list float) : list float :=
  (fun k => if has_na k then NaN else nansum (group_values K k v)) <$> K.

Definition frame_transform_sum (d : DataFrame) (by_ : list string) (c : string)
  : result series :=
  K ← frame_keys d by_;
  v ← frame_values d c;
  mret (FloatS (transform_sum K v)).

(** The same operations through a reference. *)

(** [df.copy()] *)
Definition df_copy (df : loc) : M loc :=
  d ← deref df; alloc d.

Definition getitem (df : loc) (c : string) : M series :=
  d ← deref df; lift (frame_getitem d c).

Definition getvalues (df : loc) (c : string) : M (list float) :=
  d ← deref df; lift (frame_values d c).

Definition groupby_transform_sum (df : loc) (by_ : list string) (c : string)
  : M series :=
  d ← deref df; lift (frame_transform_sum d by_ c).

(** [df[c] = s], in place; a value of the wrong length is refused. *)
Definition setitem (df : loc) (c : string) (s : series) : M unit := fun h =>
  match h !! df with
  | Some d =>
      if Nat.eqb (series_len s) (nrows d)
      then (Ok tt, <[df := df_set d c s]> h)
      else (Raise ValueError, h)
  | None => (Raise TypeError, h)
  end.

Section Dkl.

(** Python's [float(s)] on a string, [None] where it raises. *)
Variable py_float : string -> option float.

Definition obj_float (o : option string) : option float :=
  match o with
  | None => Some NaN
  | Some s => py_float s
  end.

(** [s.astype(float)] *)
Definition astype_float (s : series) : result (list float) :=
  match s with
  | IntS l => Ok (of_int <$> l)
  | FloatS l => Ok l
  | ObjS l =>
      match mapM obj_float l with
      | Some fs => Ok fs
      | None => Raise ValueError
      end
  end.

Definition frame_float (d : DataFrame) (c : string) : result (list float) :=
  frame_getitem d c ≫= astype_float.

Definition getfloat (df : loc) (c : string) : M (list float) :=
  d ← deref df; lift (frame_float d c).

(* ===================================================================== *)
(** * calculate_dkl                                                        *)
(* ===================================================================== *)

Definition calculate_dkl (df : loc) : M loc :=
  out ← df_copy df;
  block_estimate ← getfloat out "block_estimate";
  block_total ← getfloat out "block_total";
  cbsa_estimate ← getfloat out "cbsa_estimate";
  cbsa_total ← getfloat out "cbsa_total";
  setitem out "p_ni"
    (FloatS (np_where (vgt0 cbsa_total) (vdiv block_total cbsa_total) zero));;
  setitem out "p_ni_yj"
    (FloatS (np_where (vgt0 cbsa_estimate) (vdiv block_estimate cbsa_estimate) zero));;
  setitem out "p_yj"
    (FloatS (np_where (vgt0 cbsa_total) (vdiv cbsa_estimate cbsa_total) zero));;
  setitem out "p_yj_ni"
    (FloatS (np_where (vgt0 block_total) (vdiv block_estimate block_total) zero));;
  p_yj ← getvalues out "p_yj";
  p_yj_ni ← getvalues out "p_yj_ni";
  let ratio_i := np_where (vgt0 p_yj) (vdiv p_yj_ni p_yj) zero in
  p_ni ← getvalues out "p_ni";
  p_ni_yj ← getvalues out "p_ni_yj";
  let ratio_j := np_where (vgt0 p_ni) (vdiv p_ni_yj p_ni) zero in
  let log_i := np_log2_where ratio_i (vgt0 ratio_i) (np_zeros_like ratio_i) in
  let log_j := np_log2_where ratio_j (vgt0 ratio_j) (np_zeros_like ratio_j) in
  setitem out "dkl_log_i" (FloatS (np_where (np_isfinite log_i) log_i zero));;
  setitem out "dkl_log_j" (FloatS (np_where (np_isfinite log_j) log_j zero));;
  p_yj_ni ← getvalues out "p_yj_ni";
  dkl_log_i ← getvalues out "dkl_log_i";
  setitem out "dkl_block_j" (FloatS (vmul p_yj_ni dkl_log_i));;
  p_ni_yj ← getvalues out "p_ni_yj";
  dkl_log_j ← getvalues out "dkl_log_j";
  setitem out "dkl_bin_i" (FloatS (vmul p_ni_yj dkl_log_j));;
  dkl_block ← groupby_transform_sum out ["variable_group"; "block_fips"] "dkl_block_j";
  setitem out "dkl_block" dkl_block;;
  dkl_bin ← groupby_transform_sum out ["variable_group"; "cbsa_fips"; "variable"] "dkl_bin_i";
  setitem out "dkl_bin" dkl_bin;;
  mret out.


(** ** The row-wise reading of [calculate_dkl]

    The body of [calculate_dkl] is a chain of elementwise array operations.
    Row by row it computes the functions below of the four counts of the
    row (after the cast to float); the aggregates are then the group sums
    of two of them.  That the code computes exactly this is
    [calculate_dkl_spec]. *)

Record counts : Type := mkCounts {
  be : float;   (* block_estimate *)
  bt : float;   (* block_total *)
  ce : float;   (* cbsa_estimate *)
  ct : float    (* cbsa_total *)
}.

Definition count_rows (BE BT CE CT : list float) : list counts :=
  zip_with (fun (x : float * float) (y : float * float) => mkCounts x.1 x.2 y.1 y.2)
           (zip BE BT) (zip CE CT).

(** [np.where(den > 0, num / den, 0.0)] at one row *)
Definition masked_div (num den : float) : float :=
  if fgt den zero then fdiv num den else zero.

(** [np.log2(x, where=(x > 0), out=zeros)] followed by
    [np.where(np.isfinite(l), l, 0.0)] at one row *)
Definition masked_log2 (x : float) : float :=
  let l := if fgt x zero then log2 x else zero in
  if isfinite l then l else zero.

Definition row_p_ni (r : counts) : float := masked_div (bt r) (ct r).
Definition row_p_ni_yj (r : counts) : float := masked_div (be r) (ce r).
Definition row_p_yj (r : counts) : float := masked_div (ce r) (ct r).
Definition row_p_yj_ni (r : counts) : float := masked_div (be r) (bt r).
Definition row_ratio_i (r : counts) : float := masked_div (row_p_yj_ni r) (row_p_yj r).
Definition row_ratio_j (r : counts) : float := masked_div (row_p_ni_yj r) (row_p_ni r).
Definition row_dkl_log_i (r : counts) : float := masked_log2 (row_ratio_i r).
Definition row_dkl_log_j (r : counts) : float := masked_log2 (row_ratio_j r).
Definition row_dkl_block_j (r : counts) : float := fmul (row_p_yj_ni r) (row_dkl_log_i r).
Definition row_dkl_bin_i (r : counts) : float := fmul (row_p_ni_yj r) (row_dkl_log_j r).

Definition block_key : list string := ["variable_group"; "block_fips"].
Definition bin_key : list string := ["variable_group"; "cbsa_fips"; "variable"].

(** The ten assignments [out[c] = ...], in the order of the source. *)
Definition dkl_columns (rows : list counts) (K1 K2 : list (list cell))
  : list (string * series) :=
  [ ("p_ni", FloatS (row_p_ni <$> rows));
    ("p_ni_yj", FloatS (row_p_ni_yj <$> rows));
    ("p_yj", FloatS (row_p_yj <$> rows));
    ("p_yj_ni", FloatS (row_p_yj_ni <$> rows));
    ("dkl_log_i", FloatS (row_dkl_log_i <$> rows));
    ("dkl_log_j", FloatS (row_dkl_log_j <$> rows));
    ("dkl_block_j", FloatS (row_dkl_block_j <$> rows));
    ("dkl_bin_i", FloatS (row_dkl_bin_i <$> rows));
    ("dkl_block", FloatS (transform_sum K1 (row_dkl_block_j <$> rows)));
    ("dkl_bin", FloatS (transform_sum K2 (row_dkl_bin_i <$> rows))) ].

Definition dkl_frame (d : DataFrame) (rows : list counts) (K1 K2 : list (list cell))
  : DataFrame :=
  foldl (fun d cs => df_set d cs.1 cs.2) d (dkl_columns rows K1 K2).

(** What a call on the frame [d] returns or raises. *)
Definition dkl_pure (d : DataFrame) : result DataFrame :=
  BE ← frame_float d "block_estimate";
  BT ← frame_float d "block_total";
  CE ← frame_float d "cbsa_estimate";
  CT ← frame_float d "cbsa_total";
  K1 ← frame_keys d block_key;
  K2 ← frame_keys d bin_key;
  mret (dkl_frame d (count_rows BE BT CE CT) K1 K2).

End Dkl.

(* ===================================================================== *)
(** * get_mutual_info                                                      *)
(* ===================================================================== *)

(** [d[[c1, ..., cn]]]: a new frame with the listed columns. *)
Definition frame_select (d : DataFrame) (cs : list string) : result DataFrame :=
  ss ← frame_getitems d cs; mret (mkDF (nrows d) (zip cs ss)).

(** Positional selection of rows. *)
Definition take_idx {A : Type} (idx : list nat) (l : list A) : list A :=
  omap (fun i => l !! i) idx.

Definition series_take (idx : list nat) (s : series) : series :=
  match s with
  | IntS l => IntS (take_idx idx l)
  | FloatS l => FloatS (take_idx idx l)
  | ObjS l => ObjS (take_idx idx l)
  end.

Definition frame_take (idx : list nat) (d : DataFrame) : DataFrame :=
  mkDF (length idx) ((fun cs => (cs.1, series_take idx cs.2)) <$> columns d).

Definition frame_drop (cs : list string) (d : DataFrame) : DataFrame :=
  mkDF (nrows d) (filter (fun c => c.1 ∉ cs) (columns d)).

(** The positions, from [i] on, of the keys of [K] that are neither in
    [seen] nor earlier in [K]. *)
Fixpoint first_occurrences (seen : list (list cell)) (i : nat)
  (K : list (list cell)) : list nat :=
  match K with
  | [] => []
  | k :: rest =>
      if decide (k ∈ seen) then first_occurrences seen (S i) rest
      else i :: first_occurrences (k :: seen) (S i) rest
  end.

(** [d.drop_duplicates(subset=...)]: the first row of every key stays;
    missing values count as equal to each other. *)
Definition drop_duplicates (d : DataFrame) (subset : list string) : result DataFrame :=
  K ← frame_keys d subset; mret (frame_take (first_occurrences [] 0 K) d).

(** The order of group keys: missing values never reach it, and within one
    column all cells have one type. *)
Definition cell_leb (a b : cell) : bool :=
  match a, b with
  | CInt x, CInt y => Z.leb x y
  | CFloat x, CFloat y => negb (fgt x y)
  | CStr x, CStr y => String.leb x y
  | CNull, _ => true
  | CInt _, (CFloat _ | CStr _) => true
  | CFloat _, CStr _ => true
  | _, _ => false
  end.

Fixpoint key_leb (k1 k2 : list cell) : bool :=
  match k1, k2 with
  | [], _ => true
  | _ :: _, [] => false
  | a :: r1, b :: r2 => if decide (a = b) then key_leb r1 r2 else cell_leb a b
  end.

(** The groups of a [groupby]: the distinct keys without a missing
    component, in sorted order. *)
Definition group_keys (K : list (list cell)) : list (list cell) :=
  merge_sort (fun a b => key_leb a b) (remove_dups (filter (fun k => has_na k = false) K)).

(** The rows of the group of [k], in frame order. *)
Definition group_index (K : list (list cell)) (k : list cell) : list nat :=
  filter (fun i => K !! i = Some k) (seq 0 (length K)).

(** [d.groupby(by_).apply(f, include_groups=False).reset_index(name=name)]
    for an [f] that returns a number.  When there is no group at all,
    [apply] hands back an empty DataFrame instead of a Series, and
    [reset_index] of a DataFrame has no [name] argument. *)
Definition groupby_apply (d : DataFrame) (by_ : list string)
  (f : DataFrame -> result float) (name : string) : result DataFrame :=
  ss ← frame_getitems d by_;
  let K := row_keys (nrows d) ss in
  let gk := group_keys K in
  let members := group_index K <$> gk in
  vals ← mapM (fun idx => f (frame_take idx (frame_drop by_ d))) members;
  match gk with
  | [] => Raise TypeError
  | _ :: _ =>
      let first_rows := omap head members in
      mret (mkDF (length gk)
                 (zip by_ (series_take first_rows <$> ss) ++ [(name, FloatS vals)]))
  end.

(** The inner function [_weighted_mean] *)
Definition weighted_mean (group : DataFrame) : result float :=
  weights ← frame_values group "p_ni";
  let total_weight := nansum weights in
  if feq total_weight zero then mret zero
  else
    dkl_block ← frame_values group "dkl_block";
    mret (fdiv (nansum (vmul dkl_block weights)) total_weight).

(** The frames between the input and the result are temporaries nobody
    else refers to; they are values here, and [.copy()] of one is itself. *)
Definition get_mutual_info (dkl_df : loc) : M loc :=
  d ← deref dkl_df;
  block_level ← lift (
    sel ← frame_select d ["block_fips"; "variable_group"; "group_label";
                          "block_total"; "dkl_block"; "p_ni";
                          "cbsa_title"; "cbsa_total"; "state_codes"];
    drop_duplicates sel ["block_fips"; "variable_group"]);
  mi ← lift (groupby_apply block_level
               ["cbsa_title"; "state_codes"; "group_label"]
               weighted_mean "avg_dkl_cbsa_pop");
  alloc mi.

(* ===================================================================== *)
(** * Reading tables row by row                                            *)
(* ===================================================================== *)

Definition float_at (d : DataFrame) (c : string) (i : nat) : option float :=
  match df_get d c with
  | Some (FloatS l) => l !! i
  | _ => None
  end.

Definition output_columns : list string :=
  ["p_ni"; "p_ni_yj"; "p_yj"; "p_yj_ni"; "dkl_log_i"; "dkl_log_j";
   "dkl_block_j"; "dkl_bin_i"; "dkl_block"; "dkl_bin"].

Definition count_columns : list string :=
  ["block_estimate"; "block_total"; "cbsa_estimate"; "cbsa_total"].

Definition key_columns : list string :=
  ["variable_group"; "block_fips"; "cbsa_fips"; "variable"].

(** The columns [calculate_dkl] reads, in the order in which it first
    reads them. *)
Definition required_columns : list string := count_columns ++ key_columns.

Definition is_ok {A : Type} (r : result A) : bool :=
  match r with Ok _ => true | Raise _ => false end.

Definition missing (d : DataFrame) (c : string) : bool :=
  match df_get d c with None => true | Some _ => false end.

(** The first column among [cs] that the table does not have. *)
Definition first_missing (d : DataFrame) (cs : list string) : option string :=
  find (missing d) cs.

(** The place of a column in a list of names. *)
Fixpoint index_of (c : string) (l : list string) : option nat :=
  match l with
  | [] => None
  | x :: l => if decide (x = c) then Some 0%nat else S <$> index_of c l
  end.

(** [calculate_dkl] reads column [a] before column [b]. *)
Definition read_before (a b : string) : bool :=
  match index_of a required_columns, index_of b required_columns with
  | Some i, Some j => bool_decide (i < j)%nat
  | _, _ => false
  end.

(** Column [total] is the broadcast group sum of column [part] for the
    grouping [by_]: rows with the same key carry the same value, and for a
    key without a missing component that value is the sum (pandas' [sum])
    of [part] over the rows with this key; when no entry of the group is
    NaN, this is the plain sum. *)
Definition broadcast_group_sum (o : DataFrame) (by_ : list string)
  (part total : string) : Prop :=
  exists K V D,
    frame_keys o by_ = Ok K /\ frame_values o part = Ok V /\
    frame_values o total = Ok D /\
    length K = nrows o /\ length V = nrows o /\ length D = nrows o /\
    (forall i j k, K !! i = Some k -> K !! j = Some k -> D !! i = D !! j) /\
    (forall i k, K !! i = Some k -> has_na k = false ->
       D !! i = Some (nansum (group_values K k V)) /\
       (NaN ∉ group_values K k V ->
          D !! i = Some (fsum (group_values K k V)))).

(** The key of row [i] for the grouping [by_], read cell by cell. *)
Definition key_at (o : DataFrame) (by_ : list string) (i : nat)
  : option (list cell) :=
  mapM (fun c => s ← df_get o c; cells s !! i) by_.

(** The rows that have the key of row [i], in the order of the table. *)
Definition rows_like (o : DataFrame) (by_ : list string) (i : nat) : list nat :=
  filter (fun j => key_at o by_ j = key_at o by_ i) (seq 0 (nrows o)).

(** The numbers of column [c] on the rows [js]. *)
Definition values_at (o : DataFrame) (c : string) (js : list nat)
  : option (list float) :=
  mapM (float_at o c) js.

(** Column [total] holds, on every row, the sum of column [part] over the
    rows that have the key of this row: each row has a key and the rows
    with its key have numbers in [part]; rows with the same key hold the
    same [total]; and where no component of the key is missing, [total] is
    the sum of these numbers, NaN skipped as pandas' [sum] does. *)
Definition sum_over_rows_like (o : DataFrame) (by_ : list string)
  (part total : string) : Prop :=
  (forall i, (i < nrows o)%nat ->
     exists k vs,
       key_at o by_ i = Some k /\
       values_at o part (rows_like o by_ i) = Some vs /\
       (CNull ∉ k ->
          float_at o total i
            = Some (foldr fadd zero (filter (fun x => x ≠ NaN) vs)) /\
          (NaN ∉ vs -> float_at o total i = Some (foldr fadd zero vs)))) /\
  (forall i j, (i < nrows o)%nat -> (j < nrows o)%nat ->
     key_at o by_ i = key_at o by_ j ->
     float_at o total i = float_at o total j).

Definition mdiv (a b : R) : R := if decide (0 < b)%R then (a / b)%R else 0%R.
Definition mlog2 (x : R) : R := if decide (0 < x)%R then (ln x / ln 2)%R else 0%R.

(** A count that is negative or missing. *)
Definition bad_count (x : float) : Prop :=
  x = NaN \/ exists a : R, x = Fin a /\ (a < 0)%R.

(** The coercion the design document asks for: a negative or missing count
    becomes 0. *)
Definition coerce_count (x : float) : float :=
  match x with
  | NaN | NInf => zero
  | PInf => PInf
  | Fin a => if decide (a < 0)%R then zero else Fin a
  end.

Definition coerce_row (r : counts) : counts :=
  mkCounts (coerce_count (be r)) (coerce_count (bt r))
           (coerce_count (ce r)) (coerce_count (ct r)).

(** The integers of an int64 column. *)
Definition int64 (z : Z) : Prop := (- 2 ^ 63 <= z < 2 ^ 63)%Z.

(** The integers that [astype(float)] converts without rounding. *)
Definition exact_in_float (z : Z) : Prop := (- 2 ^ 53 <= z <= 2 ^ 53)%Z.

Definition int_counts (zbe zbt zce zct : Z) : counts :=
  mkCounts (of_int zbe) (of_int zbt) (of_int zce) (of_int zct).

Section Rows.

Variable py_float : string -> option float.

(** A count of row [i] as the code sees it, after [astype(float)]. *)
Definition count_at (d : DataFrame) (c : string) (i : nat) : option float :=
  match frame_float py_float d c with
  | Ok l => l !! i
  | Raise _ => None
  end.

Definition row_at (d : DataFrame) (i : nat) : option counts :=
  a ← count_at d "block_estimate" i;
  b ← count_at d "block_total" i;
  c ← count_at d "cbsa_estimate" i;
  e ← count_at d "cbsa_total" i;
  Some (mkCounts a b c e).

(** A table [calculate_dkl] can read: well-formed, with the four count
    columns, each convertible to float, and the four key columns. *)
Definition readable_input (d : DataFrame) : bool :=
  wf_frame d
  && forallb (fun c => is_ok (frame_float py_float d c)) count_columns
  && forallb (fun c => bool_decide (is_Some (df_get d c))) key_columns.

(** A valid input of [calculate_dkl]: a readable table that does not
    carry a column of one of the ten output names yet. *)
Definition valid_input (d : DataFrame) : bool :=
  readable_input d
  && forallb (fun c => bool_decide (df_get d c = None)) output_columns.

End Rows.

(** Every column has one entry per row. *)
Definition cols_len (d : DataFrame) : Prop :=
  forall c s, df_get d c = Some s -> series_len s = nrows d.

(** What [get_mutual_info] returns or raises on the frame [d]. *)
Definition mi_select : list string :=
  ["block_fips"; "variable_group"; "group_label"; "block_total"; "dkl_block";
   "p_ni"; "cbsa_title"; "cbsa_total"; "state_codes"].

Definition mi_dedup_key : list string := ["block_fips"; "variable_group"].
Definition mi_group_key : list string := ["cbsa_title"; "state_codes"; "group_label"].

Definition block_level_of (d : DataFrame) : result DataFrame :=
  sel ← frame_select d mi_select; drop_duplicates sel mi_dedup_key.

Definition mi_pure (d : DataFrame) : result DataFrame :=
  block_level ← block_level_of d;
  groupby_apply block_level mi_group_key weighted_mean "avg_dkl_cbsa_pop".

(** A computation that writes to no frame of the store but [out]. *)
Definition touches_only {A : Type} (out : nat) (m : M A) : Prop :=
  forall (h : gmap nat DataFrame) l, l ≠ out -> (m h).2 !! l = h !! l.

(** A computation that can return nothing but [out]. *)
Definition returns_only {A : Type} (out : A) (m : M A) : Prop :=
  forall (h : gmap nat DataFrame) a, (m h).1 = Ok a -> a = out.

(* ===================================================================== *)
(** * Groups of integer counts                                             *)
(* ===================================================================== *)

(** The four counts of a row of a table whose count columns are int64. *)
Record icounts : Type := mkICounts { ibe : Z; ibt : Z; ice : Z; ict : Z }.

Definition icount_rows (BE BT CE CT : list Z) : list icounts :=
  zip_with (fun (x : Z * Z) (y : Z * Z) => mkICounts x.1 x.2 y.1 y.2)
           (zip BE BT) (zip CE CT).

Definition to_counts (r : icounts) : counts :=
  int_counts (ibe r) (ibt r) (ice r) (ict r).

Definition Rsum (l : list R) : R := foldr Rplus 0%R l.

(** The divergence of a list of pairs of counts [(a, b)], read as the
    distributions [a / n] and [b / m], as the code computes it. *)
Definition kl_term (n m : Z) (ab : Z * Z) : R :=
  let p := mdiv (IZR ab.1) (IZR n) in
  let q := mdiv (IZR ab.2) (IZR m) in
  (p * mlog2 (mdiv p q))%R.


(* ===================================================================== *)
(** * The summary as the design document words it                          *)
(* ===================================================================== *)

(** One input row of the summarizer: the key it is deduplicated on
    (block_fips, variable_group), the key it is grouped on
    (cbsa_title, state_codes, group_label), its [dkl_block] and its
    [p_ni]. *)
Record mi_row : Type := mkMiRow {
  block_of : list cell;
  group_of : list cell;
  dkl_of : R;
  share_of : R
}.

Definition mi_rows (Kd Kg : list (list cell)) (D P : list R) : list mi_row :=
  zip_with (fun (x : list cell * list cell) (y : R * R) => mkMiRow x.1 x.2 y.1 y.2)
           (zip Kd Kg) (zip D P).

(** Step 1: one row per (block, category group), by deduplication: of the
    rows with the same key the first stays. *)
Fixpoint keep_first {A : Type} (key : A -> list cell) (seen : list (list cell))
  (rows : list A) : list A :=
  match rows with
  | [] => []
  | r :: rest =>
      if decide (key r ∈ seen) then keep_first key seen rest
      else r :: keep_first key (key r :: seen) rest
  end.

Definition dedup_blocks (rows : list mi_row) : list mi_row :=
  keep_first block_of [] rows.

(** Steps 2 to 4: within the group [g] of the deduplicated rows, the mean
    of [dkl_block] weighted by [p_ni]; 0 for a group of total weight 0. *)
Definition mi_of (rows : list mi_row) (g : list cell) : R :=
  let members := filter (fun r => group_of r = g) (dedup_blocks rows) in
  let total_weight := Rsum (share_of <$> members) in
  if decide (total_weight = 0%R) then 0%R
  else (Rsum ((fun r => dkl_of r * share_of r)%R <$> members) / total_weight)%R.

(** A Series that arithmetic accepts. *)
Definition numeric (s : series) : bool :=
  match s with
  | ObjS _ => false
  | _ => true
  end.

(* ===================================================================== *)
(** * Example tables                                                       *)
(* ===================================================================== *)

Definition strs (l : list string) : series := ObjS (Some <$> l).

(** Tables with int64 counts never reach the conversion of strings. *)
Definition no_strings : string -> option float := fun _ => None.

(** One metro, category group "B19001", two blocks with two bins each:
    block A has 10 and 90 of 100, block B has 50 and 50 of 100; the metro
    has 60 and 140 of 200. *)
Definition two_blocks : DataFrame :=
  mkDF 4
    [ ("block_fips", strs ["A"; "A"; "B"; "B"]);
      ("cbsa_fips", strs ["16980"; "16980"; "16980"; "16980"]);
      ("cbsa_title", strs ["Metro"; "Metro"; "Metro"; "Metro"]);
      ("state_codes", strs ["IL"; "IL"; "IL"; "IL"]);
      ("variable", strs ["B19001_002"; "B19001_003"; "B19001_002"; "B19001_003"]);
      ("variable_group", strs ["B19001"; "B19001"; "B19001"; "B19001"]);
      ("group_label", strs ["Household Income"; "Household Income";
                            "Household Income"; "Household Income"]);
      ("block_estimate", IntS [10; 90; 50; 50]%Z);
      ("block_total", IntS [100; 100; 100; 100]%Z);
      ("cbsa_estimate", IntS [60; 140; 60; 140]%Z);
      ("cbsa_total", IntS [200; 200; 200; 200]%Z) ].

(** The same table without its [cbsa_total] column. *)
Definition two_blocks_no_total : DataFrame :=
  mkDF 4 (filter (fun cs => cs.1 ≠ "cbsa_total") (columns two_blocks)).

(** An empty block in an empty metro: every count is 0. *)
Definition empty_block : DataFrame :=
  mkDF 1
    [ ("block_fips", strs ["A"]);
      ("cbsa_fips", strs ["16980"]);
      ("variable", strs ["B19001_002"]);
      ("variable_group", strs ["B19001"]);
      ("block_estimate", IntS [0]%Z);
      ("block_total", IntS [0]%Z);
      ("cbsa_estimate", IntS [0]%Z);
      ("cbsa_total", IntS [0]%Z) ].

(** A malformed row: a negative block count. *)
Definition negative_count : DataFrame :=
  mkDF 1
    [ ("block_fips", strs ["A"]);
      ("cbsa_fips", strs ["16980"]);
      ("variable", strs ["B19001_002"]);
      ("variable_group", strs ["B19001"]);
      ("block_estimate", IntS [-5]%Z);
      ("block_total", IntS [10]%Z);
      ("cbsa_estimate", IntS [20]%Z);
      ("cbsa_total", IntS [40]%Z) ].

(** The output of [calculate_dkl] as [get_mutual_info] reads it: the two
    blocks have divergences 3 and 1 and each holds half of the metro. *)
Definition two_blocks_dkl : DataFrame :=
  mkDF 4
    [ ("block_fips", strs ["A"; "A"; "B"; "B"]);
      ("variable_group", strs ["B19001"; "B19001"; "B19001"; "B19001"]);
      ("group_label", strs ["Household Income"; "Household Income";
                            "Household Income"; "Household Income"]);
      ("block_total", IntS [100; 100; 100; 100]%Z);
      ("dkl_block", FloatS (Fin <$> [3; 3; 1; 1]%R));
      ("p_ni", FloatS (Fin <$> [1 / 2; 1 / 2; 1 / 2; 1 / 2]%R));
      ("cbsa_fips", strs ["16980"; "16980"; "16980"; "16980"]);
      ("cbsa_title", strs ["Metro"; "Metro"; "Metro"; "Metro"]);
      ("cbsa_total", IntS [200; 200; 200; 200]%Z);
      ("state_codes", strs ["IL"; "IL"; "IL"; "IL"]) ].

(** Two rows of one block and category group that name two metros. *)
Definition one_block_two_metros : DataFrame :=
  mkDF 2
    [ ("block_fips", strs ["A"; "A"]);
      ("variable_group", strs ["B19001"; "B19001"]);
      ("group_label", strs ["Household Income"; "Household Income"]);
      ("block_total", IntS [100; 100]%Z);
      ("dkl_block", FloatS (Fin <$> [1; 1]%R));
      ("p_ni", FloatS (Fin <$> [1; 1]%R));
      ("cbsa_fips", strs ["16980"; "35620"]);
      ("cbsa_title", strs ["Chicago"; "New York"]);
      ("cbsa_total", IntS [100; 100]%Z);
      ("state_codes", strs ["IL"; "NY"]) ].

(** One metro and category group, two blocks, one in Illinois and one in
    Indiana, with divergences 3 and 1 and half of the metro each. *)
Definition one_metro_two_states : DataFrame :=
  mkDF 2
    [ ("block_fips", strs ["A"; "B"]);
      ("variable_group", strs ["B19001"; "B19001"]);
      ("group_label", strs ["Household Income"; "Household Income"]);
      ("block_total", IntS [100; 100]%Z);
      ("dkl_block", FloatS (Fin <$> [3; 1]%R));
      ("p_ni", FloatS (Fin <$> [1 / 2; 1 / 2]%R));
      ("cbsa_fips", strs ["16980"; "16980"]);
      ("cbsa_title", strs ["Chicago"; "Chicago"]);
      ("cbsa_total", IntS [200; 200]%Z);
      ("state_codes", strs ["IL"; "IN"]) ].

(* ===================================================================== *)
(** * The callers: [3_income_2010.py], [2_calculate_dkl.py], [4_mutual_info.py] *)
(* ===================================================================== *)

Section Income2010.

Variable py_float : string -> option float.

(** [calc_dkl_income_2010] of [3_income_2010.py]: the group label stands
    in for the variable group. *)
Definition calc_dkl_income_2010 (df : loc) : M loc :=
  df ← df_copy df;
  group_label ← getitem df "group_label";
  setitem df "variable_group" group_label;;
  calculate_dkl py_float df.

End Income2010.

(** A function called on a table that nothing else refers to, such as one
    just read from a file: the call runs in a store of its own and hands
    back the table it returns. *)
Definition call_fresh (f : loc -> M loc) (d : DataFrame) : result DataFrame :=
  match f 0 {[0 := d]} with
  | (Ok l, h) =>
      match h !! l with
      | Some o => Ok o
      | None => Raise TypeError
      end
  | (Raise e, _) => Raise e
  end.

(** ** Paths, files and the log

    [pathlib.Path] is kept abstract: a type with the [/] operator and the
    [name] attribute.  What the file system answers is up to the
    environment a script runs in. *)
Class Paths : Type := {
  Path : Type;
  joinpath : Path -> string -> Path;
  path_name : Path -> string;
  DATA_DIR : Path
}.

Inductive level : Type := INFO | WARNING | ERROR.

(** The arguments of a log call. *)
Inductive arg `{Paths} : Type :=
  | APath (p : Path)
  | AStr (s : string)
  | AInt (n : Z)
  | AList (l : list string).

(** What a script can raise: an exception of the core functions or of
    [int()], the [KeyError] of [YEAR_CONFIGS[year]], or an error of the
    file system. *)
Inductive io_exn : Type :=
  | PyErr (e : exn)
  | ConfigKeyError (year : Z)
  | OSError.

(** A script as the tree of its interactions with the file system and the
    logger. *)
Inductive io `{Paths} (A : Type) : Type :=
  | Done (a : A)
  | Fail (e : io_exn)
  | Exists (p : Path) (k : bool -> io A)
  | Mkdir (p : Path) (k : io A)
  | ReadParquet (p : Path) (k : DataFrame -> io A)
  | ToParquet (d : DataFrame) (p : Path) (k : io A)
  | Log (l : level) (fmt : string) (args : list arg) (k : io A).
Arguments Done {_ A} a.
Arguments Fail {_ A} e.
Arguments Exists {_ A} p k.
Arguments Mkdir {_ A} p k.
Arguments ReadParquet {_ A} p k.
Arguments ToParquet {_ A} d p k.
Arguments Log {_ A} l fmt args k.

Fixpoint io_bind `{Paths} {A B : Type} (f : A -> io B) (m : io A) : io B :=
  match m with
  | Done a => f a
  | Fail e => Fail e
  | Exists p k => Exists p (fun b => io_bind f (k b))
  | Mkdir p k => Mkdir p (io_bind f k)
  | ReadParquet p k => ReadParquet p (fun d => io_bind f (k d))
  | ToParquet d p k => ToParquet d p (io_bind f k)
  | Log l fmt args k => Log l fmt args (io_bind f k)
  end.

#[global] Instance io_ret `{Paths} : MRet io := fun A a => Done a.
#[global] Instance io_mbind `{Paths} : MBind io := fun A B f m => io_bind f m.

Section Effects.
Context `{Paths}.

(** [p.exists()], [p.mkdir(parents=True, exist_ok=True)],
    [pd.read_parquet(p)], [d.to_parquet(p, index=False)], [logger.<l>(...)] *)
Definition path_exists (p : Path) : io bool := Exists p Done.
Definition mkdir (p : Path) : io unit := Mkdir p (Done tt).
Definition read_parquet (p : Path) : io DataFrame := ReadParquet p Done.
Definition to_parquet (d : DataFrame) (p : Path) : io unit := ToParquet d p (Done tt).
Definition log (l : level) (fmt : string) (args : list arg) : io unit :=
  Log l fmt args (Done tt).

Definition lift_result {A : Type} (r : result A) : io A :=
  match r with
  | Ok a => Done a
  | Raise e => Fail (PyErr e)
  end.

(** [for x in l: body(x)] *)
Fixpoint for_each {A : Type} (l : list A) (body : A -> io unit) : io unit :=
  match l with
  | [] => mret tt
  | x :: rest => body x;; for_each rest body
  end.

End Effects.

(** *** Running a script

    An environment answers the requests from a state of its own; [None] is
    an operation that raises. *)
Record env `{Paths} (S : Type) : Type := mkEnv {
  env_exists : Path -> S -> bool;
  env_mkdir : Path -> S -> option S;
  env_read : Path -> S -> option DataFrame;
  env_write : DataFrame -> Path -> S -> option S
}.
Arguments mkEnv {_ S} _ _ _ _.
Arguments env_exists {_ S} _ _ _.
Arguments env_mkdir {_ S} _ _ _.
Arguments env_read {_ S} _ _ _.
Arguments env_write {_ S} _ _ _ _.

(** What happened, in order, with the answers. *)
Inductive event `{Paths} : Type :=
  | EExists (p : Path) (b : bool)
  | EMkdir (p : Path)
  | ERead (p : Path) (r : option DataFrame)
  | EWrite (d : DataFrame) (p : Path)
  | ELog (l : level) (fmt : string) (args : list arg).

Inductive outcome (A : Type) : Type :=
  | Returned (a : A)
  | Raised (e : io_exn).
Arguments Returned {A} a.
Arguments Raised {A} e.

Fixpoint run `{Paths} {S A : Type} (E : env S) (m : io A) (s : S)
  : list event * outcome A * S :=
  match m with
  | Done a => ([], Returned a, s)
  | Fail e => ([], Raised e, s)
  | Exists p k =>
      let b := env_exists E p s in
      let '(tr, r, s') := run E (k b) s in (EExists p b :: tr, r, s')
  | Mkdir p k =>
      match env_mkdir E p s with
      | Some s1 => let '(tr, r, s') := run E k s1 in (EMkdir p :: tr, r, s')
      | None => ([EMkdir p], Raised OSError, s)
      end
  | ReadParquet p k =>
      match env_read E p s with
      | Some d => let '(tr, r, s') := run E (k d) s in (ERead p (Some d) :: tr, r, s')
      | None => ([ERead p None], Raised OSError, s)
      end
  | ToParquet d p k =>
      match env_write E d p s with
      | Some s1 => let '(tr, r, s') := run E k s1 in (EWrite d p :: tr, r, s')
      | None => ([EWrite d p], Raised OSError, s)
      end
  | Log l fmt args k =>
      let '(tr, r, s') := run E k s in (ELog l fmt args :: tr, r, s')
  end.


(** Python's [s[i:]] for [0 <= i] *)
Fixpoint slice_from (i : nat) (s : string) : string :=
  match i, s with
  | O, _ => s
  | S i', String _ rest => slice_from i' rest
  | S _, EmptyString => EmptyString
  end.

(** [str(n)] of an int *)
Definition str_int (n : Z) : string := pretty n.

(** ** config.py *)

Inductive config_key : Type :=
  | KInt (year : Z)
  | KStr (name : string).

#[global] Instance config_key_eq_decision : EqDecision config_key.
Proof. solve_decision. Defined.

Record year_config : Type := mkYearConfig {
  dataset : string;
  cbsa_xwalk_url : string;
  cbsa_xwalk_year_format : Z;
  available_vars : list string
}.

Definition census_files : string :=
  "https://www2.census.gov/programs-surveys/metro-micro/geographies/reference-files/".

Definition all_vars : list string := ["race"; "income"; "educ"; "empl"].

Definition YEAR_CONFIGS : list (config_key * year_config) :=
  [ (KInt 2009, mkYearConfig "acs5"
       (census_files +:+ "2009/historical-delineation-files/list3.xls") 2009 all_vars);
    (KInt 2010, mkYearConfig "acs5"
       (census_files +:+ "2009/historical-delineation-files/list3.xls") 2009 all_vars);
    (KInt 2015, mkYearConfig "acs5"
       (census_files +:+ "2015/delineation-files/list1.xls") 2015 all_vars);
    (KInt 2020, mkYearConfig "acs5"
       (census_files +:+ "2020/delineation-files/list1_2020.xls") 2020 all_vars);
    (KInt 2021, mkYearConfig "acs5"
       (census_files +:+ "2020/delineation-files/list1_2020.xls") 2020 all_vars);
    (KInt 2022, mkYearConfig "acs5"
       (census_files +:+ "2020/delineation-files/list1_2020.xls") 2020 all_vars);
    (KInt 2023, mkYearConfig "acs5"
       (census_files +:+ "2020/delineation-files/list1_2020.xls") 2020 all_vars);
    (KStr "2010dec", mkYearConfig "sf1"
       (census_files +:+ "2009/historical-delineation-files/list3.xls") 2009 ["race"]);
    (KStr "2000dec", mkYearConfig "sf1"
       (census_files +:+ "2003/historical-delineation-files/0312cbsas-csas.xls") 2003 all_vars) ].

(** [YEAR_CONFIGS[key]] *)
Fixpoint config_get (key : config_key) (l : list (config_key * year_config))
  : option year_config :=
  match l with
  | [] => None
  | (k, c) :: rest => if decide (k = key) then Some c else config_get key rest
  end.

(** ** 2_calculate_dkl.py *)
Module CalculateDkl.
Section Script.
Context `{Paths}.
Variable py_float : string -> option float.

Definition _clean_path (year : Z) (var_group geo : string) : Path :=
  let yr_short := slice_from 2 (str_int year) in
  if String.eqb geo "tract" then
    joinpath (joinpath DATA_DIR ("acs5_tract_" +:+ str_int year +:+ "_data"))
             (var_group +:+ "_" +:+ yr_short +:+ "_tract_all_states.parquet")
  else
    joinpath (joinpath DATA_DIR ("acs5_block_" +:+ str_int year +:+ "_data"))
             (var_group +:+ "_" +:+ yr_short +:+ "_blkgrp_all_states.parquet").

Definition _dkl_path (year : Z) (var_group geo : string) : Path :=
  let yr_short := slice_from 2 (str_int year) in
  if String.eqb geo "tract" then
    joinpath (joinpath DATA_DIR ("acs5_tract_" +:+ str_int year +:+ "_data"))
             ("dkl_" +:+ var_group +:+ "_" +:+ yr_short +:+ "_tract_all_states.parquet")
  else
    joinpath (joinpath DATA_DIR ("acs5_block_" +:+ str_int year +:+ "_data"))
             ("dkl_" +:+ var_group +:+ "_" +:+ yr_short +:+ "_blkgrp_all_states.parquet").

(** The body of the loop of [run_dkl_for_year] for one variable group;
    [continue] ends it. *)
Definition run_dkl_for_group (year : Z) (config : year_config) (geo vg : string)
  : io unit :=
  if bool_decide (vg ∉ available_vars config) then
    log WARNING "Skipping %s for %d — not in available_vars." [AStr vg; AInt year]
  else
    let clean_path := _clean_path year vg geo in
    found ← path_exists clean_path;
    if negb found then
      log ERROR "Clean file not found: %s — run 1_clean.py --geo %s first."
          [APath clean_path; AStr geo]
    else
      let out_path := _dkl_path year vg geo in
      out_exists ← path_exists out_path;
      if (out_exists : bool) then
        log INFO "Already exists, skipping: %s" [AStr (path_name out_path)]
      else
        log INFO "Calculating DKL for %d — %s (%s) …" [AInt year; AStr vg; AStr geo];;
        df ← read_parquet clean_path;
        dkl_df ← lift_result (call_fresh (calculate_dkl py_float) df);
        to_parquet dkl_df out_path;;
        log INFO "Saved %s (%d rows)" [AStr (path_name out_path); AInt (Z.of_nat (nrows dkl_df))].

Definition run_dkl_for_year (year : Z) (var_groups : list string) (geo : string)
  : io unit :=
  config ← match config_get (KInt year) YEAR_CONFIGS with
           | Some c => mret c
           | None => Fail (ConfigKeyError year)
           end;
  for_each var_groups (run_dkl_for_group year config geo).

End Script.
End CalculateDkl.

(** ** 4_mutual_info.py *)
Module MutualInfo.
Section Script.
Context `{Paths}.

(** Python's [int(s)] on a string, [None] where it raises. *)
Variable py_int : string -> option Z.

Definition full_year (year_tag : string) : io string :=
  match py_int year_tag with
  | Some n => mret (if (n <? 50)%Z then "20" +:+ year_tag else "19" +:+ year_tag)
  | None => Fail (PyErr ValueError)
  end.

Definition _dkl_path (year_tag var_group geo : string) : io Path :=
  full_year ← full_year year_tag;
  if String.eqb geo "tract" then
    mret (joinpath (joinpath DATA_DIR ("acs5_tract_" +:+ full_year +:+ "_data"))
            ("dkl_" +:+ var_group +:+ "_" +:+ year_tag +:+ "_tract_all_states.parquet"))
  else
    mret (joinpath (joinpath DATA_DIR ("acs5_block_" +:+ full_year +:+ "_data"))
            ("dkl_" +:+ var_group +:+ "_" +:+ year_tag +:+ "_blkgrp_all_states.parquet")).

Definition _mi_path (year_tag var_group geo : string) : io Path :=
  full_year ← full_year year_tag;
  if String.eqb geo "tract" then
    let d := joinpath DATA_DIR ("acs5_tract_" +:+ full_year +:+ "_data") in
    mkdir d;;
    mret (joinpath d ("mi_" +:+ var_group +:+ "_" +:+ year_tag +:+ "_tract_all_states.parquet"))
  else
    let d := joinpath DATA_DIR ("acs5_block_" +:+ full_year +:+ "_data") in
    mkdir d;;
    mret (joinpath d ("mi_" +:+ var_group +:+ "_" +:+ year_tag +:+ "_blkgrp_all_states.parquet")).

Definition required : list string :=
  ["block_fips"; "variable_group"; "group_label"; "block_total";
   "dkl_block"; "p_ni"; "cbsa_title"; "cbsa_total"; "state_codes"].

(** The body of [save_mi_file] once the two paths are known. *)
Definition save_mi_body (var_group year_tag : string) (path out_path : Path)
  : io unit :=
  found ← path_exists path;
  if negb found then
    log WARNING "DKL file not found, skipping: %s" [APath path]
  else
    out_exists ← path_exists out_path;
    if (out_exists : bool) then
      log INFO "Already exists, skipping: %s" [AStr (path_name out_path)]
    else
      log INFO "Computing MI for %s %s …" [AStr var_group; AStr year_tag];;
      dkl_df ← read_parquet path;
      let missing := filter (fun c => c ∉ col_names dkl_df) required in
      if bool_decide (missing ≠ []) then
        log ERROR "Missing columns in %s: %s" [AStr (path_name path); AList missing]
      else
        mi_df ← lift_result (call_fresh get_mutual_info dkl_df);
        to_parquet mi_df out_path;;
        log INFO "Saved %s (%d rows)"
            [AStr (path_name out_path); AInt (Z.of_nat (nrows mi_df))].

Definition save_mi_file (var_group year_tag : string) (dkl_path : option Path)
  (geo : string) : io unit :=
  path ← match dkl_path with
         | Some p => mret p
         | None => _dkl_path year_tag var_group geo
         end;
  out_path ← _mi_path year_tag var_group geo;
  save_mi_body var_group year_tag path out_path.

End Script.
End MutualInfo.

(** ** What a trace shows *)

Section Traces.
Context `{Paths}.

Definition is_write (e : event) : bool :=
  match e with EWrite _ _ => true | _ => false end.

(** Every write of the trace comes right after three steps: the question
    whether its target exists, answered no, a log line, and the reading of
    a table; [Q source table target written] relates the four. *)
Definition each_write (Q : Path -> DataFrame -> Path -> DataFrame -> Prop)
  (tr : list event) : Prop :=
  forall pre d p post, tr = pre ++ EWrite d p :: post ->
    exists pre' l fmt args q src,
      pre = pre' ++ [EExists p false; ELog l fmt args; ERead q (Some src)] /\
      Q q src p d.

End Traces.

(** ** Strings of decimal digits *)

Definition digit_of (a : Ascii.ascii) : option Z :=
  let n := Z.of_nat (Ascii.nat_of_ascii a) in
  if decide (48 <= n <= 57)%Z then Some (n - 48)%Z else None.

Fixpoint decimal_from (acc : Z) (s : string) : option Z :=
  match s with
  | EmptyString => Some acc
  | String a rest => d ← digit_of a; decimal_from (10 * acc + d) rest
  end.

(** The number a non-empty string of digits writes. *)
Definition decimal (s : string) : option Z :=
  match s with
  | EmptyString => None
  | _ => decimal_from 0 s
  end.

(** What [run_dkl_for_year] may write: the result of [calculate_dkl] on the
    clean file of one of the variable groups, to the DKL file of that
    group. *)
Definition dkl_write `{Paths} (py_float : string -> option float)
  (year : Z) (vgs : list string) (geo : string)
  (q : Path) (src : DataFrame) (p : Path) (d : DataFrame) : Prop :=
  exists vg, vg ∈ vgs /\
    q = CalculateDkl._clean_path year vg geo /\
    p = CalculateDkl._dkl_path year vg geo /\
    call_fresh (calculate_dkl py_float) src = Ok d.

(** The short tag of a year reads back as the year. *)
Definition year_tag_ok (year : Z) : bool :=
  let tag := slice_from 2 (str_int year) in
  match decimal tag with
  | Some n => bool_decide ((if (n <? 50)%Z then "20" +:+ tag else "19" +:+ tag) = str_int year)
  | None => false
  end.

(** A float that may be missing. *)
Definition opt_float (x : option R) : float := from_option Fin NaN x.

(** ** More example tables *)

(** One block with 1 and 1 of 2 in a metro with 2 and 2 of 4: the block has
    the composition of its metro. *)
Definition mirror_block : DataFrame :=
  mkDF 2
    [ ("block_fips", strs ["A"; "A"]);
      ("cbsa_fips", strs ["16980"; "16980"]);
      ("variable", strs ["B19001_002"; "B19001_003"]);
      ("variable_group", strs ["B19001"; "B19001"]);
      ("block_estimate", IntS [1; 1]%Z);
      ("block_total", IntS [2; 2]%Z);
      ("cbsa_estimate", IntS [2; 2]%Z);
      ("cbsa_total", IntS [4; 4]%Z) ].

(** A row without a block identifier. *)
Definition block_without_id : DataFrame :=
  mkDF 1
    [ ("block_fips", ObjS [None]);
      ("cbsa_fips", strs ["16980"]);
      ("variable", strs ["B19001_002"]);
      ("variable_group", strs ["B19001"]);
      ("block_estimate", IntS [10]%Z);
      ("block_total", IntS [100]%Z);
      ("cbsa_estimate", IntS [60]%Z);
      ("cbsa_total", IntS [200]%Z) ].

(** [two_blocks_dkl] with other values on the second row of each block. *)
Definition two_blocks_dkl_later_rows : DataFrame :=
  mkDF 4
    [ ("block_fips", strs ["A"; "A"; "B"; "B"]);
      ("variable_group", strs ["B19001"; "B19001"; "B19001"; "B19001"]);
      ("group_label", strs ["Household Income"; "Household Income";
                            "Household Income"; "Household Income"]);
      ("block_total", IntS [100; 100; 100; 100]%Z);
      ("dkl_block", FloatS (Fin <$> [3; 7; 1; 9]%R));
      ("p_ni", FloatS (Fin <$> [1 / 2; 0; 1 / 2; 1 / 4]%R));
      ("cbsa_fips", strs ["16980"; "16980"; "16980"; "16980"]);
      ("cbsa_title", strs ["Metro"; "Metro"; "Metro"; "Metro"]);
      ("cbsa_total", IntS [200; 200; 200; 200]%Z);
      ("state_codes", strs ["IL"; "IL"; "IL"; "IL"]) ].

(** [two_blocks_dkl] without its [cbsa_fips] column. *)
Definition two_blocks_dkl_nine : DataFrame :=
  mkDF 4 (filter (fun cs => cs.1 ≠ "cbsa_fips") (columns two_blocks_dkl)).

(** The nine columns and no row. *)
Definition no_rows : DataFrame :=
  mkDF 0
    [ ("block_fips", ObjS []); ("variable_group", ObjS []); ("group_label", ObjS []);
      ("block_total", IntS []); ("dkl_block", FloatS []); ("p_ni", FloatS []);
      ("cbsa_title", ObjS []); ("cbsa_total", IntS []); ("state_codes", ObjS []) ].

(** A group of two blocks of equal weight, the first without a
    divergence. *)
Definition group_with_gap : DataFrame :=
  mkDF 2
    [ ("dkl_block", FloatS [NaN; Fin 3]);
      ("p_ni", FloatS [Fin 1; Fin 1]) ].

(** Paths as lists of components. *)
Definition list_paths : Paths :=
  {| Path := list string;
     joinpath := fun p s => p ++ [s];
     path_name := fun p => default ""%string (last p);
     DATA_DIR := ["data"%string] |}.

(** A file system in which exactly the paths of [there] exist and every
    file holds the table [t]; nothing fails. *)
Definition answering (there : list (list string)) (t : DataFrame)
  : @env list_paths unit :=
  @mkEnv list_paths unit
    (fun p _ => bool_decide (p ∈ there))
    (fun _ _ => Some tt)
    (fun _ _ => Some t)
    (fun _ _ _ => Some tt).
Lemma bind_run {A B : Type} (m : M A) (f : A -> M B) h a h' :
  m h = (Ok a, h') -> (m ≫= f) h = f a h'.
Proof. intros E. unfold mbind, M_bind. by rewrite E. Qed.

Lemma bind_raise {A B : Type} (m : M A) (f : A -> M B) h e h' :
  m h = (Raise e, h') -> (m ≫= f) h = (Raise e, h').
Proof. intros E. unfold mbind, M_bind. by rewrite E. Qed.

Lemma deref_run h l d : h !! l = Some d -> deref l h = (Ok d, h).
Proof. intros E. unfold deref. by rewrite E. Qed.

Lemma setitem_run h l d c s :
  h !! l = Some d -> series_len s = nrows d ->
  setitem l c s h = (Ok tt, <[l := df_set d c s]> h).
Proof.
  intros E L. unfold setitem. rewrite E, L, Nat.eqb_refl. done.
Qed.

Lemma assoc_get_set c c' s cols :
  assoc_get c' (assoc_set c s cols) = if String.eqb c c' then Some s else assoc_get c' cols.
Proof.
  induction cols as [|[c0 s0] cols IH]; simpl.
  - done.
  - destruct (String.eqb c0 c) eqn:E0; simpl.
    + apply String.eqb_eq in E0. subst c0.
      destruct (String.eqb c c'); done.
    + destruct (String.eqb c0 c') eqn:E1.
      * apply String.eqb_eq in E1. subst c0.
        rewrite String.eqb_sym in E0. by rewrite E0.
      * done.
Qed.

Lemma df_get_set d c s c' :
  df_get (df_set d c s) c' = if String.eqb c c' then Some s else df_get d c'.
Proof. apply assoc_get_set. Qed.

Lemma count_rows_proj BE BT CE CT n :
  length BE = n -> length BT = n -> length CE = n -> length CT = n ->
  BE = be <$> count_rows BE BT CE CT /\ BT = bt <$> count_rows BE BT CE CT /\
  CE = ce <$> count_rows BE BT CE CT /\ CT = ct <$> count_rows BE BT CE CT.
Proof.
  revert BE BT CE CT. induction n as [|n IH]; intros [|a BE] [|b BT] [|c CE] [|e CT]; simpl; try discriminate; auto.
  intros L1 L2 L3 L4. destruct (IH BE BT CE CT) as (H1 & H2 & H3 & H4); try lia.
  unfold count_rows in *. simpl. repeat split; f_equal; done.
Qed.

Lemma getfloat_run pf h l d c : h !! l = Some d -> getfloat pf l c h = (frame_float pf d c, h).
Proof. intros E. unfold getfloat. by rewrite (bind_run _ _ _ _ _ (deref_run _ _ _ E)). Qed.
Lemma getvalues_run h l d c : h !! l = Some d -> getvalues l c h = (frame_values d c, h).
Proof. intros E. unfold getvalues. by rewrite (bind_run _ _ _ _ _ (deref_run _ _ _ E)). Qed.
Lemma groupby_transform_sum_run h l d by_ c :
  h !! l = Some d -> groupby_transform_sum l by_ c h = (frame_transform_sum d by_ c, h).
Proof. intros E. unfold groupby_transform_sum. by rewrite (bind_run _ _ _ _ _ (deref_run _ _ _ E)). Qed.

Lemma frame_values_set_eq d c l :
  frame_values (df_set d c (FloatS l)) c = Ok l.
Proof. unfold frame_values, frame_getitem. rewrite df_get_set, String.eqb_refl. done. Qed.

Lemma frame_getitem_set_ne d c s c' :
  String.eqb c c' = false -> frame_getitem (df_set d c s) c' = frame_getitem d c'.
Proof. intros E. unfold frame_getitem. by rewrite df_get_set, E. Qed.

Lemma frame_values_set_ne d c s c' :
  String.eqb c c' = false -> frame_values (df_set d c s) c' = frame_values d c'.
Proof. intros E. unfold frame_values. by rewrite frame_getitem_set_ne. Qed.

Lemma frame_getitems_set_ne d c s cs :
  forallb (fun c' => negb (String.eqb c c')) cs = true ->
  frame_getitems (df_set d c s) cs = frame_getitems d cs.
Proof.
  induction cs as [|c' cs IH]; simpl; [done|].
  intros [E1 E2]%andb_true_iff. apply negb_true_iff in E1.
  rewrite frame_getitem_set_ne, IH by done. done.
Qed.

Lemma frame_keys_set_ne d c s cs :
  forallb (fun c' => negb (String.eqb c c')) cs = true ->
  frame_keys (df_set d c s) cs = frame_keys d cs.
Proof. intros E. unfold frame_keys. by rewrite frame_getitems_set_ne. Qed.

Lemma map_same2 {A B C D} (f : B -> C -> D) (g : A -> B) (k : A -> C) (l : list A) :
  zip_with f (g <$> l) (k <$> l) = (fun x => f (g x) (k x)) <$> l.
Proof. rewrite zip_with_fmap_l, zip_with_fmap_r, zip_with_diag. done. Qed.


Lemma masked_div_rows {A} (f g : A -> float) (rows : list A) :
  np_where (vgt0 (g <$> rows)) (vdiv (f <$> rows) (g <$> rows)) zero
  = (fun r => masked_div (f r) (g r)) <$> rows.
Proof.
  unfold np_where, vgt0, vdiv. rewrite <- list_fmap_compose, !map_same2. done.
Qed.

Lemma masked_log2_rows {A} (f : A -> float) (rows : list A) :
  let x := f <$> rows in
  let lg := np_log2_where x (vgt0 x) (np_zeros_like x) in
  np_where (np_isfinite lg) lg zero = (fun r => masked_log2 (f r)) <$> rows.
Proof.
  cbv zeta. unfold np_where, vgt0, np_isfinite, np_log2_where, np_zeros_like.
  rewrite <- !list_fmap_compose, !map_same2, <- !list_fmap_compose, !map_same2. done.
Qed.

Lemma vmul_rows {A} (f g : A -> float) (rows : list A) :
  vmul (f <$> rows) (g <$> rows) = (fun r => fmul (f r) (g r)) <$> rows.
Proof. apply map_same2. Qed.

(** One statement of the body: run it on the store [<[l := d]> h]. *)
Ltac run_set :=
  erewrite bind_run;
  [ | erewrite setitem_run;
      [ reflexivity | apply lookup_insert_eq
      | simpl; unfold transform_sum; rewrite ?length_fmap; done ] ];
  rewrite insert_insert_eq.

Ltac run_get :=
  erewrite bind_run;
  [ | rewrite getvalues_run with (1 := lookup_insert_eq _ _ _);
      rewrite ?frame_values_set_eq;
      repeat (rewrite frame_values_set_ne by reflexivity; rewrite ?frame_values_set_eq);
      reflexivity ].


Lemma wf_frame_len d c s :
  wf_frame d = true -> df_get d c = Some s -> series_len s = nrows d.
Proof.
  unfold wf_frame, df_get. intros [W _]%andb_true_iff. revert W.
  induction (columns d) as [|[c0 s0] cols IH]; simpl; [done|].
  intros [E W]%andb_true_iff. destruct (String.eqb c0 c).
  - intros [= <-]. by apply Nat.eqb_eq in E.
  - by apply IH.
Qed.

Lemma frame_getitem_Ok d c s : frame_getitem d c = Ok s <-> df_get d c = Some s.
Proof. unfold frame_getitem. destruct (df_get d c); split; congruence. Qed.

Lemma cells_length s : length (cells s) = series_len s.
Proof. destruct s; simpl; by rewrite length_fmap. Qed.

Lemma row_keys_length n ss :
  Forall (fun s => series_len s = n) ss -> length (row_keys n ss) = n.
Proof.
  induction 1 as [|s ss E _ IH]; simpl.
  - by rewrite length_replicate.
  - rewrite length_zip_with, cells_length, IH, E. lia.
Qed.

Lemma frame_getitems_len d cs ss :
  wf_frame d = true -> frame_getitems d cs = Ok ss ->
  Forall (fun s => series_len s = nrows d) ss.
Proof.
  intros W. revert ss. induction cs as [|c cs IH]; simpl; intros ss.
  - intros [= <-]. constructor.
  - destruct (frame_getitem d c) as [s|] eqn:E; simpl; [|done].
    destruct (frame_getitems d cs) as [ss'|]; simpl; [|done].
    intros [= <-]. constructor; [|by apply IH].
    apply frame_getitem_Ok in E. by eapply wf_frame_len.
Qed.

Lemma frame_keys_length d cs K :
  wf_frame d = true -> frame_keys d cs = Ok K -> length K = nrows d.
Proof.
  intros W. unfold frame_keys.
  destruct (frame_getitems d cs) as [ss|] eqn:E; simpl; [|done].
  intros [= <-]. apply row_keys_length. by eapply frame_getitems_len.
Qed.

Section Run.
Variable py_float : string -> option float.

Lemma astype_float_length s l :
  astype_float py_float s = Ok l -> length l = series_len s.
Proof.
  destruct s as [zs|fs|os]; simpl.
  - intros [= <-]. by rewrite length_fmap.
  - by intros [= <-].
  - destruct (mapM _ os) as [k|] eqn:E; [|done].
    intros [= <-]. symmetry. by eapply length_mapM.
Qed.

Lemma frame_float_length d c l :
  wf_frame d = true -> frame_float py_float d c = Ok l -> length l = nrows d.
Proof.
  intros W. unfold frame_float.
  destruct (frame_getitem d c) as [s|] eqn:E; simpl; [|done].
  intros H. apply astype_float_length in H. rewrite H.
  apply frame_getitem_Ok in E. by eapply wf_frame_len.
Qed.

Lemma calculate_dkl_run h df d BE BT CE CT :
  h !! df = Some d ->
  frame_float py_float d "block_estimate" = Ok BE ->
  frame_float py_float d "block_total" = Ok BT ->
  frame_float py_float d "cbsa_estimate" = Ok CE ->
  frame_float py_float d "cbsa_total" = Ok CT ->
  length BE = nrows d -> length BT = nrows d -> length CE = nrows d -> length CT = nrows d ->
  match frame_keys d block_key with
  | Raise e => exists d', calculate_dkl py_float df h = (Raise e, <[fresh (dom h) := d']> h)
  | Ok K1 =>
      length K1 = nrows d ->
      match frame_keys d bin_key with
      | Raise e => exists d', calculate_dkl py_float df h = (Raise e, <[fresh (dom h) := d']> h)
      | Ok K2 =>
          length K2 = nrows d ->
          calculate_dkl py_float df h =
            (Ok (fresh (dom h)),
             <[fresh (dom h) := dkl_frame d (count_rows BE BT CE CT) K1 K2]> h)
      end
  end.
Proof.
  intros Hd HBE HBT HCE HCT LBE LBT LCE LCT.
  destruct (count_rows_proj BE BT CE CT _ LBE LBT LCE LCT) as (EBE & EBT & ECE & ECT).
  set (rows := count_rows BE BT CE CT) in *.
  assert (Lr : length rows = nrows d) by (rewrite <- LBE, EBE at 1; by rewrite length_fmap).
  clearbody rows.
  set (l := fresh (dom h)).
  unfold calculate_dkl.
  unfold df_copy.
  rewrite (bind_run _ _ h l (<[l := d]> h)).
  2:{ rewrite (bind_run _ _ _ _ _ (deref_run _ _ _ Hd)). done. }
  rewrite (bind_run _ _ _ BE (<[l := d]> h)) by (rewrite getfloat_run with (d:=d) by apply lookup_insert_eq; by rewrite HBE).
  rewrite (bind_run _ _ _ BT (<[l := d]> h)) by (rewrite getfloat_run with (d:=d) by apply lookup_insert_eq; by rewrite HBT).
  rewrite (bind_run _ _ _ CE (<[l := d]> h)) by (rewrite getfloat_run with (d:=d) by apply lookup_insert_eq; by rewrite HCE).
  rewrite (bind_run _ _ _ CT (<[l := d]> h)) by (rewrite getfloat_run with (d:=d) by apply lookup_insert_eq; by rewrite HCT).
  rewrite EBE, EBT, ECE, ECT.
  rewrite !masked_div_rows.
  do 4 run_set.
  do 4 run_get.
  rewrite !masked_div_rows. cbv zeta. rewrite !masked_log2_rows.
  do 2 run_set.
  do 2 run_get. rewrite vmul_rows. run_set.
  do 2 run_get. rewrite vmul_rows. run_set.
  destruct (frame_keys d block_key) as [K1|e] eqn:HK1.
  2:{ eexists. erewrite bind_raise; [reflexivity|].
      rewrite groupby_transform_sum_run with (1 := lookup_insert_eq _ _ _).
      unfold frame_transform_sum.
      rewrite !frame_keys_set_ne by reflexivity. fold block_key. rewrite HK1. reflexivity. }
  intros LK1.
  erewrite bind_run.
  2:{ rewrite groupby_transform_sum_run with (1 := lookup_insert_eq _ _ _).
      unfold frame_transform_sum.
      rewrite !frame_keys_set_ne by reflexivity. fold block_key. rewrite HK1. simpl.
      rewrite frame_values_set_ne by reflexivity. rewrite frame_values_set_eq.
      reflexivity. }
  run_set.
  destruct (frame_keys d bin_key) as [K2|e] eqn:HK2.
  2:{ eexists. erewrite bind_raise; [reflexivity|].
      rewrite groupby_transform_sum_run with (1 := lookup_insert_eq _ _ _).
      unfold frame_transform_sum.
      rewrite !frame_keys_set_ne by reflexivity. fold bin_key. rewrite HK2. reflexivity. }
  intros LK2.
  erewrite bind_run.
  2:{ rewrite groupby_transform_sum_run with (1 := lookup_insert_eq _ _ _).
      unfold frame_transform_sum.
      rewrite !frame_keys_set_ne by reflexivity. fold bin_key. rewrite HK2. simpl.
      rewrite frame_values_set_ne by reflexivity. rewrite frame_values_set_eq.
      reflexivity. }
  run_set.
  reflexivity.
Qed.

(** [calculate_dkl] on a well-formed frame: the result of [dkl_pure], in a
    fresh location; nothing else of the store changes. *)
Lemma calculate_dkl_spec h df d :
  h !! df = Some d -> wf_frame d = true ->
  match dkl_pure py_float d with
  | Ok o => calculate_dkl py_float df h = (Ok (fresh (dom h)), <[fresh (dom h) := o]> h)
  | Raise e => exists d', calculate_dkl py_float df h = (Raise e, <[fresh (dom h) := d']> h)
  end.
Proof.
  intros Hd W. unfold dkl_pure.
  assert (Hc : (df_copy df) h = (Ok (fresh (dom h)), <[fresh (dom h) := d]> h)).
  { unfold df_copy. by rewrite (bind_run _ _ _ _ _ (deref_run _ _ _ Hd)). }
  destruct (frame_float py_float d "block_estimate") as [BE|e] eqn:HBE; simpl.
  2:{ exists d. unfold calculate_dkl. rewrite (bind_run _ _ _ _ _ Hc).
      erewrite bind_raise; [reflexivity|].
      rewrite getfloat_run with (d:=d) by apply lookup_insert_eq. by rewrite HBE. }
  destruct (frame_float py_float d "block_total") as [BT|e] eqn:HBT; simpl.
  2:{ exists d. unfold calculate_dkl. rewrite (bind_run _ _ _ _ _ Hc).
      rewrite (bind_run _ _ _ BE (<[fresh (dom h) := d]> h)) by (rewrite getfloat_run with (d:=d) by apply lookup_insert_eq; by rewrite HBE).
      erewrite bind_raise; [reflexivity|].
      rewrite getfloat_run with (d:=d) by apply lookup_insert_eq. by rewrite HBT. }
  destruct (frame_float py_float d "cbsa_estimate") as [CE|e] eqn:HCE; simpl.
  2:{ exists d. unfold calculate_dkl. rewrite (bind_run _ _ _ _ _ Hc).
      rewrite (bind_run _ _ _ BE (<[fresh (dom h) := d]> h)) by (rewrite getfloat_run with (d:=d) by apply lookup_insert_eq; by rewrite HBE).
      rewrite (bind_run _ _ _ BT (<[fresh (dom h) := d]> h)) by (rewrite getfloat_run with (d:=d) by apply lookup_insert_eq; by rewrite HBT).
      erewrite bind_raise; [reflexivity|].
      rewrite getfloat_run with (d:=d) by apply lookup_insert_eq. by rewrite HCE. }
  destruct (frame_float py_float d "cbsa_total") as [CT|e] eqn:HCT; simpl.
  2:{ exists d. unfold calculate_dkl. rewrite (bind_run _ _ _ _ _ Hc).
      rewrite (bind_run _ _ _ BE (<[fresh (dom h) := d]> h)) by (rewrite getfloat_run with (d:=d) by apply lookup_insert_eq; by rewrite HBE).
      rewrite (bind_run _ _ _ BT (<[fresh (dom h) := d]> h)) by (rewrite getfloat_run with (d:=d) by apply lookup_insert_eq; by rewrite HBT).
      rewrite (bind_run _ _ _ CE (<[fresh (dom h) := d]> h)) by (rewrite getfloat_run with (d:=d) by apply lookup_insert_eq; by rewrite HCE).
      erewrite bind_raise; [reflexivity|].
      rewrite getfloat_run with (d:=d) by apply lookup_insert_eq. by rewrite HCT. }
  pose proof (calculate_dkl_run h df d BE BT CE CT Hd HBE HBT HCE HCT
    (frame_float_length _ _ _ W HBE) (frame_float_length _ _ _ W HBT)
    (frame_float_length _ _ _ W HCE) (frame_float_length _ _ _ W HCT)) as R.
  destruct (frame_keys d block_key) as [K1|e] eqn:HK1; simpl; [|done].
  specialize (R (frame_keys_length _ _ _ W HK1)).
  destruct (frame_keys d bin_key) as [K2|e] eqn:HK2; simpl; [|done].
  exact (R (frame_keys_length _ _ _ W HK2)).
Qed.


Lemma foldl_set_nrows d new :
  nrows (foldl (fun d cs => df_set d cs.1 cs.2) d new) = nrows d.
Proof. revert d. induction new as [|[c s] new IH]; intros d; simpl; [done|]. by rewrite IH. Qed.

Lemma foldl_set_get_other d new c :
  c ∉ new.*1 ->
  df_get (foldl (fun d cs => df_set d cs.1 cs.2) d new) c = df_get d c.
Proof.
  revert d. induction new as [|[c0 s0] new IH]; intros d; simpl; [done|].
  intros [N1 N2]%not_elem_of_cons. rewrite IH by done. rewrite df_get_set.
  destruct (String.eqb c0 c) eqn:E; [|done]. apply String.eqb_eq in E. congruence.
Qed.

Lemma assoc_set_fresh c s cols :
  assoc_get c cols = None -> assoc_set c s cols = cols ++ [(c, s)].
Proof.
  induction cols as [|[c0 s0] cols IH]; simpl; [done|].
  destruct (String.eqb c0 c); [done|]. intros H. by rewrite IH.
Qed.

Lemma assoc_get_app_fresh c cols c' s' :
  c ≠ c' -> assoc_get c (cols ++ [(c', s')]) = assoc_get c cols.
Proof.
  intros N. induction cols as [|[c0 s0] cols IH]; simpl.
  - destruct (String.eqb c' c) eqn:E; [|done]. apply String.eqb_eq in E. congruence.
  - by rewrite IH.
Qed.

Lemma foldl_set_fresh d new :
  NoDup new.*1 -> (forall c, c ∈ new.*1 -> df_get d c = None) ->
  columns (foldl (fun d cs => df_set d cs.1 cs.2) d new) = columns d ++ new.
Proof.
  revert d. induction new as [|[c s] new IH]; intros d; simpl.
  - intros _ _. by rewrite app_nil_r.
  - intros [N ND]%NoDup_cons F. rewrite IH; [|done|].
    + simpl. rewrite assoc_set_fresh by (apply F; left). by rewrite <- app_assoc.
    + intros c' Hc'. unfold df_get, df_set. simpl.
      rewrite assoc_set_fresh by (apply F; left).
      rewrite assoc_get_app_fresh by (intros ->; done).
      apply F. by right.
Qed.

Lemma dkl_frame_nrows d rows K1 K2 : nrows (dkl_frame d rows K1 K2) = nrows d.
Proof. apply foldl_set_nrows. Qed.

Lemma dkl_frame_get_other d rows K1 K2 c :
  c ∉ output_columns -> df_get (dkl_frame d rows K1 K2) c = df_get d c.
Proof. intros N. by apply foldl_set_get_other. Qed.

Lemma dkl_frame_get d rows K1 K2 c s :
  (c, s) ∈ dkl_columns rows K1 K2 -> df_get (dkl_frame d rows K1 K2) c = Some s.
Proof.
  unfold dkl_frame, dkl_columns. intros H.
  repeat (apply elem_of_cons in H as [[= -> ->]|H];
          [simpl; rewrite !df_get_set; reflexivity|]).
  by apply elem_of_nil in H.
Qed.

Lemma count_rows_lookup BE BT CE CT i a b c e :
  BE !! i = Some a -> BT !! i = Some b -> CE !! i = Some c -> CT !! i = Some e ->
  count_rows BE BT CE CT !! i = Some (mkCounts a b c e).
Proof.
  intros H1 H2 H3 H4. unfold count_rows.
  rewrite lookup_zip_with, !lookup_zip_with, H1, H2, H3, H4. done.
Qed.

Lemma count_rows_length BE BT CE CT n :
  length BE = n -> length BT = n -> length CE = n -> length CT = n ->
  length (count_rows BE BT CE CT) = n.
Proof. intros. unfold count_rows. rewrite !length_zip_with. lia. Qed.

(** The output of a successful call. *)
Lemma calculate_dkl_Ok_counts h df d out h' :
  h !! df = Some d -> wf_frame d = true ->
  calculate_dkl py_float df h = (Ok out, h') ->
  exists BE BT CE CT K1 K2,
    out = fresh (dom h) /\
    h' = <[out := dkl_frame d (count_rows BE BT CE CT) K1 K2]> h /\
    frame_float py_float d "block_estimate" = Ok BE /\
    frame_float py_float d "block_total" = Ok BT /\
    frame_float py_float d "cbsa_estimate" = Ok CE /\
    frame_float py_float d "cbsa_total" = Ok CT /\
    frame_keys d block_key = Ok K1 /\ frame_keys d bin_key = Ok K2 /\
    length BE = nrows d /\ length BT = nrows d /\
    length CE = nrows d /\ length CT = nrows d /\
    length K1 = nrows d /\ length K2 = nrows d.
Proof.
  intros Hd W Hrun. pose proof (calculate_dkl_spec h df d Hd W) as S.
  unfold dkl_pure in *.
  destruct (frame_float py_float d "block_estimate") as [BE|e] eqn:HBE; simpl in *;
    [|destruct S as [? S]; congruence].
  destruct (frame_float py_float d "block_total") as [BT|e] eqn:HBT; simpl in *;
    [|destruct S as [? S]; congruence].
  destruct (frame_float py_float d "cbsa_estimate") as [CE|e] eqn:HCE; simpl in *;
    [|destruct S as [? S]; congruence].
  destruct (frame_float py_float d "cbsa_total") as [CT|e] eqn:HCT; simpl in *;
    [|destruct S as [? S]; congruence].
  destruct (frame_keys d block_key) as [K1|e] eqn:HK1; simpl in *;
    [|destruct S as [? S]; congruence].
  destruct (frame_keys d bin_key) as [K2|e] eqn:HK2; simpl in *;
    [|destruct S as [? S]; congruence].
  rewrite S in Hrun. injection Hrun as <- <-.
  exists BE, BT, CE, CT, K1, K2.
  repeat split; eauto using frame_keys_length, frame_float_length.
Qed.

Lemma count_rows_row_at d BE BT CE CT i :
  wf_frame d = true ->
  frame_float py_float d "block_estimate" = Ok BE ->
  frame_float py_float d "block_total" = Ok BT ->
  frame_float py_float d "cbsa_estimate" = Ok CE ->
  frame_float py_float d "cbsa_total" = Ok CT ->
  count_rows BE BT CE CT !! i = row_at py_float d i.
Proof.
  intros W HBE HBT HCE HCT.
  pose proof (frame_float_length _ _ _ W HBE) as LBE.
  pose proof (frame_float_length _ _ _ W HBT) as LBT.
  pose proof (frame_float_length _ _ _ W HCE) as LCE.
  pose proof (frame_float_length _ _ _ W HCT) as LCT.
  unfold row_at, count_at. rewrite HBE, HBT, HCE, HCT.
  destruct (decide (i < nrows d)) as [Hi|Hi].
  - destruct (lookup_lt_is_Some_2 BE i) as [a Ha]; [lia|].
    destruct (lookup_lt_is_Some_2 BT i) as [b Hb]; [lia|].
    destruct (lookup_lt_is_Some_2 CE i) as [c Hc]; [lia|].
    destruct (lookup_lt_is_Some_2 CT i) as [e Hxe]; [lia|].
    rewrite Ha, Hb, Hc, Hxe. simpl. by apply count_rows_lookup.
  - rewrite (lookup_ge_None_2 BE) by lia. simpl.
    apply lookup_ge_None_2. rewrite (count_rows_length _ _ _ _ (nrows d)); lia.
Qed.

(** The output of a successful call, row by row. *)
Lemma calculate_dkl_Ok h df d out h' :
  h !! df = Some d -> wf_frame d = true ->
  calculate_dkl py_float df h = (Ok out, h') ->
  exists rows K1 K2,
    out = fresh (dom h) /\
    h' = <[out := dkl_frame d rows K1 K2]> h /\
    frame_keys d block_key = Ok K1 /\ frame_keys d bin_key = Ok K2 /\
    length rows = nrows d /\ length K1 = nrows d /\ length K2 = nrows d /\
    (forall i, rows !! i = row_at py_float d i).
Proof.
  intros Hd W Hrun.
  destruct (calculate_dkl_Ok_counts h df d out h' Hd W Hrun)
    as (BE & BT & CE & CT & K1 & K2 & -> & -> & HBE & HBT & HCE & HCT & HK1 & HK2
        & LBE & LBT & LCE & LCT & LK1 & LK2).
  exists (count_rows BE BT CE CT), K1, K2.
  repeat split; eauto using count_rows_length.
  intros i. by apply count_rows_row_at.
Qed.

End Run.

(* ----- row-level arithmetic on finite values ----- *)

Lemma fgt_Fin_zero a : fgt (Fin a) zero = bool_decide (0 < a)%R.
Proof. done. Qed.

Lemma masked_div_Fin a b : masked_div (Fin a) (Fin b) = Fin (mdiv a b).
Proof.
  unfold masked_div, mdiv. rewrite fgt_Fin_zero.
  destruct (decide (0 < b)%R) as [H|H].
  - rewrite bool_decide_eq_true_2 by done. simpl.
    destruct (decide (b = 0%R)); [lra|done].
  - by rewrite bool_decide_eq_false_2.
Qed.

Lemma masked_log2_Fin x : masked_log2 (Fin x) = Fin (mlog2 x).
Proof.
  unfold masked_log2, mlog2. rewrite fgt_Fin_zero.
  destruct (decide (0 < x)%R) as [H|H].
  - rewrite bool_decide_eq_true_2 by done. simpl.
    destruct (decide (0 < x)%R); [done|lra].
  - by rewrite bool_decide_eq_false_2.
Qed.

Lemma masked_log2_finite x : exists v, masked_log2 x = Fin v.
Proof.
  unfold masked_log2.
  destruct (if fgt x zero then log2 x else zero) eqn:E; simpl; eauto.
Qed.

Lemma mdiv_zero_den a : mdiv a 0 = 0%R.
Proof. unfold mdiv. destruct (decide (0 < 0)%R); [lra|done]. Qed.

Lemma mdiv_unit a b : (0 <= a <= b)%R -> (0 <= mdiv a b <= 1)%R.
Proof.
  intros [Ha Hb]. unfold mdiv. destruct (decide (0 < b)%R) as [H|H]; [|lra].
  split.
  - apply Rmult_le_pos; [done|]. left. by apply Rinv_0_lt_compat.
  - apply Rmult_le_reg_r with b; [done|]. unfold Rdiv.
    rewrite Rmult_assoc, Rinv_l by lra. lra.
Qed.

Lemma mlog2_mdiv_nonpos p q :
  ~ (0 < q /\ 0 < p / q)%R -> mlog2 (mdiv p q) = 0%R.
Proof.
  intros N. unfold mlog2, mdiv.
  destruct (decide (0 < q)%R) as [Hq|Hq].
  - destruct (decide (0 < p / q)%R); [tauto|done].
  - destruct (decide (0 < 0)%R); [lra|done].
Qed.

Lemma dkl_frame_float_at d rows K1 K2 c l i :
  (c, FloatS l) ∈ dkl_columns rows K1 K2 ->
  float_at (dkl_frame d rows K1 K2) c i = l !! i.
Proof. intros H. unfold float_at. by rewrite (dkl_frame_get _ _ _ _ _ _ H). Qed.

Ltac in_dkl_columns :=
  unfold dkl_columns; repeat first [ by left | right ].

Section Rows.
Variable py_float : string -> option float.

(** C1 (closure over zero).  On a row of integer counts whose metro group
    total ([cbsa_total]), block group total ([block_total]) or metro bin
    total ([cbsa_estimate]) is 0, the four probability columns and the two
    log columns of the table [calculate_dkl] returns hold finite numbers,
    neither NaN nor an infinity.  The probabilities whose denominator is 0
    are 0: [p_ni] and [p_yj] for [cbsa_total], [p_ni_yj] for
    [cbsa_estimate], [p_yj_ni] for [block_total].  A log column whose ratio
    argument is not strictly positive is 0. *)
Theorem calculate_dkl_zero_closure h df d out h' i zbe zbt zce zct :
  h !! df = Some d -> wf_frame d = true ->
  calculate_dkl py_float df h = (Ok out, h') ->
  row_at py_float d i = Some (int_counts zbe zbt zce zct) ->
  (zct = 0 \/ zbt = 0 \/ zce = 0)%Z ->
  exists o (p_ni p_ni_yj p_yj p_yj_ni log_i log_j : R),
    h' !! out = Some o /\
    float_at o "p_ni" i = Some (Fin p_ni) /\
    float_at o "p_ni_yj" i = Some (Fin p_ni_yj) /\
    float_at o "p_yj" i = Some (Fin p_yj) /\
    float_at o "p_yj_ni" i = Some (Fin p_yj_ni) /\
    float_at o "dkl_log_i" i = Some (Fin log_i) /\
    float_at o "dkl_log_j" i = Some (Fin log_j) /\
    (zct = 0%Z -> p_ni = 0%R /\ p_yj = 0%R) /\
    (zce = 0%Z -> p_ni_yj = 0%R) /\
    (zbt = 0%Z -> p_yj_ni = 0%R) /\
    (~ (0 < p_yj /\ 0 < p_yj_ni / p_yj)%R -> log_i = 0%R) /\
    (~ (0 < p_ni /\ 0 < p_ni_yj / p_ni)%R -> log_j = 0%R).
Proof.
  intros Hd W Hrun Hrow _.
  destruct (calculate_dkl_Ok py_float h df d out h' Hd W Hrun)
    as (rows & K1 & K2 & -> & -> & _ & _ & _ & _ & _ & Hrows).
  rewrite <- Hrows in Hrow.
  exists (dkl_frame d rows K1 K2).
  exists (mdiv (IZR zbt) (IZR zct)), (mdiv (IZR zbe) (IZR zce)),
         (mdiv (IZR zce) (IZR zct)), (mdiv (IZR zbe) (IZR zbt)).
  exists (mlog2 (mdiv (mdiv (IZR zbe) (IZR zbt)) (mdiv (IZR zce) (IZR zct)))),
         (mlog2 (mdiv (mdiv (IZR zbe) (IZR zce)) (mdiv (IZR zbt) (IZR zct)))).
  split; [apply lookup_insert_eq|].
  rewrite (dkl_frame_float_at _ _ _ _ "p_ni" (row_p_ni <$> rows)) by in_dkl_columns.
  rewrite (dkl_frame_float_at _ _ _ _ "p_ni_yj" (row_p_ni_yj <$> rows)) by in_dkl_columns.
  rewrite (dkl_frame_float_at _ _ _ _ "p_yj" (row_p_yj <$> rows)) by in_dkl_columns.
  rewrite (dkl_frame_float_at _ _ _ _ "p_yj_ni" (row_p_yj_ni <$> rows)) by in_dkl_columns.
  rewrite (dkl_frame_float_at _ _ _ _ "dkl_log_i" (row_dkl_log_i <$> rows)) by in_dkl_columns.
  rewrite (dkl_frame_float_at _ _ _ _ "dkl_log_j" (row_dkl_log_j <$> rows)) by in_dkl_columns.
  rewrite !list_lookup_fmap, Hrow. simpl.
  unfold row_dkl_log_i, row_dkl_log_j, row_ratio_i, row_ratio_j,
    row_p_ni, row_p_ni_yj, row_p_yj, row_p_yj_ni, int_counts, of_int. simpl.
  rewrite !masked_div_Fin, !masked_log2_Fin.
  repeat split; try done.
  - subst zct. apply mdiv_zero_den.
  - subst zct. apply mdiv_zero_den.
  - intros ->. apply mdiv_zero_den.
  - intros ->. apply mdiv_zero_den.
  - apply mlog2_mdiv_nonpos.
  - apply mlog2_mdiv_nonpos.
Qed.

(** C10 (probabilities are probabilities).  On a row of integer counts
    that satisfies the invariants of the data model (counts non-negative,
    [block_estimate <= block_total], [block_estimate <= cbsa_estimate],
    [block_total <= cbsa_total], [cbsa_estimate <= cbsa_total]), each of
    [p_ni], [p_ni_yj], [p_yj] and [p_yj_ni] in the table [calculate_dkl]
    returns is a finite number of the closed interval from 0 to 1. *)
Theorem calculate_dkl_probabilities_in_unit_interval h df d out h' i zbe zbt zce zct :
  h !! df = Some d -> wf_frame d = true ->
  calculate_dkl py_float df h = (Ok out, h') ->
  row_at py_float d i = Some (int_counts zbe zbt zce zct) ->
  (0 <= zbe)%Z -> (zbe <= zbt)%Z -> (zbe <= zce)%Z ->
  (zbt <= zct)%Z -> (zce <= zct)%Z ->
  exists o (p_ni p_ni_yj p_yj p_yj_ni : R),
    h' !! out = Some o /\
    float_at o "p_ni" i = Some (Fin p_ni) /\
    float_at o "p_ni_yj" i = Some (Fin p_ni_yj) /\
    float_at o "p_yj" i = Some (Fin p_yj) /\
    float_at o "p_yj_ni" i = Some (Fin p_yj_ni) /\
    (0 <= p_ni <= 1)%R /\ (0 <= p_ni_yj <= 1)%R /\
    (0 <= p_yj <= 1)%R /\ (0 <= p_yj_ni <= 1)%R.
Proof.
  intros Hd W Hrun Hrow H0 H1 H2 H3 H4.
  destruct (calculate_dkl_Ok py_float h df d out h' Hd W Hrun)
    as (rows & K1 & K2 & -> & -> & _ & _ & _ & _ & _ & Hrows).
  rewrite <- Hrows in Hrow.
  exists (dkl_frame d rows K1 K2).
  exists (mdiv (IZR zbt) (IZR zct)), (mdiv (IZR zbe) (IZR zce)),
         (mdiv (IZR zce) (IZR zct)), (mdiv (IZR zbe) (IZR zbt)).
  split; [apply lookup_insert_eq|].
  rewrite (dkl_frame_float_at _ _ _ _ "p_ni" (row_p_ni <$> rows)) by in_dkl_columns.
  rewrite (dkl_frame_float_at _ _ _ _ "p_ni_yj" (row_p_ni_yj <$> rows)) by in_dkl_columns.
  rewrite (dkl_frame_float_at _ _ _ _ "p_yj" (row_p_yj <$> rows)) by in_dkl_columns.
  rewrite (dkl_frame_float_at _ _ _ _ "p_yj_ni" (row_p_yj_ni <$> rows)) by in_dkl_columns.
  rewrite !list_lookup_fmap, Hrow. simpl.
  unfold row_p_ni, row_p_ni_yj, row_p_yj, row_p_yj_ni, int_counts, of_int. simpl.
  rewrite !masked_div_Fin.
  apply IZR_le in H0, H1, H2, H3, H4.
  repeat split; try done; apply mdiv_unit; lra.
Qed.

End Rows.

Lemma nansum_no_nan l : NaN ∉ l -> nansum l = fsum l.
Proof.
  intros N. unfold nansum. f_equal.
  induction l as [|x l IH]; [done|].
  apply not_elem_of_cons in N as [N1 N2].
  rewrite filter_cons_True by done. by rewrite IH.
Qed.

Lemma frame_getitems_ext d d' cs :
  (forall c, c ∈ cs -> df_get d' c = df_get d c) ->
  frame_getitems d' cs = frame_getitems d cs.
Proof.
  induction cs as [|c cs IH]; simpl; [done|]. intros H.
  unfold frame_getitem. rewrite H by left.
  rewrite IH; [done|]. intros c' Hc'. apply H. by right.
Qed.

Lemma frame_keys_ext d d' cs :
  nrows d' = nrows d -> (forall c, c ∈ cs -> df_get d' c = df_get d c) ->
  frame_keys d' cs = frame_keys d cs.
Proof. intros N H. unfold frame_keys. by rewrite (frame_getitems_ext d d'), N. Qed.

Ltac names_disjoint :=
  repeat (apply not_elem_of_cons; split; [discriminate|]); apply not_elem_of_nil.

Lemma disjoint_names_block c : c ∈ block_key -> c ∉ output_columns.
Proof.
  unfold block_key, output_columns. intros H.
  repeat (apply elem_of_cons in H as [->|H]; [names_disjoint|]).
  by apply elem_of_nil in H.
Qed.

Lemma disjoint_names_bin c : c ∈ bin_key -> c ∉ output_columns.
Proof.
  unfold bin_key, output_columns. intros H.
  repeat (apply elem_of_cons in H as [->|H]; [names_disjoint|]).
  by apply elem_of_nil in H.
Qed.

Lemma dkl_frame_keys_block d rows K1 K2 :
  frame_keys (dkl_frame d rows K1 K2) block_key = frame_keys d block_key.
Proof.
  apply frame_keys_ext; [apply dkl_frame_nrows|].
  intros c Hc. apply dkl_frame_get_other. by apply disjoint_names_block.
Qed.

Lemma dkl_frame_keys_bin d rows K1 K2 :
  frame_keys (dkl_frame d rows K1 K2) bin_key = frame_keys d bin_key.
Proof.
  apply frame_keys_ext; [apply dkl_frame_nrows|].
  intros c Hc. apply dkl_frame_get_other. by apply disjoint_names_bin.
Qed.

Lemma dkl_frame_values d rows K1 K2 c l :
  (c, FloatS l) ∈ dkl_columns rows K1 K2 ->
  frame_values (dkl_frame d rows K1 K2) c = Ok l.
Proof.
  intros H. unfold frame_values, frame_getitem.
  by rewrite (dkl_frame_get _ _ _ _ _ _ H).
Qed.

Lemma transform_sum_broadcast o by_ part total K V :
  frame_keys o by_ = Ok K -> frame_values o part = Ok V ->
  frame_values o total = Ok (transform_sum K V) ->
  length K = nrows o -> length V = nrows o ->
  broadcast_group_sum o by_ part total.
Proof.
  intros HK HV HD LK LV. exists K, V, (transform_sum K V).
  repeat split; try done.
  - unfold transform_sum. by rewrite length_fmap.
  - intros i j k Hi Hj. unfold transform_sum. by rewrite !list_lookup_fmap, Hi, Hj.
  - unfold transform_sum. rewrite list_lookup_fmap, H. simpl. by rewrite H0.
  - intros N. unfold transform_sum. rewrite list_lookup_fmap, H. simpl.
    rewrite H0. by rewrite nansum_no_nan.
Qed.


Lemma frame_getitems_present d cs :
  Forall (fun c => is_Some (df_get d c)) cs -> exists ss, frame_getitems d cs = Ok ss.
Proof.
  induction 1 as [|c cs [s Hs] _ [ss IH]]; simpl; [by eexists|].
  unfold frame_getitem. rewrite Hs. simpl. rewrite IH. simpl. by eexists.
Qed.

Lemma frame_keys_present d cs :
  Forall (fun c => is_Some (df_get d c)) cs -> exists K, frame_keys d cs = Ok K.
Proof.
  intros H. destruct (frame_getitems_present d cs H) as [ss E].
  unfold frame_keys. rewrite E. simpl. by eexists.
Qed.

Lemma is_ok_Ok {A} (r : result A) : is_ok r = true -> exists a, r = Ok a.
Proof. destruct r; [by eexists|done]. Qed.

Lemma dkl_columns_names rows K1 K2 : (dkl_columns rows K1 K2).*1 = output_columns.
Proof. done. Qed.

Lemma output_columns_NoDup : NoDup output_columns.
Proof. unfold output_columns. repeat (constructor; [names_disjoint|]). constructor. Qed.

Section FrameProperties.
Variable py_float : string -> option float.

Lemma readable_input_unfold d :
  readable_input py_float d = true ->
  wf_frame d = true /\
  (exists BE BT CE CT,
     frame_float py_float d "block_estimate" = Ok BE /\
     frame_float py_float d "block_total" = Ok BT /\
     frame_float py_float d "cbsa_estimate" = Ok CE /\
     frame_float py_float d "cbsa_total" = Ok CT) /\
  (exists K1 K2, frame_keys d block_key = Ok K1 /\ frame_keys d bin_key = Ok K2).
Proof.
  unfold readable_input. intros H.
  apply andb_true_iff in H as [H Hkey].
  apply andb_true_iff in H as [W Hcnt].
  split; [done|]. split.
  - simpl in Hcnt. repeat (apply andb_true_iff in Hcnt as [?%is_ok_Ok Hcnt]).
    destruct H as [BE ?], H0 as [BT ?], H1 as [CE ?], H2 as [CT ?].
    by exists BE, BT, CE, CT.
  - assert (P : Forall (fun c => is_Some (df_get d c)) key_columns).
    { apply Forall_forall. intros c Hc. apply list_elem_of_In in Hc.
      eapply forallb_forall in Hkey; [|done]. by apply bool_decide_eq_true in Hkey. }
    destruct (frame_keys_present d block_key) as [K1 E1].
    { eapply Forall_impl with (P := fun c => c ∈ key_columns).
      - unfold block_key, key_columns. repeat (constructor; [repeat first [by left | right]|]).
        constructor.
      - intros c Hc. rewrite Forall_forall in P. by apply P. }
    destruct (frame_keys_present d bin_key) as [K2 E2].
    { eapply Forall_impl with (P := fun c => c ∈ key_columns).
      - unfold bin_key, key_columns. repeat (constructor; [repeat first [by left | right]|]).
        constructor.
      - intros c Hc. rewrite Forall_forall in P. by apply P. }
    by exists K1, K2.
Qed.

Lemma valid_input_unfold d :
  valid_input py_float d = true ->
  readable_input py_float d = true /\
  (forall c, c ∈ output_columns -> df_get d c = None).
Proof.
  unfold valid_input. intros [R Hout]%andb_true_iff. split; [done|].
  intros c Hc. apply list_elem_of_In in Hc.
  eapply forallb_forall in Hout; [|done]. by apply bool_decide_eq_true in Hout.
Qed.

(** A readable table is processed: the call returns a new table. *)
Lemma calculate_dkl_readable h df d :
  h !! df = Some d -> readable_input py_float d = true ->
  exists BE BT CE CT K1 K2,
    frame_float py_float d "block_estimate" = Ok BE /\
    frame_float py_float d "block_total" = Ok BT /\
    frame_float py_float d "cbsa_estimate" = Ok CE /\
    frame_float py_float d "cbsa_total" = Ok CT /\
    frame_keys d block_key = Ok K1 /\ frame_keys d bin_key = Ok K2 /\
    calculate_dkl py_float df h =
      (Ok (fresh (dom h)),
       <[fresh (dom h) := dkl_frame d (count_rows BE BT CE CT) K1 K2]> h).
Proof.
  intros Hd V.
  destruct (readable_input_unfold d V)
    as (W & (BE & BT & CE & CT & HBE & HBT & HCE & HCT) & (K1 & K2 & HK1 & HK2)).
  pose proof (calculate_dkl_spec py_float h df d Hd W) as S.
  unfold dkl_pure in S. rewrite HBE, HBT, HCE, HCT, HK1, HK2 in S. simpl in S.
  by exists BE, BT, CE, CT, K1, K2.
Qed.

(** C6 (shape of the result).  On a valid input table [calculate_dkl]
    returns a table with as many rows as the input, whose columns are the
    columns of the input, in their order and with their values, followed
    by exactly the ten new columns [p_ni], [p_ni_yj], [p_yj], [p_yj_ni],
    [dkl_log_i], [dkl_log_j], [dkl_block_j], [dkl_bin_i], [dkl_block] and
    [dkl_bin], each a float column with one entry per row. *)
Theorem calculate_dkl_appends_columns h df d :
  h !! df = Some d -> valid_input py_float d = true ->
  exists out h' o new,
    calculate_dkl py_float df h = (Ok out, h') /\ h' !! out = Some o /\
    nrows o = nrows d /\
    columns o = columns d ++ new /\
    new.*1 = output_columns /\
    Forall (fun cs => exists l, cs.2 = FloatS l /\ length l = nrows d) new.
Proof.
  intros Hd V. destruct (valid_input_unfold d V) as [Rd Hout].
  destruct (calculate_dkl_readable h df d Hd Rd)
    as (BE & BT & CE & CT & K1 & K2 & HBE & HBT & HCE & HCT & HK1 & HK2 & S).
  destruct (readable_input_unfold d Rd) as (W & _).
  set (rows := count_rows BE BT CE CT) in *.
  assert (Lr : length rows = nrows d).
  { apply count_rows_length; by eapply frame_float_length. }
  pose proof (frame_keys_length _ _ _ W HK1) as LK1.
  pose proof (frame_keys_length _ _ _ W HK2) as LK2.
  exists (fresh (dom h)), (<[fresh (dom h) := dkl_frame d rows K1 K2]> h),
         (dkl_frame d rows K1 K2), (dkl_columns rows K1 K2).
  split; [done|]. split; [apply lookup_insert_eq|].
  split; [apply dkl_frame_nrows|]. split; [|split; [done|]].
  - apply foldl_set_fresh; [apply output_columns_NoDup|done].
  - unfold dkl_columns, transform_sum.
    repeat (constructor; [eexists; split; [reflexivity|]; by rewrite !length_fmap|]).
    constructor.
Qed.

Lemma bad_count_not_positive x : bad_count x -> fgt x zero = false.
Proof.
  intros [->|(a & -> & Ha)]; [done|].
  rewrite fgt_Fin_zero. apply bool_decide_eq_false_2. lra.
Qed.

(** A readable table is processed, and row [i] of the result holds the
    row functions of the counts of row [i]. *)
Lemma calculate_dkl_rows h df d i r :
  h !! df = Some d -> readable_input py_float d = true ->
  row_at py_float d i = Some r ->
  exists out h' o,
    calculate_dkl py_float df h = (Ok out, h') /\ h' !! out = Some o /\
    nrows o = nrows d /\
    float_at o "p_ni" i = Some (row_p_ni r) /\
    float_at o "p_ni_yj" i = Some (row_p_ni_yj r) /\
    float_at o "p_yj" i = Some (row_p_yj r) /\
    float_at o "p_yj_ni" i = Some (row_p_yj_ni r) /\
    float_at o "dkl_log_i" i = Some (row_dkl_log_i r) /\
    float_at o "dkl_log_j" i = Some (row_dkl_log_j r) /\
    float_at o "dkl_block_j" i = Some (row_dkl_block_j r) /\
    float_at o "dkl_bin_i" i = Some (row_dkl_bin_i r).
Proof.
  intros Hd Rd Hrow.
  destruct (calculate_dkl_readable h df d Hd Rd)
    as (BE & BT & CE & CT & K1 & K2 & HBE & HBT & HCE & HCT & HK1 & HK2 & S).
  destruct (readable_input_unfold d Rd) as (W & _).
  set (rows := count_rows BE BT CE CT) in *.
  rewrite <- (count_rows_row_at py_float d BE BT CE CT i W HBE HBT HCE HCT) in Hrow.
  fold rows in Hrow.
  eexists _, _, _. split; [exact S|]. split; [apply lookup_insert_eq|].
  split; [apply dkl_frame_nrows|].
  rewrite (dkl_frame_float_at _ _ _ _ "p_ni" (row_p_ni <$> rows)) by in_dkl_columns.
  rewrite (dkl_frame_float_at _ _ _ _ "p_ni_yj" (row_p_ni_yj <$> rows)) by in_dkl_columns.
  rewrite (dkl_frame_float_at _ _ _ _ "p_yj" (row_p_yj <$> rows)) by in_dkl_columns.
  rewrite (dkl_frame_float_at _ _ _ _ "p_yj_ni" (row_p_yj_ni <$> rows)) by in_dkl_columns.
  rewrite (dkl_frame_float_at _ _ _ _ "dkl_log_i" (row_dkl_log_i <$> rows)) by in_dkl_columns.
  rewrite (dkl_frame_float_at _ _ _ _ "dkl_log_j" (row_dkl_log_j <$> rows)) by in_dkl_columns.
  rewrite (dkl_frame_float_at _ _ _ _ "dkl_block_j" (row_dkl_block_j <$> rows)) by in_dkl_columns.
  rewrite (dkl_frame_float_at _ _ _ _ "dkl_bin_i" (row_dkl_bin_i <$> rows)) by in_dkl_columns.
  rewrite !list_lookup_fmap, Hrow. simpl. done.
Qed.

(** C5, as amended (negative and missing counts).  A row with a negative
    or missing count is not rejected: on every readable table
    [calculate_dkl] returns a table with the rows of the input.  The count
    is not replaced by 0 either, it is used as it is: each probability is
    0 where its denominator is not greater than 0 (so where it is
    negative, zero or missing) and numerator / denominator elsewhere, with
    the numerator as read.  The two log columns are finite on every
    row. *)
Theorem calculate_dkl_keeps_counts_as_they_are h df d i r :
  h !! df = Some d -> readable_input py_float d = true ->
  row_at py_float d i = Some r ->
  exists out h' o,
    calculate_dkl py_float df h = (Ok out, h') /\ h' !! out = Some o /\
    nrows o = nrows d /\
    float_at o "p_ni" i = Some (if fgt (ct r) zero then fdiv (bt r) (ct r) else zero) /\
    float_at o "p_ni_yj" i = Some (if fgt (ce r) zero then fdiv (be r) (ce r) else zero) /\
    float_at o "p_yj" i = Some (if fgt (ct r) zero then fdiv (ce r) (ct r) else zero) /\
    float_at o "p_yj_ni" i = Some (if fgt (bt r) zero then fdiv (be r) (bt r) else zero) /\
    (exists li lj : R,
       float_at o "dkl_log_i" i = Some (Fin li) /\
       float_at o "dkl_log_j" i = Some (Fin lj)) /\
    (bad_count (ct r) ->
       float_at o "p_ni" i = Some zero /\ float_at o "p_yj" i = Some zero) /\
    (bad_count (ce r) -> float_at o "p_ni_yj" i = Some zero) /\
    (bad_count (bt r) -> float_at o "p_yj_ni" i = Some zero).
Proof.
  intros Hd Rd Hrow.
  destruct (calculate_dkl_rows h df d i r Hd Rd Hrow)
    as (out & h' & o & Hrun & Ho & Hn & H1 & H2 & H3 & H4 & H5 & H6 & _).
  exists out, h', o. split; [done|]. split; [done|]. split; [done|].
  rewrite H1, H2, H3, H4, H5, H6.
  unfold row_p_ni, row_p_ni_yj, row_p_yj, row_p_yj_ni, masked_div.
  repeat split; try done.
  - destruct (masked_log2_finite (row_ratio_i r)) as [li Hi].
    destruct (masked_log2_finite (row_ratio_j r)) as [lj Hj].
    exists li, lj. unfold row_dkl_log_i, row_dkl_log_j. by rewrite Hi, Hj.
  - by rewrite bad_count_not_positive.
  - by rewrite bad_count_not_positive.
  - intros B. by rewrite bad_count_not_positive.
  - intros B. by rewrite bad_count_not_positive.
Qed.

End FrameProperties.

(* ===================================================================== *)
(** * The store: what a call may change                                    *)
(* ===================================================================== *)

Lemma bind_unfold {A B : Type} (m : M A) (f : A -> M B) h :
  (m ≫= f) h =
  match m h with
  | (Ok a, h') => f a h'
  | (Raise e, h') => (Raise e, h')
  end.
Proof. done. Qed.

Lemma touches_ret {A} out (a : A) : touches_only out (mret a).
Proof. by intros h l _. Qed.

Lemma touches_lift {A} out (r : result A) : touches_only out (lift r).
Proof. by intros h l _. Qed.

Lemma touches_deref out df : touches_only out (deref df).
Proof. intros h l _. unfold deref. by destruct (h !! df). Qed.

Lemma touches_setitem out c s : touches_only out (setitem out c s).
Proof.
  intros h l N. unfold setitem. destruct (h !! out); [|done].
  destruct (Nat.eqb _ _); [|done]. simpl. by rewrite lookup_insert_ne.
Qed.

Lemma touches_bind {A B} out (m : M A) (f : A -> M B) :
  touches_only out m -> (forall a, touches_only out (f a)) ->
  touches_only out (m ≫= f).
Proof.
  intros Hm Hf h l N. rewrite bind_unfold. specialize (Hm h l N).
  destruct (m h) as [[a|e] h1]; simpl in *; [|done].
  by rewrite (Hf a h1 l N).
Qed.

Lemma returns_ret {A} (a : A) : returns_only a (mret a).
Proof. intros h b. unfold mret, M_ret. simpl. congruence. Qed.

Lemma returns_bind {A B} (out : B) (m : M A) (f : A -> M B) :
  (forall a, returns_only out (f a)) -> returns_only out (m ≫= f).
Proof.
  intros Hf h b. rewrite bind_unfold.
  destruct (m h) as [[a|e] h1]; simpl; [apply Hf|done].
Qed.

Create HintDb touch.
#[local] Hint Resolve touches_ret touches_lift touches_deref touches_setitem : touch.

Ltac touch :=
  repeat first [ apply touches_bind; [|intros] | solve [auto with touch] ].

Lemma copy_then_touch {B} (f : nat -> M B) h df l d :
  (forall out, touches_only out (f out)) ->
  h !! l = Some d -> ((df_copy df ≫= f) h).2 !! l = Some d.
Proof.
  intros Hf Hl. rewrite bind_unfold. unfold df_copy, deref, alloc.
  rewrite bind_unfold. destruct (h !! df) as [d0|]; simpl; [|done].
  rewrite Hf.
  - rewrite lookup_insert_ne; [done|].
    intros E. apply (is_fresh (dom h)). rewrite E. apply elem_of_dom. by eexists.
  - intros ->. apply (is_fresh (dom h)). apply elem_of_dom. by eexists.
Qed.

Lemma copy_then_return (f : nat -> M nat) h df l d :
  (forall out, returns_only out (f out)) ->
  h !! l = Some d -> ((df_copy df ≫= f) h).1 ≠ Ok l.
Proof.
  intros Hf Hl. rewrite bind_unfold. unfold df_copy, deref, alloc.
  rewrite bind_unfold. destruct (h !! df) as [d0|]; simpl; [|done].
  intros E. apply Hf in E. apply (is_fresh (dom h)). rewrite <- E.
  apply elem_of_dom. by eexists.
Qed.

Lemma get_mutual_info_spec h df d :
  h !! df = Some d ->
  get_mutual_info df h =
  match mi_pure d with
  | Ok o => (Ok (fresh (dom h)), <[fresh (dom h) := o]> h)
  | Raise e => (Raise e, h)
  end.
Proof.
  intros Hd. unfold get_mutual_info.
  rewrite (bind_run _ _ _ _ _ (deref_run _ _ _ Hd)).
  rewrite bind_unfold. unfold lift at 1. unfold mi_pure, block_level_of.
  fold mi_select mi_dedup_key mi_group_key.
  destruct (frame_select d mi_select ≫= _) as [bl|e]; simpl; [|done].
  rewrite bind_unfold. unfold lift at 1.
  destruct (groupby_apply _ _ _ _); done.
Qed.

Section StoreProperties.
Variable py_float : string -> option float.

(** C9 (no mutation of the argument).  Neither [calculate_dkl] nor
    [get_mutual_info] changes a table that exists when it is called, the
    table it is given included, and the table either returns is a new one:
    it is none of the tables that existed at the call. *)
Theorem calls_leave_existing_tables_unchanged h df l d :
  h !! l = Some d ->
  (calculate_dkl py_float df h).2 !! l = Some d /\
  (calculate_dkl py_float df h).1 ≠ Ok l /\
  (get_mutual_info df h).2 !! l = Some d /\
  (get_mutual_info df h).1 ≠ Ok l.
Proof.
  intros Hl.
  assert (Hfresh : l ≠ fresh (dom h)).
  { intros ->. apply (is_fresh (dom h)). apply elem_of_dom. by eexists. }
  split; [|split; [|split]].
  - unfold calculate_dkl. apply copy_then_touch; [|done].
    intros out. unfold getfloat, getvalues, groupby_transform_sum. touch.
  - unfold calculate_dkl. apply copy_then_return with (d := d); [|done].
    intros out. repeat (apply returns_bind; intros). apply returns_ret.
  - destruct (h !! df) as [d0|] eqn:Hd.
    + rewrite (get_mutual_info_spec h df d0 Hd).
      destruct (mi_pure d0); simpl; [|done]. by rewrite lookup_insert_ne.
    + unfold get_mutual_info, deref. rewrite !bind_unfold, Hd. done.
  - destruct (h !! df) as [d0|] eqn:Hd.
    + rewrite (get_mutual_info_spec h df d0 Hd).
      destruct (mi_pure d0); simpl; congruence.
    + unfold get_mutual_info, deref. rewrite !bind_unfold, Hd. done.
Qed.

End StoreProperties.

(* ===================================================================== *)
(** * How [calculate_dkl] fails                                            *)
(* ===================================================================== *)

Lemma astype_float_raise pf s e : astype_float pf s = Raise e -> e = ValueError.
Proof.
  destruct s as [l|l|l]; simpl; try done.
  destruct (mapM _ l); [done|]. congruence.
Qed.

(** One step of the case analysis of [dkl_pure]: a count column is
    missing, or fails to convert, or is read; a key column is missing or
    is there. *)
Ltac count_step c :=
  let s := fresh "s" in let E := fresh "E" in let A := fresh "A" in
  destruct (df_get _ c) as [s|] eqn:E; simpl; [|left; by eexists];
  destruct (astype_float _ s) as [?|?] eqn:A; simpl;
  [| right; pose proof (astype_float_raise _ _ _ A) as ->; split; [done|];
     exists c, s; split; [repeat first [by left | right]|by split] ].

Ltac key_step c :=
  destruct (df_get _ c) as [?|]; simpl; [|left; by eexists].

Section Failures.
Variable py_float : string -> option float.

(** The outcome of [dkl_pure], by the first thing that goes wrong. *)
Lemma dkl_pure_cases d :
  match dkl_pure py_float d with
  | Ok _ => first_missing d required_columns = None
  | Raise e =>
      (exists c, e = KeyError c /\ first_missing d required_columns = Some c) \/
      (e = ValueError /\
       exists c s, c ∈ count_columns /\ df_get d c = Some s /\
                   astype_float py_float s = Raise ValueError)
  end.
Proof.
  unfold dkl_pure, frame_float, frame_keys, block_key, bin_key, first_missing,
    required_columns, count_columns, key_columns, missing.
  simpl. unfold frame_getitem.
  count_step "block_estimate". count_step "block_total".
  count_step "cbsa_estimate". count_step "cbsa_total".
  key_step "variable_group". key_step "block_fips".
  key_step "cbsa_fips". key_step "variable".
  done.
Qed.

Lemma first_missing_Some d cs c :
  c ∈ cs -> df_get d c = None -> exists c', first_missing d cs = Some c'.
Proof.
  unfold first_missing. induction cs as [|c0 cs IH]; simpl.
  - by intros ?%elem_of_nil.
  - intros [->|H]%elem_of_cons Hc.
    + unfold missing. rewrite Hc. by eexists.
    + destruct (missing d c0); [by eexists|]. by apply IH.
Qed.

Lemma first_missing_spec d cs c :
  first_missing d cs = Some c -> c ∈ cs /\ df_get d c = None.
Proof.
  unfold first_missing. intros H. apply find_some in H as [H1 H2].
  split; [by apply list_elem_of_In|].
  unfold missing in H2. by destruct (df_get d c).
Qed.

Ltac members H :=
  repeat (apply elem_of_cons in H as [->|H]); [..|by apply elem_of_nil in H].

(** Every count column read before the missing one was converted. *)
Ltac earlier_ok :=
  let c0 := fresh "c0" in let s0 := fresh "s0" in
  let Hc := fresh "Hc" in let Hb := fresh "Hb" in let Hs := fresh "Hs" in
  intros c0 s0 Hc Hb Hs; unfold count_columns in Hc; members Hc;
  first [ done | congruence ].

Ltac later_missing Hf :=
  unfold first_missing, required_columns, count_columns, key_columns in Hf;
  cbn [app find] in Hf; unfold missing in Hf;
  repeat match goal with E : df_get _ _ = _ |- _ => rewrite E in Hf end;
  try done.

Ltac key_error Hf :=
  later_missing Hf; injection Hf as <-; eexists; split; [done|]; left;
  split; [done|]; earlier_ok.

Ltac count_fail c Hf :=
  let s := fresh "s" in let E := fresh "E" in let A := fresh "A" in
  destruct (df_get _ c) as [s|] eqn:E; simpl; [|key_error Hf];
  destruct (astype_float _ s) as [?|?] eqn:A; simpl;
  [| pose proof (astype_float_raise _ _ _ A) as ->;
     eexists; split; [done|]; right; split; [done|];
     exists c, s; split; [repeat first [by left | right]|];
     split; [|by split];
     later_missing Hf;
     repeat (match type of Hf with
             | context [df_get ?d ?c] => destruct (df_get d c)
             end; simpl in Hf);
     first [ done | injection Hf as <-; reflexivity ] ].

Ltac key_fail c Hf :=
  let s := fresh "s" in let E := fresh "E" in
  destruct (df_get _ c) as [s|] eqn:E; simpl; [|key_error Hf].

(** The outcome of [dkl_pure] on a table that lacks a column, [c'] being
    the first one it lacks in reading order: the [KeyError] of [c'] when
    every count column read before [c'] converts, the [ValueError] of the
    conversion when one of them does not. *)
Lemma dkl_pure_first_failure d c' :
  first_missing d required_columns = Some c' ->
  exists e, dkl_pure py_float d = Raise e /\
    ((e = KeyError c' /\
      forall c0 s, c0 ∈ count_columns -> read_before c0 c' = true ->
        df_get d c0 = Some s -> astype_float py_float s <> Raise ValueError) \/
     (e = ValueError /\
      exists c0 s, c0 ∈ count_columns /\ read_before c0 c' = true /\
        df_get d c0 = Some s /\ astype_float py_float s = Raise ValueError)).
Proof.
  intros Hf.
  unfold dkl_pure, frame_float, frame_keys, block_key, bin_key. simpl.
  unfold frame_getitem.
  count_fail "block_estimate" Hf. count_fail "block_total" Hf.
  count_fail "cbsa_estimate" Hf. count_fail "cbsa_total" Hf.
  key_fail "variable_group" Hf. key_fail "block_fips" Hf.
  key_fail "cbsa_fips" Hf. key_fail "variable" Hf.
  later_missing Hf.
Qed.

(** C4, as amended (missing column).  On a table that lacks one of the
    columns it reads, [calculate_dkl] raises, and what it raises is never
    a SchemaError.  Let [c'] be the first column, in the order in which
    the function reads them, that the table lacks.  The call raises the
    KeyError of pandas for [c'] when every count column read before [c']
    converts to float, and the ValueError of [astype(float)] when a count
    column read before [c'] holds a text that is no number; a text in a
    column read after [c'] changes nothing. *)
Theorem calculate_dkl_missing_column h df d c :
  h !! df = Some d -> wf_frame d = true ->
  c ∈ required_columns -> df_get d c = None ->
  exists c' e,
    first_missing d required_columns = Some c' /\
    c' ∈ required_columns /\ df_get d c' = None /\
    (calculate_dkl py_float df h).1 = Raise e /\
    e ≠ SchemaError /\
    ((e = KeyError c' /\
      forall c0 s, c0 ∈ count_columns -> read_before c0 c' = true ->
        df_get d c0 = Some s -> astype_float py_float s <> Raise ValueError) \/
     (e = ValueError /\
      exists c0 s, c0 ∈ count_columns /\ read_before c0 c' = true /\
        df_get d c0 = Some s /\ astype_float py_float s = Raise ValueError)).
Proof.
  intros Hd W Hc Hmiss.
  destruct (first_missing_Some d _ c Hc Hmiss) as [c1 H1].
  destruct (first_missing_spec _ _ _ H1) as [Hin Hnone].
  pose proof (calculate_dkl_spec py_float h df d Hd W) as S.
  destruct (dkl_pure_first_failure d c1 H1) as (e & He & C).
  rewrite He in S. destruct S as [d' S].
  exists c1, e. repeat split; try done.
  - by rewrite S.
  - destruct C as [[-> _]|[-> _]]; done.
Qed.

(** Whatever the table, the only exceptions are the [KeyError] of a
    missing column and the [ValueError] of a failed conversion. *)
Lemma calculate_dkl_raises h df d e :
  h !! df = Some d -> wf_frame d = true ->
  (calculate_dkl py_float df h).1 = Raise e ->
  (exists c, e = KeyError c /\ c ∈ required_columns /\ df_get d c = None) \/
  e = ValueError.
Proof.
  intros Hd W Hr.
  pose proof (calculate_dkl_spec py_float h df d Hd W) as S.
  pose proof (dkl_pure_cases d) as C.
  destruct (dkl_pure py_float d) as [o|e'].
  - rewrite S in Hr. done.
  - destruct S as [d' S]. rewrite S in Hr. simpl in Hr. injection Hr as ->.
    destruct C as [(c' & -> & Hf)|(-> & _)]; [left|by right].
    exists c'. destruct (first_missing_spec _ _ _ Hf). done.
Qed.

End Failures.

(* ===================================================================== *)
(** * The aggregates on integer counts                                     *)
(* ===================================================================== *)

Lemma group_values_fmap {A B} (f : A -> B) K k (v : list A) :
  group_values K k (f <$> v) = f <$> group_values K k v.
Proof.
  unfold group_values. revert v.
  induction K as [|k0 K IH]; intros [|x v]; simpl; try done.
  destruct (decide (k0 = k)) as [->|N].
  - rewrite !filter_cons_True by done. simpl. f_equal. apply IH.
  - rewrite !filter_cons_False by done. apply IH.
Qed.

Lemma count_rows_int BE BT CE CT :
  count_rows (of_int <$> BE) (of_int <$> BT) (of_int <$> CE) (of_int <$> CT)
  = to_counts <$> icount_rows BE BT CE CT.
Proof.
  unfold count_rows, icount_rows.
  revert BT CE CT. induction BE as [|a BE IH]; intros [|b BT] [|c CE] [|e CT];
    simpl; try done.
  f_equal. apply IH.
Qed.

Lemma fsum_Fin l : fsum (Fin <$> l) = Fin (Rsum l).
Proof.
  induction l as [|x l IH]; [done|].
  rewrite fmap_cons. unfold fsum in *. cbn [foldr]. by rewrite IH.
Qed.

Lemma nansum_Fin l : nansum (Fin <$> l) = Fin (Rsum l).
Proof.
  rewrite nansum_no_nan; [apply fsum_Fin|].
  intros (x & ? & _)%list_elem_of_fmap. done.
Qed.

Lemma row_dkl_block_j_int r :
  row_dkl_block_j (to_counts r) = Fin (kl_term (ibt r) (ict r) (ibe r, ice r)).
Proof.
  unfold row_dkl_block_j, row_dkl_log_i, row_ratio_i, row_p_yj_ni, row_p_yj,
    to_counts, int_counts, of_int, kl_term. simpl.
  by rewrite !masked_div_Fin, masked_log2_Fin.
Qed.

Lemma row_dkl_bin_i_int r :
  row_dkl_bin_i (to_counts r) = Fin (kl_term (ice r) (ict r) (ibe r, ibt r)).
Proof.
  unfold row_dkl_bin_i, row_dkl_log_j, row_ratio_j, row_p_ni_yj, row_p_ni,
    to_counts, int_counts, of_int, kl_term. simpl.
  by rewrite !masked_div_Fin, masked_log2_Fin.
Qed.

Section IntCounts.
Variable py_float : string -> option float.

Lemma frame_float_IntS d c l :
  df_get d c = Some (IntS l) -> frame_float py_float d c = Ok (of_int <$> l).
Proof. intros E. unfold frame_float, frame_getitem. by rewrite E. Qed.

(** The aggregates of a table with int64 counts: the group sums of the
    row terms. *)
Lemma dkl_aggregates_at h df d out h' BE BT CE CT :
  h !! df = Some d -> wf_frame d = true ->
  df_get d "block_estimate" = Some (IntS BE) ->
  df_get d "block_total" = Some (IntS BT) ->
  df_get d "cbsa_estimate" = Some (IntS CE) ->
  df_get d "cbsa_total" = Some (IntS CT) ->
  calculate_dkl py_float df h = (Ok out, h') ->
  exists o,
    h' !! out = Some o /\
    (forall K i k,
       frame_keys d block_key = Ok K -> K !! i = Some k -> has_na k = false ->
       float_at o "dkl_block" i =
         Some (nansum (row_dkl_block_j <$>
                 (to_counts <$> group_values K k (icount_rows BE BT CE CT))))) /\
    (forall K i k,
       frame_keys d bin_key = Ok K -> K !! i = Some k -> has_na k = false ->
       float_at o "dkl_bin" i =
         Some (nansum (row_dkl_bin_i <$>
                 (to_counts <$> group_values K k (icount_rows BE BT CE CT))))).
Proof.
  intros Hd W HBE HBT HCE HCT Hrun.
  destruct (calculate_dkl_Ok_counts py_float h df d out h' Hd W Hrun)
    as (BE' & BT' & CE' & CT' & K1 & K2 & -> & -> & FBE & FBT & FCE & FCT & HK1 & HK2 & _).
  rewrite (frame_float_IntS _ _ _ HBE) in FBE. injection FBE as <-.
  rewrite (frame_float_IntS _ _ _ HBT) in FBT. injection FBT as <-.
  rewrite (frame_float_IntS _ _ _ HCE) in FCE. injection FCE as <-.
  rewrite (frame_float_IntS _ _ _ HCT) in FCT. injection FCT as <-.
  rewrite count_rows_int.
  eexists. split; [apply lookup_insert_eq|]. split.
  - intros K i k HK Hi Hna. rewrite HK1 in HK. injection HK as <-.
    erewrite dkl_frame_float_at by in_dkl_columns.
    unfold transform_sum. rewrite list_lookup_fmap, Hi. simpl. rewrite Hna.
    by rewrite group_values_fmap, group_values_fmap.
  - intros K i k HK Hi Hna. rewrite HK2 in HK. injection HK as <-.
    erewrite dkl_frame_float_at by in_dkl_columns.
    unfold transform_sum. rewrite list_lookup_fmap, Hi. simpl. rewrite Hna.
    by rewrite group_values_fmap, group_values_fmap.
Qed.

End IntCounts.

(* ===================================================================== *)
(** * Lists: positional selection, first occurrences, groups               *)
(* ===================================================================== *)

Lemma take_idx_fmap {A B} (f : A -> B) idx (l : list A) :
  take_idx idx (f <$> l) = f <$> take_idx idx l.
Proof.
  unfold take_idx. induction idx as [|i idx IH]; [done|].
  cbn [omap list_omap]. rewrite list_lookup_fmap.
  destruct (l !! i); simpl; by rewrite IH.
Qed.

Lemma take_idx_length {A} idx (l : list A) :
  Forall (fun i => i < length l) idx -> length (take_idx idx l) = length idx.
Proof.
  unfold take_idx. induction 1 as [|i idx Hi _ IH]; [done|].
  cbn [omap list_omap]. destruct (lookup_lt_is_Some_2 l i Hi) as [x ->].
  simpl. by rewrite IH.
Qed.

Lemma take_idx_lookup {A} idx (l : list A) n i :
  Forall (fun i => i < length l) idx ->
  idx !! n = Some i -> take_idx idx l !! n = l !! i.
Proof.
  unfold take_idx. intros H. revert n. induction H as [|j idx Hj _ IH]; intros n.
  - by rewrite lookup_nil.
  - cbn [omap list_omap]. destruct (lookup_lt_is_Some_2 l j Hj) as [x Hx].
    rewrite Hx. destruct n as [|n]; simpl.
    + intros [= <-]. done.
    + apply IH.
Qed.

Lemma take_idx_zip_with {A B C} (f : A -> B -> C) idx a b :
  Forall (fun i => i < length a) idx -> Forall (fun i => i < length b) idx ->
  take_idx idx (zip_with f a b) = zip_with f (take_idx idx a) (take_idx idx b).
Proof.
  unfold take_idx. induction idx as [|i idx IH]; [done|].
  intros [Ha Hia]%Forall_cons [Hb Hib]%Forall_cons.
  cbn [omap list_omap]. rewrite lookup_zip_with.
  destruct (lookup_lt_is_Some_2 a i Ha) as [x ->].
  destruct (lookup_lt_is_Some_2 b i Hb) as [y ->]. simpl.
  by rewrite IH.
Qed.

Lemma take_idx_replicate {A} idx n (x : A) :
  Forall (fun i => i < n) idx -> take_idx idx (replicate n x) = replicate (length idx) x.
Proof.
  unfold take_idx. induction 1 as [|i idx Hi _ IH]; [done|].
  cbn [omap list_omap]. rewrite lookup_replicate_2 by done. simpl. by rewrite IH.
Qed.

Lemma cells_take idx s : cells (series_take idx s) = take_idx idx (cells s).
Proof. destruct s; simpl; by rewrite take_idx_fmap. Qed.

Lemma series_take_len idx s :
  Forall (fun i => i < series_len s) idx -> series_len (series_take idx s) = length idx.
Proof. destruct s; simpl; apply take_idx_length. Qed.

Lemma row_keys_take n idx ss :
  Forall (fun s => series_len s = n) ss -> Forall (fun i => i < n) idx ->
  row_keys (length idx) (series_take idx <$> ss) = take_idx idx (row_keys n ss).
Proof.
  intros Hss Hidx. induction Hss as [|s ss Hs Hss IH].
  - unfold row_keys. simpl. by rewrite take_idx_replicate.
  - unfold row_keys in *. rewrite fmap_cons. cbn [foldr].
    rewrite IH, cells_take. symmetry. apply take_idx_zip_with.
    + by rewrite cells_length, Hs.
    + fold (row_keys n ss). by rewrite row_keys_length.
Qed.

(** *** First occurrences *)

Lemma first_occurrences_bound seen i0 K :
  Forall (fun j => i0 <= j < i0 + length K) (first_occurrences seen i0 K).
Proof.
  revert seen i0. induction K as [|k K IH]; intros seen i0; simpl; [constructor|].
  destruct (decide (k ∈ seen)).
  - eapply Forall_impl; [apply IH|]. simpl. lia.
  - constructor; [lia|]. eapply Forall_impl; [apply IH|]. simpl. lia.
Qed.

(** Selecting the first occurrences is keeping the first row of each key. *)
Lemma take_first_occurrences {A} (key : A -> list cell) seen (pre rows : list A) :
  take_idx (first_occurrences seen (length pre) (key <$> rows)) (pre ++ rows)
  = keep_first key seen rows.
Proof.
  revert seen pre. induction rows as [|r rows IH]; intros seen pre; [done|].
  rewrite fmap_cons. cbn [first_occurrences keep_first].
  assert (E : pre ++ r :: rows = (pre ++ [r]) ++ rows) by by rewrite <- app_assoc.
  assert (L : S (length pre) = length (pre ++ [r])) by (rewrite length_app; simpl; lia).
  destruct (decide (key r ∈ seen)).
  - rewrite E, L. apply IH.
  - unfold take_idx. cbn [omap list_omap]. rewrite list_lookup_middle by done.
    simpl. f_equal. rewrite E, L. apply IH.
Qed.

(** Every key is the key of one of the rows kept, or was seen before. *)
Lemma keep_first_covers {A} (key : A -> list cell) seen (rows : list A) r :
  r ∈ rows -> key r ∈ seen \/ exists r', r' ∈ keep_first key seen rows /\ key r' = key r.
Proof.
  revert seen. induction rows as [|r0 rows IH]; intros seen; [by intros ?%elem_of_nil|].
  intros [->|Hr]%elem_of_cons; cbn [keep_first].
  - destruct (decide (key r0 ∈ seen)); [by left|].
    right. exists r0. split; [by left|done].
  - destruct (decide (key r0 ∈ seen)).
    + by apply IH.
    + destruct (IH (key r0 :: seen) Hr) as [[E|Hs]%elem_of_cons|(r' & Hr' & E)].
      * right. exists r0. split; [by left|done].
      * by left.
      * right. exists r'. split; [by right|done].
Qed.

Lemma keep_first_sub {A} (key : A -> list cell) seen (rows : list A) r :
  r ∈ keep_first key seen rows -> r ∈ rows.
Proof.
  revert seen. induction rows as [|r0 rows IH]; intros seen; cbn [keep_first]; [done|].
  destruct (decide (key r0 ∈ seen)).
  - intros H. right. by eapply IH.
  - intros [->|H]%elem_of_cons; [by left|]. right. by eapply IH.
Qed.

(** *** Groups *)

Lemma group_index_take {A} (K : list (list cell)) k (V : list A) preK preV :
  length preK = length preV -> length K = length V ->
  take_idx (filter (fun i => (preK ++ K) !! i = Some k) (seq (length preK) (length K)))
           (preV ++ V)
  = group_values K k V.
Proof.
  revert V preK preV. induction K as [|k0 K IH]; intros [|v V] preK preV Lp L;
    simpl in L; try done.
  cbn [length seq]. unfold group_values. cbn [zip_with].
  assert (EK : preK ++ k0 :: K = (preK ++ [k0]) ++ K) by by rewrite <- app_assoc.
  assert (EV : preV ++ v :: V = (preV ++ [v]) ++ V) by by rewrite <- app_assoc.
  assert (LK : S (length preK) = length (preK ++ [k0])) by (rewrite length_app; simpl; lia).
  assert (Hk0 : (preK ++ k0 :: K) !! length preK = Some k0) by by apply list_lookup_middle.
  destruct (decide (k0 = k)) as [->|N].
  - rewrite filter_cons_True by done. rewrite (filter_cons_True _ (k, v)) by done.
    unfold take_idx. cbn [omap list_omap]. rewrite Lp at 1.
    rewrite list_lookup_middle by done. simpl. f_equal.
    rewrite EK, EV, LK. apply IH; [rewrite !length_app; simpl; lia|lia].
  - rewrite filter_cons_False by (rewrite Hk0; congruence).
    rewrite (filter_cons_False _ (k0, v)) by done.
    rewrite EK, EV, LK. apply IH; [rewrite !length_app; simpl; lia|lia].
Qed.

Lemma take_group_index {A} (K : list (list cell)) k (V : list A) :
  length K = length V -> take_idx (group_index K k) V = group_values K k V.
Proof. intros L. by apply (group_index_take K k V [] []). Qed.

Lemma group_values_rows {A B} (f : A -> list cell) (g : A -> B) rows k :
  group_values (f <$> rows) k (g <$> rows) = g <$> filter (fun r => f r = k) rows.
Proof.
  unfold group_values. induction rows as [|r rows IH]; [done|].
  rewrite !fmap_cons. cbn [zip_with].
  destruct (decide (f r = k)) as [E|N].
  - rewrite filter_cons_True by done. rewrite (filter_cons_True _ r) by done.
    rewrite !fmap_cons. simpl. f_equal. apply IH.
  - rewrite filter_cons_False by done. rewrite (filter_cons_False _ r) by done.
    apply IH.
Qed.

(* ===================================================================== *)
(** * The frames inside [get_mutual_info]                                  *)
(* ===================================================================== *)

Lemma wf_cols_len d : wf_frame d = true -> cols_len d.
Proof. intros W c s. by apply wf_frame_len. Qed.

Lemma frame_getitems_cols_len d cs ss :
  cols_len d -> frame_getitems d cs = Ok ss ->
  Forall (fun s => series_len s = nrows d) ss.
Proof.
  intros W. revert ss. induction cs as [|c cs IH]; simpl; intros ss.
  - intros [= <-]. constructor.
  - destruct (frame_getitem d c) as [s|] eqn:E; simpl; [|done].
    destruct (frame_getitems d cs) as [ss'|]; simpl; [|done].
    intros [= <-]. constructor; [|by apply IH].
    apply frame_getitem_Ok in E. by apply (W c s).
Qed.

Lemma frame_getitems_length d cs ss :
  frame_getitems d cs = Ok ss -> length ss = length cs.
Proof.
  revert ss. induction cs as [|c cs IH]; simpl; intros ss.
  - by intros [= <-].
  - destruct (frame_getitem d c) as [s|]; simpl; [|done].
    destruct (frame_getitems d cs) as [ss'|]; simpl; [|done].
    intros [= <-]. simpl. by rewrite (IH ss').
Qed.

Lemma assoc_get_zip d cs ss c :
  frame_getitems d cs = Ok ss -> c ∈ cs -> assoc_get c (zip cs ss) = df_get d c.
Proof.
  revert ss. induction cs as [|c0 cs IH]; simpl; intros ss; [by intros _ ?%elem_of_nil|].
  destruct (frame_getitem d c0) as [s0|] eqn:E0; simpl; [|done].
  destruct (frame_getitems d cs) as [ss'|]; simpl; [|done].
  intros [= <-] Hc. simpl. apply frame_getitem_Ok in E0.
  destruct (String.eqb c0 c) eqn:E.
  - apply String.eqb_eq in E. by subst.
  - apply IH; [done|]. apply elem_of_cons in Hc as [->|Hc]; [|done].
    by rewrite String.eqb_refl in E.
Qed.

Lemma frame_select_Ok d cs sel :
  frame_select d cs = Ok sel ->
  nrows sel = nrows d /\ (forall c, c ∈ cs -> df_get sel c = df_get d c) /\
  (forall c s, df_get sel c = Some s -> exists c', df_get d c' = Some s).
Proof.
  unfold frame_select. destruct (frame_getitems d cs) as [ss|] eqn:E; simpl; [|done].
  intros [= <-]. split; [done|]. split.
  - intros c Hc. unfold df_get at 1. simpl. by eapply assoc_get_zip.
  - unfold df_get at 1. simpl. clear -E. revert ss E.
    induction cs as [|c0 cs IH]; simpl; intros ss; [by intros [= <-]|].
    destruct (frame_getitem d c0) as [s0|] eqn:E0; simpl; [|done].
    destruct (frame_getitems d cs) as [ss'|]; simpl; [|done].
    intros [= <-] c s. simpl. destruct (String.eqb c0 c).
    + intros [= <-]. exists c0. by apply frame_getitem_Ok.
    + by apply IH.
Qed.

Lemma frame_take_get idx d c :
  df_get (frame_take idx d) c = series_take idx <$> df_get d c.
Proof.
  unfold df_get, frame_take. simpl.
  induction (columns d) as [|[c0 s0] cols IH]; [done|].
  rewrite fmap_cons. simpl. by destruct (String.eqb c0 c).
Qed.

Lemma frame_take_cols_len idx d :
  cols_len d -> Forall (fun i => i < nrows d) idx -> cols_len (frame_take idx d).
Proof.
  intros W Hidx c s. rewrite frame_take_get.
  destruct (df_get d c) as [s0|] eqn:E; simpl; [|done].
  intros [= <-]. apply series_take_len. by rewrite (W c s0 E).
Qed.

Lemma frame_take_getitems idx d cs ss :
  frame_getitems d cs = Ok ss ->
  frame_getitems (frame_take idx d) cs = Ok (series_take idx <$> ss).
Proof.
  revert ss. induction cs as [|c cs IH]; simpl; intros ss; [by intros [= <-]|].
  unfold frame_getitem. rewrite frame_take_get.
  destruct (df_get d c) as [s|]; simpl; [|done].
  destruct (frame_getitems d cs) as [ss'|]; simpl; [|done].
  intros [= <-]. by rewrite (IH ss').
Qed.

Lemma frame_take_getitems_inv idx d cs ss' :
  frame_getitems (frame_take idx d) cs = Ok ss' ->
  exists ss, frame_getitems d cs = Ok ss.
Proof.
  revert ss'. induction cs as [|c cs IH]; simpl; intros ss'; [by eexists|].
  unfold frame_getitem. rewrite frame_take_get.
  destruct (df_get d c) as [s|]; simpl; [|done].
  destruct (frame_getitems (frame_take idx d) cs) as [ss1|] eqn:E; simpl; [|done].
  destruct (IH _ eq_refl) as [ss ->]. simpl. by eexists.
Qed.

Lemma frame_keys_take idx d cs K :
  cols_len d -> Forall (fun i => i < nrows d) idx ->
  frame_keys d cs = Ok K ->
  frame_keys (frame_take idx d) cs = Ok (take_idx idx K).
Proof.
  intros W Hidx. unfold frame_keys.
  destruct (frame_getitems d cs) as [ss|] eqn:E; simpl; [|done].
  intros [= <-]. rewrite (frame_take_getitems _ _ _ _ E). simpl.
  f_equal. apply row_keys_take; [|done]. by eapply frame_getitems_cols_len.
Qed.

(** The deduplicated frame: the rows at the first occurrences of the
    (block_fips, variable_group) keys. *)
Lemma block_level_spec d bl :
  wf_frame d = true -> block_level_of d = Ok bl ->
  exists Kd sel,
    frame_keys d mi_dedup_key = Ok Kd /\
    frame_select d mi_select = Ok sel /\
    bl = frame_take (first_occurrences [] 0 Kd) sel /\
    length Kd = nrows d /\
    Forall (fun i => i < nrows d) (first_occurrences [] 0 Kd) /\
    cols_len sel /\ nrows sel = nrows d /\
    (forall c, c ∈ mi_select -> df_get sel c = df_get d c).
Proof.
  intros W. unfold block_level_of.
  destruct (frame_select d mi_select) as [sel|] eqn:Es; simpl; [|done].
  destruct (frame_select_Ok _ _ _ Es) as (Hn & Hget & Hsrc).
  unfold drop_duplicates.
  destruct (frame_keys sel mi_dedup_key) as [Kd|] eqn:EK; simpl; [|done].
  intros [= <-].
  assert (EK' : frame_keys d mi_dedup_key = Ok Kd).
  { rewrite <- EK. symmetry. apply frame_keys_ext; [done|].
    intros c Hc. apply Hget. unfold mi_dedup_key, mi_select in *.
    repeat (apply elem_of_cons in Hc as [->|Hc]; [repeat first [by left|right]|]).
    by apply elem_of_nil in Hc. }
  pose proof (frame_keys_length _ _ _ W EK') as LK.
  exists Kd, sel. repeat split; try done.
  - eapply Forall_impl; [apply first_occurrences_bound|]. simpl. lia.
  - intros c s Hc. rewrite Hn. destruct (Hsrc c s Hc) as [c' Hc'].
    by eapply wf_frame_len.
Qed.

(** *** The groups *)

Lemma group_keys_perm K :
  group_keys K ≡ₚ remove_dups (filter (fun k => has_na k = false) K).
Proof. unfold group_keys. apply merge_sort_Permutation. Qed.

Lemma group_keys_elem K k :
  k ∈ group_keys K <-> k ∈ K /\ has_na k = false.
Proof.
  rewrite group_keys_perm, elem_of_remove_dups, list_elem_of_filter. tauto.
Qed.

Lemma group_keys_NoDup K : NoDup (group_keys K).
Proof. rewrite group_keys_perm. apply NoDup_remove_dups. Qed.

Lemma group_keys_length K :
  length (group_keys K) = length (remove_dups (filter (fun k => has_na k = false) K)).
Proof. by rewrite group_keys_perm. Qed.

Lemma group_index_elem K k i : i ∈ group_index K k <-> K !! i = Some k.
Proof.
  unfold group_index. rewrite list_elem_of_filter, elem_of_seq. split; [tauto|].
  intros H. split; [done|]. apply lookup_lt_Some in H. lia.
Qed.

Lemma group_index_head K k :
  k ∈ K -> exists j, head (group_index K k) = Some j /\ K !! j = Some k.
Proof.
  intros [i Hi]%list_elem_of_lookup. apply group_index_elem in Hi.
  destruct (group_index K k) as [|j l] eqn:E; [by apply elem_of_nil in Hi|].
  exists j. split; [done|]. apply group_index_elem. rewrite E. by left.
Qed.

(** The first rows of the groups carry the group keys. *)
Lemma take_first_rows K gk :
  Forall (fun k => k ∈ K) gk ->
  take_idx (omap head (group_index K <$> gk)) K = gk /\
  length (omap head (group_index K <$> gk)) = length gk /\
  Forall (fun j => j < length K) (omap head (group_index K <$> gk)).
Proof.
  induction 1 as [|k gk Hk _ (IH1 & IH2 & IH3)]; [done|].
  rewrite fmap_cons. cbn [omap list_omap].
  destruct (group_index_head K k Hk) as (j & -> & Hj). simpl.
  unfold take_idx in *. cbn [omap list_omap]. rewrite Hj. simpl.
  rewrite IH1, IH2. repeat split; try done.
  constructor; [by eapply lookup_lt_Some|done].
Qed.

Lemma mapM_result_Ok {A B} (f : A -> result B) l vs :
  mapM f l = Ok vs ->
  length vs = length l /\
  forall i x, l !! i = Some x -> exists v, vs !! i = Some v /\ f x = Ok v.
Proof.
  revert vs. induction l as [|x l IH]; intros vs; simpl.
  - intros [= <-]. split; [done|]. intros i x. by rewrite lookup_nil.
  - destruct (f x) as [v|] eqn:Ex; simpl; [|done].
    destruct (mapM f l) as [vs'|]; simpl; [|done].
    intros [= <-]. destruct (IH vs' eq_refl) as [L H]. split; [simpl; lia|].
    intros [|i] y; simpl.
    + intros [= <-]. by exists v.
    + apply H.
Qed.

(** The result of [groupby(...).apply(f).reset_index(name=...)]. *)
Lemma groupby_apply_Ok bl by_ f name o :
  groupby_apply bl by_ f name = Ok o ->
  exists ss vals,
    frame_getitems bl by_ = Ok ss /\
    let K := row_keys (nrows bl) ss in
    let gk := group_keys K in
    o = mkDF (length gk)
             (zip by_ (series_take (omap head (group_index K <$> gk)) <$> ss)
              ++ [(name, FloatS vals)]) /\
    gk ≠ [] /\ length vals = length gk /\
    forall i k, gk !! i = Some k ->
      exists v, vals !! i = Some v /\
                f (frame_take (group_index K k) (frame_drop by_ bl)) = Ok v.
Proof.
  unfold groupby_apply.
  destruct (frame_getitems bl by_) as [ss|] eqn:E; simpl; [|done].
  destruct (mapM _ _) as [vals|] eqn:EM; simpl; [|done].
  destruct (group_keys (row_keys (nrows bl) ss)) as [|k0 gk0] eqn:Eg; [done|].
  intros [= <-]. exists ss, vals. split; [done|]. simpl. rewrite Eg.
  destruct (mapM_result_Ok _ _ _ EM) as [L H].
  rewrite length_fmap in L. repeat split; try done.
  intros i k Hi. destruct (H i (group_index (row_keys (nrows bl) ss) k)) as (v & Hv & Hf).
  { by rewrite list_lookup_fmap, Hi. }
  by exists v.
Qed.

(** The key columns of the summary hold the group keys. *)
Lemma summary_keys n (K : list (list cell)) gk s1 s2 s3 name vals :
  Forall (fun s => series_len s = n) [s1; s2; s3] ->
  K = row_keys n [s1; s2; s3] ->
  Forall (fun k => k ∈ K) gk ->
  frame_keys
    (mkDF (length gk)
       (zip mi_group_key
            (series_take (omap head (group_index K <$> gk)) <$> [s1; s2; s3])
        ++ [(name, FloatS vals)]))
    mi_group_key = Ok gk.
Proof.
  intros Hlen -> Hgk.
  destruct (take_first_rows _ gk Hgk) as (T1 & T2 & T3).
  set (fr := omap head _) in *.
  unfold frame_keys, mi_group_key. simpl. unfold frame_getitem, df_get. simpl.
  f_equal. rewrite <- T2.
  change (row_keys (length fr) (series_take fr <$> [s1; s2; s3]) = gk).
  rewrite (row_keys_take n); [done|done|].
  by rewrite row_keys_length in T3.
Qed.
(* ===================================================================== *)
(** * Group sums, row by row                                               *)
(* ===================================================================== *)

Lemma key_at_row_keys o by_ ss i :
  frame_getitems o by_ = Ok ss -> (i < nrows o)%nat ->
  key_at o by_ i = row_keys (nrows o) ss !! i.
Proof.
  intros H Hi. revert ss H. induction by_ as [|c cs IH]; intros ss H.
  - injection H as <-. unfold key_at, row_keys. simpl.
    symmetry. by apply lookup_replicate_2.
  - simpl in H. unfold frame_getitem in H.
    destruct (df_get o c) as [s|] eqn:E; [|done]. simpl in H.
    destruct (frame_getitems o cs) as [ss'|] eqn:E'; [|done].
    injection H as <-. specialize (IH _ eq_refl).
    unfold key_at in *. cbn [mapM]. rewrite E. cbn [mbind option_bind].
    unfold row_keys in *. cbn [foldr]. rewrite lookup_zip_with.
    rewrite <- IH.
    destruct (cells s !! i); [|done]. simpl.
    destruct (mapM _ cs); done.
Qed.

Lemma key_at_frame_keys o by_ K i :
  frame_keys o by_ = Ok K -> (i < nrows o)%nat -> key_at o by_ i = K !! i.
Proof.
  unfold frame_keys. intros H Hi.
  destruct (frame_getitems o by_) as [ss|] eqn:E; [|done].
  injection H as <-. by apply key_at_row_keys.
Qed.

Lemma filter_ext_elem {A} (P Q : A -> Prop) `{!forall x, Decision (P x)}
  `{!forall x, Decision (Q x)} (l : list A) :
  (forall x, x ∈ l -> P x <-> Q x) -> filter P l = filter Q l.
Proof.
  induction l as [|x l IH]; [done|]. intros HPQ.
  assert (Hx : P x <-> Q x) by (apply HPQ; left).
  assert (Hl : filter P l = filter Q l).
  { apply IH. intros y Hy. apply HPQ. by right. }
  destruct (decide (P x)) as [p|np].
  - rewrite filter_cons_True by done. rewrite (filter_cons_True Q) by tauto.
    by rewrite Hl.
  - rewrite filter_cons_False by done. rewrite (filter_cons_False Q) by tauto.
    done.
Qed.

Lemma rows_like_group_index o by_ K i k :
  frame_keys o by_ = Ok K -> length K = nrows o -> K !! i = Some k ->
  rows_like o by_ i = group_index K k.
Proof.
  intros HK L Hi. unfold rows_like, group_index. rewrite L.
  assert (Hlt : (i < nrows o)%nat).
  { rewrite <- L. apply lookup_lt_is_Some. by eexists. }
  apply filter_ext_elem. intros j Hj.
  apply elem_of_seq in Hj.
  rewrite (key_at_frame_keys o by_ K j HK) by lia.
  rewrite (key_at_frame_keys o by_ K i HK) by done.
  by rewrite Hi.
Qed.

Lemma values_at_take o c V js :
  df_get o c = Some (FloatS V) -> (forall j, j ∈ js -> (j < length V)%nat) ->
  values_at o c js = Some (take_idx js V).
Proof.
  intros E. unfold values_at, take_idx.
  induction js as [|j js IH]; intros H; [done|].
  assert (F : float_at o c j = V !! j) by (unfold float_at; by rewrite E).
  cbn [mapM omap]. rewrite F.
  destruct (lookup_lt_is_Some_2 V j) as [v Hv]; [apply H; left|].
  rewrite Hv. cbn [mbind option_bind]. rewrite IH; [simpl; by rewrite Hv|].
  intros j' Hj'. apply H. by right.
Qed.

Lemma has_na_false k : has_na k = false <-> CNull ∉ k.
Proof.
  unfold has_na. induction k as [|c k IH]; simpl.
  - split; [intros _; apply not_elem_of_nil|done].
  - rewrite orb_false_iff, IH, not_elem_of_cons.
    destruct c; simpl; split; intros [? ?]; split; done.
Qed.

Lemma transform_sum_rows o by_ part total K V :
  frame_keys o by_ = Ok K -> df_get o part = Some (FloatS V) ->
  df_get o total = Some (FloatS (transform_sum K V)) ->
  length K = nrows o -> length V = nrows o ->
  sum_over_rows_like o by_ part total.
Proof.
  intros HK HV HD LK LV. split.
  - intros i Hi.
    destruct (lookup_lt_is_Some_2 K i) as [k Hk]; [lia|].
    exists k, (take_idx (rows_like o by_ i) V).
    split; [by rewrite (key_at_frame_keys o by_ K i HK)|].
    split.
    { apply values_at_take; [done|]. intros j Hj. unfold rows_like in Hj.
      apply list_elem_of_filter in Hj as [_ Hj]. apply elem_of_seq in Hj. lia. }
    intros Hna. apply has_na_false in Hna.
    rewrite (rows_like_group_index o by_ K i k HK LK Hk).
    rewrite take_group_index by lia.
    assert (E : float_at o total i = Some (nansum (group_values K k V))).
    { unfold float_at. rewrite HD. unfold transform_sum.
      by rewrite list_lookup_fmap, Hk; simpl; rewrite Hna. }
    split; [exact E|]. intros N. rewrite E. f_equal.
    rewrite nansum_no_nan by done. done.
  - intros i j Hi Hj E.
    rewrite (key_at_frame_keys o by_ K i HK), (key_at_frame_keys o by_ K j HK) in E by done.
    unfold float_at. rewrite HD. unfold transform_sum.
    by rewrite !list_lookup_fmap, E.
Qed.

Lemma key_at_same_column o a b rest s i :
  df_get o a = Some s -> df_get o b = Some s ->
  key_at o (a :: rest) i = key_at o (b :: rest) i.
Proof. intros Ea Eb. unfold key_at. cbn [mapM]. by rewrite Ea, Eb. Qed.

Lemma sum_over_rows_like_same_column o a b rest part total s :
  df_get o a = Some s -> df_get o b = Some s ->
  sum_over_rows_like o (a :: rest) part total ->
  sum_over_rows_like o (b :: rest) part total.
Proof.
  intros Ea Eb [H1 H2].
  assert (R : forall i, rows_like o (b :: rest) i = rows_like o (a :: rest) i).
  { intros i. unfold rows_like. apply filter_ext_elem. intros j _.
    by rewrite !(key_at_same_column o a b rest s _ Ea Eb). }
  split.
  - intros i Hi. destruct (H1 i Hi) as (k & vs & Hk & Hvs & Hsum).
    exists k, vs. rewrite R, <- (key_at_same_column o a b rest s i Ea Eb). done.
  - intros i j Hi Hj E. apply H2; [done|done|].
    by rewrite !(key_at_same_column o a b rest s _ Ea Eb).
Qed.

Section GroupSums.
Variable py_float : string -> option float.

(** C3 (broadcast of the group sums).  In the table [calculate_dkl]
    returns, every row has a (variable_group, block_fips) key, rows with
    the same key carry the same [dkl_block], and [dkl_block] of a row is
    the sum of [dkl_block_j] over the rows of the table that have the key
    of this row; likewise [dkl_bin] is the same on the rows with the same
    (variable_group, cbsa_fips, variable) and is the sum of [dkl_bin_i]
    over the rows with the key of the row.  The rows of a group are found
    by comparing the key cells of the table, and the sum is written out
    over their [dkl_block_j] (or [dkl_bin_i]) entries.  The sum is the one
    of pandas, over the groups whose key has no missing component. *)
Theorem calculate_dkl_broadcast_sums h df d out h' :
  h !! df = Some d -> wf_frame d = true ->
  calculate_dkl py_float df h = (Ok out, h') ->
  exists o,
    h' !! out = Some o /\
    sum_over_rows_like o ["variable_group"; "block_fips"] "dkl_block_j" "dkl_block" /\
    sum_over_rows_like o ["variable_group"; "cbsa_fips"; "variable"] "dkl_bin_i" "dkl_bin".
Proof.
  intros Hd W Hrun.
  destruct (calculate_dkl_Ok py_float h df d out h' Hd W Hrun)
    as (rows & K1 & K2 & -> & -> & HK1 & HK2 & Lr & LK1 & LK2 & _).
  exists (dkl_frame d rows K1 K2). split; [apply lookup_insert_eq|].
  split.
  - apply transform_sum_rows with (K := K1) (V := row_dkl_block_j <$> rows).
    + fold block_key. by rewrite dkl_frame_keys_block.
    + apply dkl_frame_get. in_dkl_columns.
    + apply dkl_frame_get. in_dkl_columns.
    + by rewrite dkl_frame_nrows.
    + by rewrite length_fmap, dkl_frame_nrows.
  - apply transform_sum_rows with (K := K2) (V := row_dkl_bin_i <$> rows).
    + fold bin_key. by rewrite dkl_frame_keys_bin.
    + apply dkl_frame_get. in_dkl_columns.
    + apply dkl_frame_get. in_dkl_columns.
    + by rewrite dkl_frame_nrows.
    + by rewrite length_fmap, dkl_frame_nrows.
Qed.

End GroupSums.


(* ===================================================================== *)
(** * get_mutual_info: its result                                          *)
(* ===================================================================== *)

Lemma frame_drop_get cs d c :
  c ∉ cs -> df_get (frame_drop cs d) c = df_get d c.
Proof.
  intros N. unfold df_get, frame_drop. simpl.
  induction (columns d) as [|[c0 s0] cols IH]; [done|].
  destruct (decide ((c0, s0).1 ∉ cs)) as [H|H].
  - rewrite filter_cons_True by done. simpl. by rewrite IH.
  - rewrite filter_cons_False by done. simpl.
    destruct (String.eqb c0 c) eqn:E; [|done].
    apply String.eqb_eq in E. subst c0. simpl in H. tauto.
Qed.

Lemma mi_group_key_selected c : c ∈ mi_group_key -> c ∈ mi_select.
Proof.
  unfold mi_group_key, mi_select. intros Hc.
  repeat (apply elem_of_cons in Hc as [->|Hc]; [repeat first [by left|right]|]).
  by apply elem_of_nil in Hc.
Qed.

(** The summary of a well-formed table, when there is one. *)
Lemma mi_pure_Ok d o :
  wf_frame d = true -> mi_pure d = Ok o ->
  exists Kd Kg sel vals,
    frame_keys d mi_dedup_key = Ok Kd /\
    frame_keys d mi_group_key = Ok Kg /\
    length Kd = nrows d /\ length Kg = nrows d /\
    frame_select d mi_select = Ok sel /\
    let idx := first_occurrences [] 0 Kd in
    let K := take_idx idx Kg in
    let gk := group_keys K in
    Forall (fun i => i < nrows d) idx /\
    length K = length idx /\
    nrows o = length gk /\ gk ≠ [] /\
    frame_keys o mi_group_key = Ok gk /\
    df_get o "avg_dkl_cbsa_pop" = Some (FloatS vals) /\
    length vals = length gk /\
    forall i k, gk !! i = Some k ->
      exists v, vals !! i = Some v /\
        weighted_mean
          (frame_take (group_index K k)
             (frame_drop mi_group_key (frame_take idx sel))) = Ok v.
Proof.
  intros W. unfold mi_pure.
  destruct (block_level_of d) as [bl|] eqn:Ebl; simpl; [|done].
  destruct (block_level_spec d bl W Ebl)
    as (Kd & sel & HKd & Hsel & -> & LKd & Hidx & Wsel & Nsel & Gsel).
  set (idx := first_occurrences [] 0 Kd) in *.
  intros Hg. destruct (groupby_apply_Ok _ _ _ _ _ Hg) as (ss & vals & Hss & Ho & Hne & Lv & Hv).
  destruct (frame_take_getitems_inv _ _ _ _ Hss) as [ss0 Hss0].
  rewrite (frame_take_getitems idx _ _ _ Hss0) in Hss. injection Hss as <-.
  pose proof (frame_getitems_cols_len _ _ _ Wsel Hss0) as Lss0.
  assert (HKg : frame_keys d mi_group_key = Ok (row_keys (nrows d) ss0)).
  { rewrite <- (frame_keys_ext d sel) by (auto using mi_group_key_selected).
    unfold frame_keys. rewrite Hss0. simpl. by rewrite Nsel. }
  assert (Hidx' : Forall (fun i => i < nrows sel) idx) by by rewrite Nsel.
  assert (EK : row_keys (nrows (frame_take idx sel)) (series_take idx <$> ss0)
               = take_idx idx (row_keys (nrows d) ss0)).
  { simpl. rewrite <- Nsel. by apply row_keys_take. }
  rewrite EK in *.
  set (Kg := row_keys (nrows d) ss0) in *.
  assert (LKg : length Kg = nrows d).
  { unfold Kg. apply row_keys_length. by rewrite <- Nsel. }
  set (K := take_idx idx Kg) in *. set (gk := group_keys K) in *.
  assert (LK : length K = length idx).
  { unfold K. apply take_idx_length. by rewrite LKg. }
  exists Kd, Kg, sel, vals.
  split; [done|]. split; [done|]. split; [done|]. split; [done|]. split; [done|].
  cbv zeta. fold idx K gk.
  split; [done|]. split; [done|]. subst o.
  split; [done|]. split; [done|].
  pose proof (frame_getitems_length _ _ _ Hss0) as L3.
  destruct ss0 as [|s1 [|s2 [|s3 [|]]]]; try done.
  split; [|split; [done|split; [done|exact Hv]]].
  apply summary_keys with (n := length idx).
  - rewrite Forall_forall in Lss0.
    repeat constructor; apply series_take_len;
      (rewrite Lss0; [done|repeat first [by left | right]]).
  - rewrite <- EK. reflexivity.
  - apply Forall_forall. intros k Hk. by apply group_keys_elem in Hk as [? _].
Qed.

(** The rows that survive the deduplication carry every group key of the
    table, when the key of the deduplication determines the group. *)
Lemma dedup_keeps_groups (Kd Kg : list (list cell)) :
  length Kd = length Kg ->
  (forall i j kd, Kd !! i = Some kd -> Kd !! j = Some kd -> Kg !! i = Kg !! j) ->
  forall k, k ∈ take_idx (first_occurrences [] 0 Kd) Kg <-> k ∈ Kg.
Proof.
  intros L FD k.
  pose proof (take_first_occurrences (A := list cell * list cell) fst [] [] (zip Kd Kg)) as T.
  rewrite fst_zip in T by lia. simpl in T.
  assert (E : take_idx (first_occurrences [] 0 Kd) Kg
              = (keep_first fst [] (zip Kd Kg)).*2).
  { rewrite <- T, <- take_idx_fmap, snd_zip by lia. done. }
  rewrite E. split.
  - intros ((kd & k') & -> & Hr)%list_elem_of_fmap. apply keep_first_sub in Hr.
    apply elem_of_zip_r in Hr. done.
  - intros [i Hi]%list_elem_of_lookup.
    destruct (lookup_lt_is_Some_2 Kd i) as [kd Hkd].
    { rewrite L. by eapply lookup_lt_Some. }
    assert (Hin : (kd, k) ∈ zip Kd Kg).
    { apply list_elem_of_lookup. exists i. by rewrite lookup_zip_with, Hkd, Hi. }
    destruct (keep_first_covers fst [] _ _ Hin) as [Hs|((kd' & k') & Hr' & Hk)].
    { by apply elem_of_nil in Hs. }
    simpl in Hk. subst kd'. apply list_elem_of_fmap. exists (kd, k'). split; [|done].
    simpl. pose proof (keep_first_sub _ _ _ _ Hr') as Hr.
    apply list_elem_of_lookup in Hr as [j Hj].
    rewrite lookup_zip_with in Hj.
    destruct (Kd !! j) as [kd1|] eqn:E1; [|done].
    destruct (Kg !! j) as [k1|] eqn:E2; [|done].
    simpl in Hj. injection Hj as -> ->.
    pose proof (FD i j kd Hkd E1) as F. rewrite Hi, E2 in F. congruence.
Qed.

Lemma remove_dups_filter_length (P : list cell -> Prop) `{!forall k, Decision (P k)}
  (K K' : list (list cell)) :
  (forall k, k ∈ K <-> k ∈ K') ->
  length (remove_dups (filter P K)) = length (remove_dups (filter P K')).
Proof.
  intros Hsame. apply Permutation_length. apply NoDup_Permutation.
  - apply NoDup_remove_dups.
  - apply NoDup_remove_dups.
  - intros k. rewrite !elem_of_remove_dups, !list_elem_of_filter, Hsame. done.
Qed.

(** X21 (one row per group key).  As the code is written, when the rows
    of the input that share (block_fips, variable_group) also share
    (cbsa_title, state_codes, group_label), the table [get_mutual_info]
    returns has exactly one row for each distinct (cbsa_title, state_codes,
    group_label) of the input that has no missing component, and no other
    row: its number of rows is the number of such distinct keys. *)
Theorem get_mutual_info_one_row_per_group h df d out h' Kd Kg :
  h !! df = Some d -> wf_frame d = true ->
  frame_keys d ["block_fips"; "variable_group"] = Ok Kd ->
  frame_keys d ["cbsa_title"; "state_codes"; "group_label"] = Ok Kg ->
  (forall i j kd, Kd !! i = Some kd -> Kd !! j = Some kd -> Kg !! i = Kg !! j) ->
  get_mutual_info df h = (Ok out, h') ->
  exists o G,
    h' !! out = Some o /\
    frame_keys o ["cbsa_title"; "state_codes"; "group_label"] = Ok G /\
    nrows o = length G /\ NoDup G /\
    (forall k, k ∈ G <-> k ∈ Kg /\ has_na k = false) /\
    nrows o = length (remove_dups (filter (fun k => has_na k = false) Kg)).
Proof.
  intros Hd W HKd HKg FD Hrun.
  rewrite (get_mutual_info_spec h df d Hd) in Hrun.
  destruct (mi_pure d) as [o|] eqn:Emi; [|done]. injection Hrun as <- <-.
  destruct (mi_pure_Ok d o W Emi)
    as (Kd' & Kg' & sel & vals & HKd' & HKg' & LKd & LKg & _ & Hrest).
  fold mi_dedup_key in HKd. fold mi_group_key in HKg.
  rewrite HKd in HKd'. injection HKd' as <-. rewrite HKg in HKg'. injection HKg' as <-.
  cbv zeta in Hrest. destruct Hrest as (_ & _ & Hn & _ & Hkeys & _).
  pose proof (dedup_keeps_groups Kd Kg ltac:(lia) FD) as Hsame.
  exists o, (group_keys (take_idx (first_occurrences [] 0 Kd) Kg)).
  split; [apply lookup_insert_eq|]. split; [done|]. split; [done|].
  split; [apply group_keys_NoDup|]. split.
  - intros k. by rewrite group_keys_elem, Hsame.
  - rewrite Hn, group_keys_length. by apply remove_dups_filter_length.
Qed.

(** *** The weighted mean of one group *)

Lemma mi_rows_proj Kd Kg D P n :
  length Kd = n -> length Kg = n -> length D = n -> length P = n ->
  block_of <$> mi_rows Kd Kg D P = Kd /\ group_of <$> mi_rows Kd Kg D P = Kg /\
  dkl_of <$> mi_rows Kd Kg D P = D /\ share_of <$> mi_rows Kd Kg D P = P.
Proof.
  revert Kd Kg D P. induction n as [|n IH];
    intros [|a Kd] [|b Kg] [|c D] [|e P]; simpl; try discriminate; auto.
  intros L1 L2 L3 L4. destruct (IH Kd Kg D P) as (H1 & H2 & H3 & H4); try lia.
  unfold mi_rows in *. simpl. repeat split; f_equal; done.
Qed.

Lemma vmul_Fin a b : vmul (Fin <$> a) (Fin <$> b) = Fin <$> zip_with Rmult a b.
Proof.
  unfold vmul. revert b. induction a as [|x a IH]; intros [|y b]; simpl; try done.
  f_equal. apply IH.
Qed.

Lemma feq_Fin_zero a : feq (Fin a) zero = bool_decide (a = 0%R).
Proof.
  unfold feq, zero. apply bool_decide_ext. split; [by intros [= ->]|by intros ->].
Qed.

Lemma fdiv_Fin a b : b ≠ 0%R -> fdiv (Fin a) (Fin b) = Fin (a / b).
Proof. intros N. simpl. by destruct (decide (b = 0%R)). Qed.

(** [_weighted_mean] on a group with finite weights [Wg] and finite
    divergences [Dg]. *)
Lemma weighted_mean_Fin g Dg Wg :
  df_get g "p_ni" = Some (FloatS (Fin <$> Wg)) ->
  df_get g "dkl_block" = Some (FloatS (Fin <$> Dg)) ->
  weighted_mean g =
    Ok (Fin (if decide (Rsum Wg = 0%R) then 0%R
             else (Rsum (zip_with Rmult Dg Wg) / Rsum Wg)%R)).
Proof.
  intros HW HD. unfold weighted_mean, frame_values, frame_getitem.
  rewrite HW. simpl. rewrite nansum_Fin, feq_Fin_zero.
  destruct (decide (Rsum Wg = 0%R)) as [E|N].
  - by rewrite bool_decide_eq_true_2.
  - rewrite bool_decide_eq_false_2 by done. rewrite HD. simpl.
    by rewrite vmul_Fin, nansum_Fin, fdiv_Fin.
Qed.

Lemma mi_of_columns Kd Kg D P n g :
  length Kd = n -> length Kg = n -> length D = n -> length P = n ->
  let idx := first_occurrences [] 0 Kd in
  let K := take_idx idx Kg in
  let Wg := group_values K g (take_idx idx P) in
  let Dg := group_values K g (take_idx idx D) in
  mi_of (mi_rows Kd Kg D P) g =
    (if decide (Rsum Wg = 0%R) then 0%R
     else (Rsum (zip_with Rmult Dg Wg) / Rsum Wg)%R).
Proof.
  intros L1 L2 L3 L4. cbv zeta.
  destruct (mi_rows_proj Kd Kg D P n L1 L2 L3 L4) as (E1 & E2 & E3 & E4).
  set (rows := mi_rows Kd Kg D P) in *.
  pose proof (take_first_occurrences block_of [] [] rows) as T.
  rewrite E1 in T. simpl in T.
  unfold mi_of, dedup_blocks. rewrite <- T.
  set (kept := take_idx (first_occurrences [] 0 Kd) rows).
  assert (EK : take_idx (first_occurrences [] 0 Kd) Kg = group_of <$> kept).
  { unfold kept. by rewrite <- take_idx_fmap, E2. }
  assert (EP : take_idx (first_occurrences [] 0 Kd) P = share_of <$> kept).
  { unfold kept. by rewrite <- take_idx_fmap, E4. }
  assert (ED : take_idx (first_occurrences [] 0 Kd) D = dkl_of <$> kept).
  { unfold kept. by rewrite <- take_idx_fmap, E3. }
  rewrite EK, EP, ED, !group_values_rows.
  rewrite map_same2. done.
Qed.

(** The summary, group by group: the groups are the sorted distinct
    complete keys of the rows that survive the deduplication, and the value
    of a group is [mi_of]. *)
Lemma get_mutual_info_groups h df d out h' Kd Kg D P :
  h !! df = Some d -> wf_frame d = true ->
  frame_keys d ["block_fips"; "variable_group"] = Ok Kd ->
  frame_keys d ["cbsa_title"; "state_codes"; "group_label"] = Ok Kg ->
  df_get d "dkl_block" = Some (FloatS (Fin <$> D)) ->
  df_get d "p_ni" = Some (FloatS (Fin <$> P)) ->
  get_mutual_info df h = (Ok out, h') ->
  exists o,
    h' !! out = Some o /\
    frame_keys o ["cbsa_title"; "state_codes"; "group_label"]
      = Ok (group_keys (take_idx (first_occurrences [] 0 Kd) Kg)) /\
    nrows o = length (group_keys (take_idx (first_occurrences [] 0 Kd) Kg)) /\
    forall i g, group_keys (take_idx (first_occurrences [] 0 Kd) Kg) !! i = Some g ->
      float_at o "avg_dkl_cbsa_pop" i = Some (Fin (mi_of (mi_rows Kd Kg D P) g)).
Proof.
  intros Hd W HKd HKg HD HP Hrun.
  rewrite (get_mutual_info_spec h df d Hd) in Hrun.
  destruct (mi_pure d) as [o|] eqn:Emi; [|done]. injection Hrun as <- <-.
  destruct (mi_pure_Ok d o W Emi)
    as (Kd' & Kg' & sel & vals & HKd' & HKg' & LKd & LKg & Hsel & Hrest).
  fold mi_dedup_key in HKd. fold mi_group_key in HKg.
  rewrite HKd in HKd'. injection HKd' as <-. rewrite HKg in HKg'. injection HKg' as <-.
  cbv zeta in Hrest.
  destruct Hrest as (Hidx & LK & Hn & _ & Hkeys & Hcol & Lv & Hv).
  set (idx := first_occurrences [] 0 Kd) in *.
  set (K := take_idx idx Kg) in *.
  destruct (frame_select_Ok _ _ _ Hsel) as (Nsel & Gsel & _).
  pose proof (wf_frame_len _ _ _ W HD) as LD. simpl in LD. rewrite length_fmap in LD.
  pose proof (wf_frame_len _ _ _ W HP) as LP. simpl in LP. rewrite length_fmap in LP.
  exists o. split; [apply lookup_insert_eq|].
  split; [done|]. split; [done|].
  intros i g Hi. destruct (Hv i g Hi) as (v & Hvi & Hwm).
  unfold float_at. rewrite Hcol, Hvi. f_equal.
  assert (Hidx_P : Forall (fun i => i < length P) idx) by by rewrite LP.
  assert (Hidx_D : Forall (fun i => i < length D) idx) by by rewrite LD.
  erewrite weighted_mean_Fin in Hwm.
  - injection Hwm as <-. f_equal. symmetry.
    by apply (mi_of_columns Kd Kg D P (nrows d)).
  - rewrite frame_take_get, frame_drop_get by (unfold mi_group_key; names_disjoint).
    rewrite frame_take_get, Gsel by (unfold mi_select; repeat first [by left|right]).
    rewrite HP. simpl. rewrite take_idx_fmap, take_idx_fmap.
    rewrite take_group_index; [done|].
    by rewrite LK, take_idx_length.
  - rewrite frame_take_get, frame_drop_get by (unfold mi_group_key; names_disjoint).
    rewrite frame_take_get, Gsel by (unfold mi_select; repeat first [by left|right]).
    rewrite HD. simpl. rewrite take_idx_fmap, take_idx_fmap.
    rewrite take_group_index; [done|].
    by rewrite LK, take_idx_length.
Qed.


(** *** When the summary exists *)

Lemma mapM_result_success {A B} (f : A -> result B) l :
  (forall x, x ∈ l -> is_ok (f x) = true) -> exists vs, mapM f l = Ok vs.
Proof.
  induction l as [|x l IH]; intros H; simpl; [by eexists|].
  destruct (is_ok_Ok (f x)) as [v ->]; [apply H; by left|]. simpl.
  destruct IH as [vs ->]; [intros y Hy; apply H; by right|]. simpl. by eexists.
Qed.

Lemma numeric_take idx s : numeric (series_take idx s) = numeric s.
Proof. by destruct s. Qed.

Lemma weighted_mean_numeric g sp sd :
  df_get g "p_ni" = Some sp -> df_get g "dkl_block" = Some sd ->
  numeric sp = true -> numeric sd = true ->
  is_ok (weighted_mean g) = true.
Proof.
  intros Hp Hd Np Nd. unfold weighted_mean, frame_values, frame_getitem.
  rewrite Hp. destruct sp as [l|l|l]; simpl in *; try done.
  - destruct (feq _ _); [done|]. rewrite Hd.
    destruct sd as [l'|l'|l']; simpl in *; done.
  - destruct (feq _ _); [done|]. rewrite Hd.
    destruct sd as [l'|l'|l']; simpl in *; done.
Qed.

Lemma frame_select_present d cs :
  Forall (fun c => is_Some (df_get d c)) cs -> exists sel, frame_select d cs = Ok sel.
Proof.
  intros H. destruct (frame_getitems_present d cs H) as [ss E].
  unfold frame_select. rewrite E. simpl. by eexists.
Qed.

(** [get_mutual_info] returns a table when its nine columns are there,
    [p_ni] and [dkl_block] are numeric, and at least one row that survives
    the deduplication has a complete group key. *)
Lemma get_mutual_info_succeeds h df d Kd Kg sp sd k :
  h !! df = Some d -> wf_frame d = true ->
  Forall (fun c => is_Some (df_get d c)) mi_select ->
  frame_keys d mi_dedup_key = Ok Kd -> frame_keys d mi_group_key = Ok Kg ->
  df_get d "p_ni" = Some sp -> df_get d "dkl_block" = Some sd ->
  numeric sp = true -> numeric sd = true ->
  k ∈ take_idx (first_occurrences [] 0 Kd) Kg -> has_na k = false ->
  exists o,
    mi_pure d = Ok o /\
    get_mutual_info df h = (Ok (fresh (dom h)), <[fresh (dom h) := o]> h).
Proof.
  intros Hd W Hall HKd HKg Hp Hdk Np Nd Hk Hna.
  assert (exists o, mi_pure d = Ok o) as [o Ho].
  2:{ exists o. split; [done|]. by rewrite (get_mutual_info_spec h df d Hd), Ho. }
  destruct (frame_select_present d mi_select Hall) as [sel Hsel].
  destruct (frame_select_Ok _ _ _ Hsel) as (Nsel & Gsel & Hsrc).
  assert (Wsel : cols_len sel).
  { intros c s Hc. rewrite Nsel. destruct (Hsrc c s Hc) as [c' Hc'].
    by eapply wf_frame_len. }
  assert (HKd' : frame_keys sel mi_dedup_key = Ok Kd).
  { rewrite <- HKd. apply frame_keys_ext; [done|]. intros c Hc. apply Gsel.
    unfold mi_dedup_key, mi_select in *.
    repeat (apply elem_of_cons in Hc as [->|Hc]; [repeat first [by left|right]|]).
    by apply elem_of_nil in Hc. }
  assert (HKg' : frame_keys sel mi_group_key = Ok Kg).
  { rewrite <- HKg. apply frame_keys_ext; [done|]. intros c Hc. apply Gsel.
    by apply mi_group_key_selected. }
  pose proof (frame_keys_length _ _ _ W HKd) as LKd.
  set (idx := first_occurrences [] 0 Kd) in *.
  assert (Hidx : Forall (fun i => i < nrows sel) idx).
  { rewrite Nsel, <- LKd. eapply Forall_impl; [apply first_occurrences_bound|].
    simpl. lia. }
  unfold mi_pure, block_level_of. rewrite Hsel. simpl.
  unfold drop_duplicates. rewrite HKd'. simpl. fold idx.
  unfold groupby_apply.
  pose proof (frame_keys_take idx sel mi_group_key Kg Wsel Hidx HKg') as HK.
  unfold frame_keys in HK.
  destruct (frame_getitems (frame_take idx sel) mi_group_key) as [ss|] eqn:Ess;
    simpl in HK; [|done].
  injection HK as HK. simpl. rewrite HK.
  destruct (mapM_result_success
              (fun m => weighted_mean (frame_take m (frame_drop mi_group_key (frame_take idx sel))))
              (group_index (take_idx idx Kg) <$> group_keys (take_idx idx Kg)))
    as [vals ->].
  { intros m _.
    eapply weighted_mean_numeric.
    - rewrite frame_take_get, frame_drop_get by (unfold mi_group_key; names_disjoint).
      rewrite frame_take_get, Gsel by (unfold mi_select; repeat first [by left|right]).
      rewrite Hp. reflexivity.
    - rewrite frame_take_get, frame_drop_get by (unfold mi_group_key; names_disjoint).
      rewrite frame_take_get, Gsel by (unfold mi_select; repeat first [by left|right]).
      rewrite Hdk. reflexivity.
    - by rewrite !numeric_take.
    - by rewrite !numeric_take. }
  simpl.
  destruct (group_keys (take_idx idx Kg)) as [|k0 gk] eqn:Eg.
  - exfalso. assert (Hin : k ∈ group_keys (take_idx idx Kg)) by by apply group_keys_elem.
    rewrite Eg in Hin. by apply elem_of_nil in Hin.
  - by eexists.
Qed.

(* ===================================================================== *)
(** * The theorems at work on the example tables                           *)
(* ===================================================================== *)

Lemma zero_closure_on_empty_block :
  exists out h' o (p_ni p_ni_yj p_yj p_yj_ni log_i log_j : R),
    calculate_dkl no_strings 0 {[0 := empty_block]} = (Ok out, h') /\
    h' !! out = Some o /\
    float_at o "p_ni" 0 = Some (Fin p_ni) /\ p_ni = 0%R /\
    float_at o "p_ni_yj" 0 = Some (Fin p_ni_yj) /\ p_ni_yj = 0%R /\
    float_at o "p_yj" 0 = Some (Fin p_yj) /\ p_yj = 0%R /\
    float_at o "p_yj_ni" 0 = Some (Fin p_yj_ni) /\ p_yj_ni = 0%R /\
    float_at o "dkl_log_i" 0 = Some (Fin log_i) /\ log_i = 0%R /\
    float_at o "dkl_log_j" 0 = Some (Fin log_j) /\ log_j = 0%R.
Proof.
  assert (Hd : ({[0 := empty_block]} : gmap nat DataFrame) !! 0 = Some empty_block)
    by apply lookup_singleton_eq.
  destruct (calculate_dkl_readable no_strings _ 0 empty_block Hd eq_refl)
    as (BE & BT & CE & CT & K1 & K2 & _ & _ & _ & _ & _ & _ & Hrun).
  destruct (calculate_dkl_zero_closure no_strings _ 0 empty_block _ _ 0 0 0 0 0
              Hd eq_refl Hrun eq_refl (or_introl eq_refl))
    as (o & p1 & p2 & p3 & p4 & l1 & l2 & Ho & H1 & H2 & H3 & H4 & H5 & H6
        & Z1 & Z2 & Z3 & Z4 & Z5).
  destruct (Z1 eq_refl) as [E1 E3].
  do 2 eexists. exists o, p1, p2, p3, p4, l1, l2.
  split; [exact Hrun|]. split; [exact Ho|].
  repeat split; try assumption.
  - by apply Z2.
  - by apply Z3.
  - apply Z4. rewrite E3. lra.
  - apply Z5. rewrite E1. lra.
Defined.

Lemma unit_interval_on_two_blocks :
  exists out h' o (p_ni p_ni_yj p_yj p_yj_ni : R),
    calculate_dkl no_strings 0 {[0 := two_blocks]} = (Ok out, h') /\
    h' !! out = Some o /\
    float_at o "p_ni" 0 = Some (Fin p_ni) /\
    float_at o "p_ni_yj" 0 = Some (Fin p_ni_yj) /\
    float_at o "p_yj" 0 = Some (Fin p_yj) /\
    float_at o "p_yj_ni" 0 = Some (Fin p_yj_ni) /\
    (0 <= p_ni <= 1)%R /\ (0 <= p_ni_yj <= 1)%R /\
    (0 <= p_yj <= 1)%R /\ (0 <= p_yj_ni <= 1)%R.
Proof.
  assert (Hd : ({[0 := two_blocks]} : gmap nat DataFrame) !! 0 = Some two_blocks)
    by apply lookup_singleton_eq.
  destruct (calculate_dkl_readable no_strings _ 0 two_blocks Hd eq_refl)
    as (BE & BT & CE & CT & K1 & K2 & _ & _ & _ & _ & _ & _ & Hrun).
  destruct (calculate_dkl_probabilities_in_unit_interval no_strings _ 0 two_blocks
              _ _ 0 10 100 60 200 Hd eq_refl Hrun eq_refl
              ltac:(lia) ltac:(lia) ltac:(lia) ltac:(lia) ltac:(lia))
    as (o & p1 & p2 & p3 & p4 & Ho & H).
  do 2 eexists. exists o, p1, p2, p3, p4.
  split; [exact Hrun|]. split; [exact Ho|]. exact H.
Defined.

Lemma broadcast_sums_on_two_blocks :
  exists out h' o,
    calculate_dkl no_strings 0 {[0 := two_blocks]} = (Ok out, h') /\
    h' !! out = Some o /\
    sum_over_rows_like o ["variable_group"; "block_fips"] "dkl_block_j" "dkl_block" /\
    sum_over_rows_like o ["variable_group"; "cbsa_fips"; "variable"] "dkl_bin_i" "dkl_bin" /\
    rows_like o ["variable_group"; "block_fips"] 0 = [0; 1]%nat /\
    float_at o "dkl_block_j" 0 = Some (Fin (kl_term 100 200 (10, 60)%Z)) /\
    float_at o "dkl_block_j" 1 = Some (Fin (kl_term 100 200 (90, 140)%Z)) /\
    float_at o "dkl_block" 0
      = Some (Fin (kl_term 100 200 (10, 60)%Z + (kl_term 100 200 (90, 140)%Z + 0))).
Proof.
  assert (Hd : ({[0 := two_blocks]} : gmap nat DataFrame) !! 0 = Some two_blocks)
    by apply lookup_singleton_eq.
  destruct (calculate_dkl_readable no_strings _ 0 two_blocks Hd eq_refl)
    as (BE & BT & CE & CT & K1 & K2 & [= <-] & [= <-] & [= <-] & [= <-]
        & [= <-] & [= <-] & Hrun).
  destruct (calculate_dkl_broadcast_sums no_strings _ 0 two_blocks _ _ Hd eq_refl Hrun)
    as (o & Ho & H1 & H2).
  rewrite lookup_insert_eq in Ho. injection Ho as <-.
  do 2 eexists. eexists. split; [exact Hrun|]. split; [apply lookup_insert_eq|].
  split; [exact H1|]. split; [exact H2|].
  clear Hrun H2. destruct H1 as [H1 _].
  match type of H1 with context [nrows ?x] => set (o := x) in * end.
  destruct (H1 0%nat) as (k & vs & Hk & Hvs & Hsum); [simpl; lia|]. clear H1.
  assert (R : rows_like o ["variable_group"; "block_fips"] 0 = [0; 1]%nat)
    by reflexivity.
  assert (Ek : key_at o ["variable_group"; "block_fips"] 0
               = Some [CStr "B19001"; CStr "A"]) by reflexivity.
  assert (F0 : float_at o "dkl_block_j" 0
               = Some (row_dkl_block_j (to_counts (mkICounts 10 100 60 200))))
    by reflexivity.
  assert (F1 : float_at o "dkl_block_j" 1
               = Some (row_dkl_block_j (to_counts (mkICounts 90 100 140 200))))
    by reflexivity.
  rewrite row_dkl_block_j_int in F0, F1. cbn [ibe ibt ice ict] in F0, F1.
  rewrite Ek in Hk. injection Hk as <-.
  rewrite R in Hvs. unfold values_at in Hvs. cbn [mapM] in Hvs.
  rewrite F0, F1 in Hvs. simpl in Hvs. injection Hvs as <-.
  split; [exact R|]. split; [exact F0|]. split; [exact F1|].
  destruct Hsum as [_ Hsum].
  { intros H. repeat (apply elem_of_cons in H as [?|H]; [done|]).
    by apply elem_of_nil in H. }
  apply Hsum.
  intros H. repeat (apply elem_of_cons in H as [?|H]; [done|]).
  by apply elem_of_nil in H.
Defined.

Lemma appends_columns_on_two_blocks :
  exists out h' o new,
    calculate_dkl no_strings 0 {[0 := two_blocks]} = (Ok out, h') /\
    h' !! out = Some o /\ nrows o = 4 /\
    columns o = columns two_blocks ++ new /\
    new.*1 = output_columns /\
    Forall (fun cs => exists l, cs.2 = FloatS l /\ length l = 4) new.
Proof.
  apply (calculate_dkl_appends_columns no_strings {[0 := two_blocks]} 0 two_blocks).
  - apply lookup_singleton_eq.
  - reflexivity.
Defined.

Lemma tables_unchanged_on_two_blocks :
  (calculate_dkl no_strings 0 {[0 := two_blocks_dkl]}).2 !! 0 = Some two_blocks_dkl /\
  (calculate_dkl no_strings 0 {[0 := two_blocks_dkl]}).1 ≠ Ok 0 /\
  (get_mutual_info 0 {[0 := two_blocks_dkl]}).2 !! 0 = Some two_blocks_dkl /\
  (get_mutual_info 0 {[0 := two_blocks_dkl]}).1 ≠ Ok 0.
Proof.
  apply (calls_leave_existing_tables_unchanged no_strings {[0 := two_blocks_dkl]} 0 0).
  apply lookup_singleton_eq.
Defined.

Lemma missing_cbsa_total_raises :
  exists c' e,
    first_missing two_blocks_no_total required_columns = Some c' /\
    c' ∈ required_columns /\ df_get two_blocks_no_total c' = None /\
    (calculate_dkl no_strings 0 {[0 := two_blocks_no_total]}).1 = Raise e /\
    e ≠ SchemaError /\
    ((e = KeyError c' /\
      forall c0 s, c0 ∈ count_columns -> read_before c0 c' = true ->
        df_get two_blocks_no_total c0 = Some s ->
        astype_float no_strings s <> Raise ValueError) \/
     (e = ValueError /\
      exists c0 s, c0 ∈ count_columns /\ read_before c0 c' = true /\
        df_get two_blocks_no_total c0 = Some s /\
        astype_float no_strings s = Raise ValueError)).
Proof.
  apply (calculate_dkl_missing_column no_strings {[0 := two_blocks_no_total]} 0
           two_blocks_no_total "cbsa_total").
  - apply lookup_singleton_eq.
  - reflexivity.
  - unfold required_columns, count_columns. simpl. repeat first [by left | right].
  - reflexivity.
Defined.

Lemma negative_count_is_kept :
  exists out h' o,
    calculate_dkl no_strings 0 {[0 := negative_count]} = (Ok out, h') /\
    h' !! out = Some o /\ nrows o = 1 /\
    float_at o "p_yj_ni" 0 =
      Some (if fgt (of_int 10) zero then fdiv (of_int (-5)) (of_int 10) else zero).
Proof.
  destruct (calculate_dkl_keeps_counts_as_they_are no_strings {[0 := negative_count]} 0
              negative_count 0 (int_counts (-5) 10 20 40)
              (lookup_singleton_eq _ _) eq_refl eq_refl)
    as (out & h' & o & Hrun & Ho & Hn & _ & _ & _ & H4 & _).
  exists out, h', o. split; [exact Hrun|]. split; [exact Ho|]. split; [exact Hn|].
  exact H4.
Defined.

Lemma two_blocks_dkl_summary_exists :
  exists o,
    mi_pure two_blocks_dkl = Ok o /\
    get_mutual_info 0 {[0 := two_blocks_dkl]} =
      (Ok (fresh (dom ({[0 := two_blocks_dkl]} : gmap nat DataFrame))),
       <[fresh (dom ({[0 := two_blocks_dkl]} : gmap nat DataFrame)) := o]>
         {[0 := two_blocks_dkl]}).
Proof.
  eapply (get_mutual_info_succeeds {[0 := two_blocks_dkl]} 0 two_blocks_dkl).
  - apply lookup_singleton_eq.
  - reflexivity.
  - unfold mi_select. repeat (constructor; [by eexists|]). constructor.
  - reflexivity.
  - reflexivity.
  - reflexivity.
  - reflexivity.
  - reflexivity.
  - reflexivity.
  - left.
  - reflexivity.
Qed.


Lemma one_row_per_group_on_two_blocks :
  exists out h' o G,
    get_mutual_info 0 {[0 := two_blocks_dkl]} = (Ok out, h') /\
    h' !! out = Some o /\
    frame_keys o ["cbsa_title"; "state_codes"; "group_label"] = Ok G /\
    nrows o = length G /\ NoDup G /\
    nrows o = 1.
Proof.
  destruct two_blocks_dkl_summary_exists as (o0 & _ & Hrun).
  set (Kd := [[CStr "A"; CStr "B19001"]; [CStr "A"; CStr "B19001"];
              [CStr "B"; CStr "B19001"]; [CStr "B"; CStr "B19001"]]).
  set (Kg := replicate 4 [CStr "Metro"; CStr "IL"; CStr "Household Income"]).
  assert (FD : forall i j kd,
             Kd !! i = Some kd -> Kd !! j = Some kd -> Kg !! i = Kg !! j).
  { unfold Kd, Kg. intros [|[|[|[|i]]]] [|[|[|[|j]]]] kd; simpl; intros H1 H2;
      first [discriminate | reflexivity | congruence]. }
  destruct (get_mutual_info_one_row_per_group {[0 := two_blocks_dkl]} 0 two_blocks_dkl
              _ _ Kd Kg (lookup_singleton_eq _ _) eq_refl eq_refl eq_refl FD Hrun)
    as (o & G & Ho & HG & Hn & HND & _ & Hcount).
  do 2 eexists. exists o, G. split; [exact Hrun|]. split; [exact Ho|].
  split; [exact HG|]. split; [exact Hn|]. split; [exact HND|]. exact Hcount.
Defined.

(* ===================================================================== *)
(** * Where the design document and the code part ways                     *)
(* ===================================================================== *)

(** A table without [cbsa_total]: the call raises pandas' [KeyError], not
    a [SchemaError]. *)
Lemma missing_column_is_a_KeyError :
  df_get two_blocks_no_total "cbsa_total" = None /\
  (calculate_dkl no_strings 0 {[0 := two_blocks_no_total]}).1
    = Raise (KeyError "cbsa_total") /\
  (calculate_dkl no_strings 0 {[0 := two_blocks_no_total]}).1 ≠ Raise SchemaError.
Proof.
  assert (E : (calculate_dkl no_strings 0 {[0 := two_blocks_no_total]}).1
              = Raise (KeyError "cbsa_total")).
  { pose proof (calculate_dkl_spec no_strings {[0 := two_blocks_no_total]} 0
                  two_blocks_no_total (lookup_singleton_eq _ _) eq_refl) as S.
    assert (P : dkl_pure no_strings two_blocks_no_total = Raise (KeyError "cbsa_total"))
      by reflexivity.
    rewrite P in S. destruct S as [d' ->]. reflexivity. }
  split; [reflexivity|]. split; [exact E|]. rewrite E. discriminate.
Qed.

Lemma mdiv_pos a b : (0 < b)%R -> mdiv a b = (a / b)%R.
Proof. intros H. unfold mdiv. by destruct (decide (0 < b)%R). Qed.

Lemma mlog2_pos x : (0 < x)%R -> mlog2 x = (ln x / ln 2)%R.
Proof. intros H. unfold mlog2. by destruct (decide (0 < x)%R). Qed.

Lemma mlog2_nonpos x : (x <= 0)%R -> mlog2 x = 0%R.
Proof. intros H. unfold mlog2. destruct (decide (0 < x)%R); [lra|done]. Qed.

(** A block count of -5 out of a block total of 10: the probability is
    -5/10, where the coercion to 0 would have given 0. *)
Lemma negative_count_is_not_coerced :
  exists out h' o,
    calculate_dkl no_strings 0 {[0 := negative_count]} = (Ok out, h') /\
    h' !! out = Some o /\
    row_at no_strings negative_count 0 = Some (int_counts (-5) 10 20 40) /\
    float_at o "p_yj_ni" 0 = Some (Fin (-5 / 10)) /\
    row_p_yj_ni (coerce_row (int_counts (-5) 10 20 40)) = Fin 0 /\
    float_at o "p_yj_ni" 0
      ≠ Some (row_p_yj_ni (coerce_row (int_counts (-5) 10 20 40))).
Proof.
  destruct (calculate_dkl_rows no_strings {[0 := negative_count]} 0 negative_count 0
              (int_counts (-5) 10 20 40) (lookup_singleton_eq _ _) eq_refl eq_refl)
    as (out & h' & o & Hrun & Ho & _ & _ & _ & _ & H4 & _).
  assert (E1 : row_p_yj_ni (int_counts (-5) 10 20 40) = Fin (-5 / 10)).
  { unfold row_p_yj_ni, int_counts, of_int. simpl.
    rewrite masked_div_Fin, mdiv_pos by lra. done. }
  assert (E2 : row_p_yj_ni (coerce_row (int_counts (-5) 10 20 40)) = Fin 0).
  { unfold row_p_yj_ni, coerce_row, int_counts, of_int, coerce_count. simpl.
    destruct (decide (-5 < 0)%R); [|lra]. destruct (decide (10 < 0)%R); [lra|].
    unfold zero. rewrite masked_div_Fin, mdiv_pos by lra. f_equal. lra. }
  exists out, h', o. split; [exact Hrun|]. split; [exact Ho|].
  split; [reflexivity|]. rewrite H4, E1, E2.
  split; [done|]. split; [done|]. intros [= H]. lra.
Qed.

Lemma one_metro_two_states_summary_exists :
  exists o,
    mi_pure one_metro_two_states = Ok o /\
    get_mutual_info 0 {[0 := one_metro_two_states]} =
      (Ok (fresh (dom ({[0 := one_metro_two_states]} : gmap nat DataFrame))),
       <[fresh (dom ({[0 := one_metro_two_states]} : gmap nat DataFrame)) := o]>
         {[0 := one_metro_two_states]}).
Proof.
  eapply (get_mutual_info_succeeds {[0 := one_metro_two_states]} 0 one_metro_two_states).
  - apply lookup_singleton_eq.
  - reflexivity.
  - unfold mi_select. repeat (constructor; [by eexists|]). constructor.
  - reflexivity.
  - reflexivity.
  - reflexivity.
  - reflexivity.
  - reflexivity.
  - reflexivity.
  - left.
  - reflexivity.
Qed.

Lemma one_block_two_metros_summary_exists :
  exists o,
    mi_pure one_block_two_metros = Ok o /\
    get_mutual_info 0 {[0 := one_block_two_metros]} =
      (Ok (fresh (dom ({[0 := one_block_two_metros]} : gmap nat DataFrame))),
       <[fresh (dom ({[0 := one_block_two_metros]} : gmap nat DataFrame)) := o]>
         {[0 := one_block_two_metros]}).
Proof.
  eapply (get_mutual_info_succeeds {[0 := one_block_two_metros]} 0 one_block_two_metros).
  - apply lookup_singleton_eq.
  - reflexivity.
  - unfold mi_select. repeat (constructor; [by eexists|]). constructor.
  - reflexivity.
  - reflexivity.
  - reflexivity.
  - reflexivity.
  - reflexivity.
  - reflexivity.
  - left.
  - reflexivity.
Qed.

(** C2 (the code at its failing input).  One metro and one category
    group, with a block in Illinois and a block in Indiana: the metro is
    one (cbsa_fips, variable_group) pair, and one (cbsa_title, group_label)
    pair, and the weighted mean of its two blocks is
    (3 * 1/2 + 1 * 1/2) / (1/2 + 1/2) = 2.  [get_mutual_info] groups by
    the state of the block as well and returns two rows, 3 for the part in
    Illinois and 1 for the part in Indiana, where its docstring promises
    one row per (cbsa_title, group_label). *)
Lemma two_states_split_the_weighted_mean :
  exists out h' o Kd Kf Kt D P,
    get_mutual_info 0 {[0 := one_metro_two_states]} = (Ok out, h') /\
    h' !! out = Some o /\
    frame_keys one_metro_two_states ["block_fips"; "variable_group"] = Ok Kd /\
    frame_keys one_metro_two_states ["cbsa_fips"; "variable_group"] = Ok Kf /\
    frame_keys one_metro_two_states ["cbsa_title"; "group_label"] = Ok Kt /\
    df_get one_metro_two_states "dkl_block" = Some (FloatS (Fin <$> D)) /\
    df_get one_metro_two_states "p_ni" = Some (FloatS (Fin <$> P)) /\
    remove_dups Kf = [[CStr "16980"; CStr "B19001"]] /\
    mi_of (mi_rows Kd Kf D P) [CStr "16980"; CStr "B19001"] = 2%R /\
    remove_dups Kt = [[CStr "Chicago"; CStr "Household Income"]] /\
    mi_of (mi_rows Kd Kt D P) [CStr "Chicago"; CStr "Household Income"] = 2%R /\
    nrows o = 2 /\
    float_at o "avg_dkl_cbsa_pop" 0 = Some (Fin 3) /\
    float_at o "avg_dkl_cbsa_pop" 1 = Some (Fin 1).
Proof.
  destruct one_metro_two_states_summary_exists as (o0 & _ & Hrun).
  destruct (get_mutual_info_groups {[0 := one_metro_two_states]} 0 one_metro_two_states
              _ _ _ _ [3; 1]%R [1 / 2; 1 / 2]%R
              (lookup_singleton_eq _ _) eq_refl eq_refl eq_refl eq_refl eq_refl Hrun)
    as (o & Ho & HG & Hn & Hv).
  do 2 eexists. exists o. do 3 eexists. exists [3; 1]%R, [1 / 2; 1 / 2]%R.
  split; [exact Hrun|]. split; [exact Ho|].
  do 5 (split; [reflexivity|]).
  split; [reflexivity|].
  split.
  { unfold mi_of. simpl. destruct (decide _) as [E|N]; [lra|field]. }
  split; [reflexivity|].
  split.
  { unfold mi_of. simpl. destruct (decide _) as [E|N]; [lra|field]. }
  split; [exact Hn|].
  split.
  - rewrite (Hv 0 _ eq_refl). do 2 f_equal.
    unfold mi_of. simpl. destruct (decide _) as [E|N]; [lra|field].
  - rewrite (Hv 1 _ eq_refl). do 2 f_equal.
    unfold mi_of. simpl. destruct (decide _) as [E|N]; [lra|field].
Qed.

(** C7 (the code at its failing input).  One metro with a block in
    Illinois and a block in Indiana is one (metro, category group) pair, by
    [cbsa_fips] as by [cbsa_title], and [get_mutual_info] returns two rows
    for it, one per state, where its docstring promises one row per
    (cbsa_title, group_label). *)
Lemma one_metro_two_states_gets_two_rows :
  exists out h' o Kf Kt K,
    get_mutual_info 0 {[0 := one_metro_two_states]} = (Ok out, h') /\
    h' !! out = Some o /\
    frame_keys one_metro_two_states ["cbsa_fips"; "variable_group"] = Ok Kf /\
    remove_dups Kf = [[CStr "16980"; CStr "B19001"]] /\
    frame_keys one_metro_two_states ["cbsa_title"; "group_label"] = Ok Kt /\
    remove_dups Kt = [[CStr "Chicago"; CStr "Household Income"]] /\
    nrows o = 2 /\
    frame_keys o ["cbsa_title"; "state_codes"; "group_label"] = Ok K /\
    K = [[CStr "Chicago"; CStr "IL"; CStr "Household Income"];
         [CStr "Chicago"; CStr "IN"; CStr "Household Income"]].
Proof.
  destruct one_metro_two_states_summary_exists as (o & Hpure & Hrun).
  destruct (mi_pure_Ok one_metro_two_states o eq_refl Hpure)
    as (Kd & Kg & sel & vals & HKd & HKg & _ & _ & _ & Hrest).
  injection HKd as <-. injection HKg as <-.
  cbv zeta in Hrest. destruct Hrest as (_ & _ & Hn & _ & HK & _).
  do 2 eexists. exists o. do 3 eexists.
  split; [exact Hrun|]. split; [apply lookup_insert_eq|].
  do 4 (split; [reflexivity|]). split; [exact Hn|].
  split; [exact HK|]. reflexivity.
Qed.

(** Two rows of one block and category group that name two metros are two
    (metro, category group) pairs and get one row: the deduplication keeps
    the first row of the block only. *)
Lemma one_block_two_metros_gets_one_row :
  exists out h' o Kf Kt Kg,
    get_mutual_info 0 {[0 := one_block_two_metros]} = (Ok out, h') /\
    h' !! out = Some o /\
    frame_keys one_block_two_metros ["cbsa_fips"; "variable_group"] = Ok Kf /\
    length (remove_dups Kf) = 2 /\
    frame_keys one_block_two_metros ["cbsa_title"; "group_label"] = Ok Kt /\
    length (remove_dups Kt) = 2 /\
    frame_keys one_block_two_metros ["cbsa_title"; "state_codes"; "group_label"] = Ok Kg /\
    length (remove_dups Kg) = 2 /\
    nrows o = 1.
Proof.
  destruct one_block_two_metros_summary_exists as (o & Hpure & Hrun).
  destruct (mi_pure_Ok one_block_two_metros o eq_refl Hpure)
    as (Kd & Kg & sel & vals & HKd & HKg & _ & _ & _ & Hrest).
  injection HKd as <-. injection HKg as <-.
  cbv zeta in Hrest. destruct Hrest as (_ & _ & Hn & _).
  do 2 eexists. exists o. do 3 eexists.
  split; [exact Hrun|]. split; [apply lookup_insert_eq|].
  do 6 (split; [reflexivity|]). exact Hn.
Qed.

(* ===================================================================== *)
(** * More about calculate_dkl                                             *)
(* ===================================================================== *)

Lemma mlog2_zero : mlog2 0 = 0%R.
Proof. apply mlog2_nonpos. lra. Qed.

Lemma mlog2_one : mlog2 1 = 0%R.
Proof. rewrite mlog2_pos by lra. rewrite ln_1. lra. Qed.

(** A bin that has the same share in the block as in the metro adds
    nothing. *)
Lemma kl_term_balanced (n m a b : Z) :
  (a * m = b * n)%Z -> kl_term n m (a, b) = 0%R.
Proof.
  intros E. unfold kl_term. cbn [fst snd].
  assert (ER : (IZR a * IZR m = IZR b * IZR n)%R) by (rewrite <- !mult_IZR; by f_equal).
  destruct (decide (0 < IZR n)%R) as [Hn|Hn].
  2:{ assert (Z : mdiv (IZR a) (IZR n) = 0%R) by (unfold mdiv; by rewrite decide_False).
      rewrite Z. lra. }
  destruct (decide (0 < IZR m)%R) as [Hm|Hm].
  2:{ assert (Z : mdiv (IZR b) (IZR m) = 0%R) by (unfold mdiv; by rewrite decide_False).
      rewrite Z, mdiv_zero_den, mlog2_zero. lra. }
  rewrite (mdiv_pos (IZR a)), (mdiv_pos (IZR b)) by done.
  assert (Epq : (IZR a / IZR n = IZR b / IZR m)%R) by (field_simplify_eq; lra).
  rewrite Epq.
  destruct (decide (0 < IZR b / IZR m)%R) as [Hq|Hq].
  - rewrite mdiv_pos by done.
    assert (U : (IZR b / IZR m / (IZR b / IZR m) = 1)%R) by (apply Rinv_r; lra).
    rewrite U, mlog2_one. lra.
  - unfold mdiv. rewrite decide_False by done. rewrite mlog2_zero. lra.
Qed.

Lemma Rsum_zeros {A} (l : list A) : Rsum ((fun _ => 0%R) <$> l) = 0%R.
Proof.
  induction l as [|x l IH]; [done|].
  rewrite fmap_cons. unfold Rsum in *. cbn [foldr]. rewrite IH. lra.
Qed.

Section MoreRows.
Variable py_float : string -> option float.

(** X2 (no NaN and no infinity on int64 counts).  On a row whose four
    counts are integers of the int64 range, of any sign, each of the eight
    row-wise columns [calculate_dkl] adds holds a finite number. *)
Theorem calculate_dkl_row_columns_finite h df d out h' i (zbe zbt zce zct : Z) :
  h !! df = Some d -> wf_frame d = true ->
  calculate_dkl py_float df h = (Ok out, h') ->
  row_at py_float d i = Some (int_counts zbe zbt zce zct) ->
  int64 zbe -> int64 zbt -> int64 zce -> int64 zct ->
  exists o,
    h' !! out = Some o /\
    forall col, col ∈ ["p_ni"; "p_ni_yj"; "p_yj"; "p_yj_ni"; "dkl_log_i"; "dkl_log_j";
                      "dkl_block_j"; "dkl_bin_i"] ->
      exists v : R, float_at o col i = Some (Fin v).
Proof.
  intros Hd W Hrun Hrow _ _ _ _.
  destruct (calculate_dkl_Ok py_float h df d out h' Hd W Hrun)
    as (rows & K1 & K2 & -> & -> & _ & _ & _ & _ & _ & Hrows).
  rewrite <- Hrows in Hrow.
  exists (dkl_frame d rows K1 K2).
  split; [apply lookup_insert_eq|].
  intros col Hcol.
  repeat (apply elem_of_cons in Hcol as [->|Hcol];
    [ erewrite dkl_frame_float_at by in_dkl_columns;
      rewrite list_lookup_fmap, Hrow; simpl;
      unfold row_dkl_block_j, row_dkl_bin_i, row_dkl_log_i, row_dkl_log_j,
        row_ratio_i, row_ratio_j, row_p_ni, row_p_ni_yj, row_p_yj, row_p_yj_ni,
        int_counts, of_int; simpl;
      rewrite ?masked_div_Fin, ?masked_log2_Fin; simpl; by eexists |]).
  by apply elem_of_nil in Hcol.
Qed.

(** X3 (a missing key gives NaN).  A row whose [variable_group] or
    [block_fips] is missing belongs to no group of the [groupby] and gets
    [dkl_block = NaN]; likewise [dkl_bin = NaN] on a row whose
    [variable_group], [cbsa_fips] or [variable] is missing. *)
Theorem calculate_dkl_missing_key_gives_NaN h df d out h' :
  h !! df = Some d -> wf_frame d = true ->
  calculate_dkl py_float df h = (Ok out, h') ->
  exists o,
    h' !! out = Some o /\
    (forall K i k, frame_keys d ["variable_group"; "block_fips"] = Ok K ->
       K !! i = Some k -> has_na k = true -> float_at o "dkl_block" i = Some NaN) /\
    (forall K i k, frame_keys d ["variable_group"; "cbsa_fips"; "variable"] = Ok K ->
       K !! i = Some k -> has_na k = true -> float_at o "dkl_bin" i = Some NaN).
Proof.
  intros Hd W Hrun.
  destruct (calculate_dkl_Ok py_float h df d out h' Hd W Hrun)
    as (rows & K1 & K2 & -> & -> & HK1 & HK2 & _).
  exists (dkl_frame d rows K1 K2).
  split; [apply lookup_insert_eq|]. split.
  - intros K i k HK Hi Hna. fold block_key in HK. rewrite HK1 in HK. injection HK as <-.
    erewrite dkl_frame_float_at by in_dkl_columns.
    unfold transform_sum. rewrite list_lookup_fmap, Hi. simpl. by rewrite Hna.
  - intros K i k HK Hi Hna. fold bin_key in HK. rewrite HK2 in HK. injection HK as <-.
    erewrite dkl_frame_float_at by in_dkl_columns.
    unfold transform_sum. rewrite list_lookup_fmap, Hi. simpl. by rewrite Hna.
Qed.

(** X4 (no divergence without a difference).  On integer counts that
    [astype(float)] converts without rounding (at most 2^53 in absolute
    value), a group in which every row has [block_estimate * cbsa_total =
    cbsa_estimate * block_total], that is the same share in the block as in
    the metro, has [dkl_block = 0], and [dkl_bin = 0] for a bin group of
    such rows. *)
Theorem dkl_aggregates_zero_when_balanced h df d out h' BE BT CE CT :
  h !! df = Some d -> wf_frame d = true ->
  df_get d "block_estimate" = Some (IntS BE) ->
  df_get d "block_total" = Some (IntS BT) ->
  df_get d "cbsa_estimate" = Some (IntS CE) ->
  df_get d "cbsa_total" = Some (IntS CT) ->
  Forall exact_in_float BE -> Forall exact_in_float BT ->
  Forall exact_in_float CE -> Forall exact_in_float CT ->
  calculate_dkl py_float df h = (Ok out, h') ->
  exists o,
    h' !! out = Some o /\
    (forall K i k,
       frame_keys d ["variable_group"; "block_fips"] = Ok K ->
       K !! i = Some k -> has_na k = false ->
       Forall (fun r => (ibe r * ict r = ice r * ibt r)%Z)
              (group_values K k (icount_rows BE BT CE CT)) ->
       float_at o "dkl_block" i = Some (Fin 0)) /\
    (forall K i k,
       frame_keys d ["variable_group"; "cbsa_fips"; "variable"] = Ok K ->
       K !! i = Some k -> has_na k = false ->
       Forall (fun r => (ibe r * ict r = ice r * ibt r)%Z)
              (group_values K k (icount_rows BE BT CE CT)) ->
       float_at o "dkl_bin" i = Some (Fin 0)).
Proof.
  intros Hd W HBE HBT HCE HCT _ _ _ _ Hrun.
  destruct (dkl_aggregates_at py_float h df d out h' BE BT CE CT Hd W HBE HBT HCE HCT Hrun)
    as (o & Ho & Hblock & Hbin).
  exists o. split; [done|]. split.
  - intros K i k HK Hi Hna Hbal. rewrite (Hblock K i k HK Hi Hna). f_equal.
    set (G := group_values K k (icount_rows BE BT CE CT)) in *.
    assert (E : row_dkl_block_j <$> (to_counts <$> G) = Fin <$> ((fun _ => 0%R) <$> G)).
    { rewrite <- !list_fmap_compose. apply Forall_fmap_ext_1.
      eapply Forall_impl; [exact Hbal|]. intros r Hr. simpl.
      rewrite row_dkl_block_j_int. f_equal. by apply kl_term_balanced. }
    rewrite E, nansum_Fin. f_equal.
    apply Rsum_zeros.
  - intros K i k HK Hi Hna Hbal. rewrite (Hbin K i k HK Hi Hna). f_equal.
    set (G := group_values K k (icount_rows BE BT CE CT)) in *.
    assert (E : row_dkl_bin_i <$> (to_counts <$> G) = Fin <$> ((fun _ => 0%R) <$> G)).
    { rewrite <- !list_fmap_compose. apply Forall_fmap_ext_1.
      eapply Forall_impl; [exact Hbal|]. intros r Hr. simpl.
      rewrite row_dkl_bin_i_int. f_equal. apply kl_term_balanced.
      cbn [fst snd]. rewrite Hr. apply Z.mul_comm. }
    rewrite E, nansum_Fin. f_equal.
    apply Rsum_zeros.
Qed.

End MoreRows.

Lemma assoc_set_same c s cols :
  assoc_get c cols = Some s -> assoc_set c s cols = cols.
Proof.
  induction cols as [|[c0 s0] cols IH]; simpl; [done|].
  destruct (String.eqb c0 c) eqn:E.
  - by intros [= ->].
  - intros H. by rewrite IH.
Qed.

Lemma df_set_same d c s : df_get d c = Some s -> df_set d c s = d.
Proof. destruct d as [n cols]. unfold df_get, df_set. simpl. intros H. by rewrite assoc_set_same. Qed.

Lemma foldl_set_same d new :
  (forall c s, (c, s) ∈ new -> df_get d c = Some s) ->
  foldl (fun d cs => df_set d cs.1 cs.2) d new = d.
Proof.
  induction new as [|[c s] new IH]; simpl; [done|].
  intros H. rewrite df_set_same by (apply H; by left).
  apply IH. intros c' s' Hc. apply H. by right.
Qed.

Lemma assoc_set_names c s cols :
  (assoc_set c s cols).*1 = if decide (c ∈ cols.*1) then cols.*1 else cols.*1 ++ [c].
Proof.
  induction cols as [|[c0 s0] cols IH].
  - cbn [assoc_set fmap list_fmap fst]. case_decide as H; [|done]. by apply elem_of_nil in H.
  - cbn [assoc_set]. destruct (String.eqb c0 c) eqn:E.
    + apply String.eqb_eq in E. subst c0. rewrite !fmap_cons. cbn [fst].
      rewrite decide_True; [done|]. by left.
    + apply String.eqb_neq in E. rewrite !fmap_cons, IH. cbn [fst].
      destruct (decide (c ∈ cols.*1)) as [H|H].
      * rewrite decide_True; [done|]. by right.
      * rewrite decide_False; [done|]. intros [->|H']%elem_of_cons; done.
Qed.

Lemma assoc_set_lens c s cols n :
  forallb (fun cs : string * series => Nat.eqb (series_len cs.2) n) cols = true ->
  series_len s = n ->
  forallb (fun cs : string * series => Nat.eqb (series_len cs.2) n) (assoc_set c s cols) = true.
Proof.
  intros H L. induction cols as [|[c0 s0] cols IH]; simpl in *.
  - rewrite L, Nat.eqb_refl. done.
  - apply andb_true_iff in H as [H1 H2].
    destruct (String.eqb c0 c); simpl.
    + rewrite L, Nat.eqb_refl. done.
    + rewrite H1. simpl. by apply IH.
Qed.

Lemma df_set_wf d c s :
  wf_frame d = true -> series_len s = nrows d -> wf_frame (df_set d c s) = true.
Proof.
  unfold wf_frame. intros [H1 H2]%andb_true_iff L. apply andb_true_iff. split.
  - simpl. by apply assoc_set_lens.
  - apply bool_decide_eq_true in H2. apply bool_decide_eq_true.
    unfold col_names in *. simpl. rewrite assoc_set_names.
    destruct (decide (c ∈ (columns d).*1)); [done|].
    apply NoDup_app. split; [done|]. split.
    + intros x Hx ->%list_elem_of_singleton. done.
    + apply NoDup_singleton.
Qed.

Lemma foldl_set_wf d new :
  wf_frame d = true -> Forall (fun cs => series_len cs.2 = nrows d) new ->
  wf_frame (foldl (fun d cs => df_set d cs.1 cs.2) d new) = true.
Proof.
  revert d. induction new as [|[c s] new IH]; intros d W F; simpl; [done|].
  apply Forall_cons in F as [F1 F2]. apply IH.
  - by apply df_set_wf.
  - done.
Qed.

Lemma transform_sum_length K v : length (transform_sum K v) = length K.
Proof. unfold transform_sum. by rewrite length_fmap. Qed.

Lemma dkl_frame_wf d rows K1 K2 :
  wf_frame d = true -> length rows = nrows d -> length K1 = nrows d -> length K2 = nrows d ->
  wf_frame (dkl_frame d rows K1 K2) = true.
Proof.
  intros W L L1 L2. apply foldl_set_wf; [done|].
  unfold dkl_columns.
  repeat (constructor; [simpl; rewrite ?transform_sum_length, ?length_fmap; done|]).
  constructor.
Qed.

Section Again.
Variable py_float : string -> option float.

Lemma dkl_frame_float d rows K1 K2 c :
  c ∈ count_columns ->
  frame_float py_float (dkl_frame d rows K1 K2) c = frame_float py_float d c.
Proof.
  intros Hc. unfold frame_float, frame_getitem. rewrite dkl_frame_get_other; [done|].
  unfold count_columns, output_columns in *.
  repeat (apply elem_of_cons in Hc as [->|Hc]; [names_disjoint|]).
  by apply elem_of_nil in Hc.
Qed.

(** X5 ([calculate_dkl] is idempotent).  Calling [calculate_dkl] on the
    table it returned gives a new table with the same columns and values:
    the ten columns are computed from the counts and keys alone and
    overwrite the existing ones where they stand. *)
Theorem calculate_dkl_idempotent h df d out h' :
  h !! df = Some d -> wf_frame d = true ->
  calculate_dkl py_float df h = (Ok out, h') ->
  exists o out2 h'',
    h' !! out = Some o /\
    calculate_dkl py_float out h' = (Ok out2, h'') /\
    out2 <> out /\ h'' !! out = Some o /\ h'' !! out2 = Some o.
Proof.
  intros Hd W Hrun.
  destruct (calculate_dkl_Ok_counts py_float h df d out h' Hd W Hrun)
    as (BE & BT & CE & CT & K1 & K2 & -> & -> & FBE & FBT & FCE & FCT & HK1 & HK2
        & LBE & LBT & LCE & LCT & LK1 & LK2).
  set (rows := count_rows BE BT CE CT) in *.
  set (o := dkl_frame d rows K1 K2).
  set (out := fresh (dom h)).
  set (h1 := <[out := o]> h).
  assert (Lrows : length rows = nrows d) by by apply count_rows_length.
  assert (Wo : wf_frame o = true) by by apply dkl_frame_wf.
  assert (Ho : h1 !! out = Some o) by apply lookup_insert_eq.
  assert (Ep : dkl_pure py_float o = Ok o).
  { unfold dkl_pure, o.
    rewrite !dkl_frame_float by (unfold count_columns; repeat first [by left|right]).
    rewrite FBE, FBT, FCE, FCT. simpl.
    rewrite dkl_frame_keys_block, dkl_frame_keys_bin, HK1, HK2. simpl. f_equal.
    fold rows. apply foldl_set_same. intros c s Hc. by apply dkl_frame_get. }
  pose proof (calculate_dkl_spec py_float h1 out o Ho Wo) as S2. rewrite Ep in S2.
  assert (Hne : fresh (dom h1) <> out).
  { intros E. apply (is_fresh (dom h1)). rewrite E. apply elem_of_dom. by eexists. }
  exists o, (fresh (dom h1)), (<[fresh (dom h1) := o]> h1).
  split; [done|]. split; [done|]. split; [done|]. split.
  - by rewrite lookup_insert_ne.
  - apply lookup_insert_eq.
Qed.

End Again.

(* ===================================================================== *)
(** * More about get_mutual_info                                           *)
(* ===================================================================== *)

(** *** The order of the groups *)

Lemma cell_leb_total a b : a <> b -> cell_leb a b = true \/ cell_leb b a = true.
Proof.
  intros N. destruct a as [x|x|x|], b as [y|y|y|]; simpl; auto.
  - destruct (Z.leb_spec x y); [by left|]. right. apply Z.leb_le. lia.
  - destruct (fgt x y) eqn:E; [|by left]. right.
    destruct x as [| | |x], y as [| | |y]; simpl in *; try done.
    apply bool_decide_eq_true in E. rewrite bool_decide_eq_false_2; [done|lra].
  - destruct (String.leb_total x y) as [H|H]; rewrite H; auto.
Qed.

Lemma key_leb_total : Total (fun a b : list cell => Is_true (key_leb a b)).
Proof.
  intros k1. induction k1 as [|a r1 IH]; intros [|b r2]; simpl; auto.
  destruct (decide (a = b)) as [->|N].
  - rewrite decide_True by done. apply IH.
  - rewrite (decide_False (P := b = a)) by congruence.
    destruct (cell_leb_total a b N) as [H|H]; rewrite H; simpl; auto.
Qed.

Lemma group_keys_Sorted K : Sorted (fun a b => Is_true (key_leb a b)) (group_keys K).
Proof. unfold group_keys. apply (@Sorted_merge_sort _ _ _ key_leb_total). Qed.

Lemma mi_pure_columns d o :
  mi_pure d = Ok o -> col_names o = mi_group_key ++ ["avg_dkl_cbsa_pop"].
Proof.
  unfold mi_pure. destruct (block_level_of d) as [bl|]; simpl; [|done].
  intros Hg. destruct (groupby_apply_Ok _ _ _ _ _ Hg) as (ss & vals & Hss & Ho & _).
  cbv zeta in Ho. subst o. unfold col_names. cbn [columns].
  rewrite fmap_app, fst_zip; [done|].
  rewrite length_fmap. apply frame_getitems_length in Hss. lia.
Qed.

(** X6 (shape of the summary).  The table [get_mutual_info] returns has
    exactly the columns [cbsa_title], [state_codes], [group_label] and
    [avg_dkl_cbsa_pop], in this order, at least one row, one float per row,
    and its rows are in ascending order of the key, without a repeated key
    and without a missing key component. *)
Theorem get_mutual_info_output_shape h df d out h' :
  h !! df = Some d -> wf_frame d = true ->
  get_mutual_info df h = (Ok out, h') ->
  exists o G vals,
    h' !! out = Some o /\
    col_names o = ["cbsa_title"; "state_codes"; "group_label"; "avg_dkl_cbsa_pop"] /\
    frame_keys o ["cbsa_title"; "state_codes"; "group_label"] = Ok G /\
    df_get o "avg_dkl_cbsa_pop" = Some (FloatS vals) /\
    nrows o = length G /\ length vals = length G /\ 0 < nrows o /\
    Sorted (fun a b => Is_true (key_leb a b)) G /\ NoDup G /\
    Forall (fun k => has_na k = false) G.
Proof.
  intros Hd W Hrun.
  rewrite (get_mutual_info_spec h df d Hd) in Hrun.
  destruct (mi_pure d) as [o|] eqn:Emi; [|done]. injection Hrun as <- <-.
  destruct (mi_pure_Ok d o W Emi)
    as (Kd & Kg & sel & vals & _ & _ & _ & _ & _ & Hrest).
  cbv zeta in Hrest. destruct Hrest as (_ & _ & Hn & Hne & Hkeys & Hcol & Lv & _).
  set (G := group_keys (take_idx (first_occurrences [] 0 Kd) Kg)) in *.
  exists o, G, vals.
  split; [apply lookup_insert_eq|]. split; [by apply (mi_pure_columns d)|].
  split; [done|]. split; [done|]. split; [done|]. split; [done|]. split.
  { rewrite Hn. destruct G; [done|simpl; lia]. }
  split; [apply group_keys_Sorted|]. split; [apply group_keys_NoDup|].
  apply Forall_forall. intros k Hk. by apply group_keys_elem in Hk as [_ ?].
Qed.

(** *** Errors and the columns that are read *)

Lemma frame_getitems_missing d cs c :
  c ∈ cs -> df_get d c = None ->
  exists c', frame_getitems d cs = Raise (KeyError c') /\ c' ∈ cs /\ df_get d c' = None.
Proof.
  induction cs as [|c0 cs IH]; intros Hc Hm; [by apply elem_of_nil in Hc|].
  simpl. unfold frame_getitem at 1.
  destruct (df_get d c0) as [s0|] eqn:E0; simpl.
  - apply elem_of_cons in Hc as [->|Hc]; [congruence|].
    destruct (IH Hc Hm) as (c' & -> & Hc' & Hm'). simpl.
    exists c'. split; [done|]. split; [by right|done].
  - exists c0. split; [done|]. split; [by left|done].
Qed.

(** X8 (a missing column).  On a table that lacks one of the nine columns
    it selects, [get_mutual_info] raises [KeyError] for a column the table
    lacks, and creates no table. *)
Theorem get_mutual_info_missing_column h df d c :
  h !! df = Some d ->
  c ∈ ["block_fips"; "variable_group"; "group_label"; "block_total"; "dkl_block";
       "p_ni"; "cbsa_title"; "cbsa_total"; "state_codes"] ->
  df_get d c = None ->
  exists c',
    get_mutual_info df h = (Raise (KeyError c'), h) /\
    c' ∈ ["block_fips"; "variable_group"; "group_label"; "block_total"; "dkl_block";
          "p_ni"; "cbsa_title"; "cbsa_total"; "state_codes"] /\
    df_get d c' = None.
Proof.
  intros Hd Hc Hm. fold mi_select in *.
  destruct (frame_getitems_missing d mi_select c Hc Hm) as (c' & E & Hc' & Hm').
  exists c'. split; [|done].
  rewrite (get_mutual_info_spec h df d Hd).
  unfold mi_pure, block_level_of, frame_select. by rewrite E.
Qed.

Lemma frame_select_ext d d' cs :
  nrows d' = nrows d -> (forall c, c ∈ cs -> df_get d' c = df_get d c) ->
  frame_select d' cs = frame_select d cs.
Proof.
  intros N E. unfold frame_select. rewrite (frame_getitems_ext d d' cs E). by rewrite N.
Qed.

(** X9 (only the nine columns are read).  On two tables with the same
    number of rows that agree on the nine selected columns,
    [get_mutual_info] returns the same summary, or raises the same
    exception: no other column of the input matters. *)
Theorem get_mutual_info_reads_nine_columns h1 df1 d1 h2 df2 d2 :
  h1 !! df1 = Some d1 -> h2 !! df2 = Some d2 ->
  nrows d1 = nrows d2 ->
  (forall c, c ∈ ["block_fips"; "variable_group"; "group_label"; "block_total";
                  "dkl_block"; "p_ni"; "cbsa_title"; "cbsa_total"; "state_codes"] ->
             df_get d1 c = df_get d2 c) ->
  match get_mutual_info df1 h1 with
  | (Ok out1, h1') =>
      exists out2 h2' o,
        get_mutual_info df2 h2 = (Ok out2, h2') /\
        h1' !! out1 = Some o /\ h2' !! out2 = Some o
  | (Raise e, _) => (get_mutual_info df2 h2).1 = Raise e
  end.
Proof.
  intros H1 H2 N E. fold mi_select in E.
  rewrite (get_mutual_info_spec h1 df1 d1 H1), (get_mutual_info_spec h2 df2 d2 H2).
  assert (Em : mi_pure d1 = mi_pure d2).
  { unfold mi_pure, block_level_of. by rewrite (frame_select_ext d2 d1 mi_select). }
  rewrite Em. destruct (mi_pure d2) as [o|e]; [|done].
  exists (fresh (dom h2)), (<[fresh (dom h2) := o]> h2), o.
  split; [done|]. split; apply lookup_insert_eq.
Qed.

Lemma group_keys_all_na K : Forall (fun k => has_na k = true) K -> group_keys K = [].
Proof.
  intros F. unfold group_keys.
  assert (E : filter (fun k => has_na k = false) K = []).
  { induction F as [|k K Hk _ IH]; [done|].
    rewrite filter_cons_False by (rewrite Hk; done). done. }
  rewrite E. done.
Qed.

Lemma take_idx_elem {A} idx (l : list A) x : x ∈ take_idx idx l -> x ∈ l.
Proof.
  unfold take_idx. intros (i & _ & Hi)%list_elem_of_omap.
  by eapply list_elem_of_lookup_2.
Qed.

(** X10 (no group at all).  On a table with the nine columns in which no
    row has a complete (cbsa_title, state_codes, group_label), a table
    without rows in particular, [get_mutual_info] raises [TypeError]:
    [apply] hands back an empty DataFrame and [reset_index] of a DataFrame
    takes no [name]. *)
Theorem get_mutual_info_no_group_raises h df d Kg :
  h !! df = Some d -> wf_frame d = true ->
  Forall (fun c => is_Some (df_get d c))
    ["block_fips"; "variable_group"; "group_label"; "block_total"; "dkl_block";
     "p_ni"; "cbsa_title"; "cbsa_total"; "state_codes"] ->
  frame_keys d ["cbsa_title"; "state_codes"; "group_label"] = Ok Kg ->
  Forall (fun k => has_na k = true) Kg ->
  get_mutual_info df h = (Raise TypeError, h).
Proof.
  intros Hd W Hall HKg Hna. fold mi_select in Hall. fold mi_group_key in HKg.
  rewrite (get_mutual_info_spec h df d Hd).
  assert (E : mi_pure d = Raise TypeError); [|by rewrite E].
  destruct (frame_select_present d mi_select Hall) as [sel Hsel].
  destruct (frame_select_Ok _ _ _ Hsel) as (Nsel & Gsel & Hsrc).
  assert (Wsel : cols_len sel).
  { intros c s Hc. rewrite Nsel. destruct (Hsrc c s Hc) as [c' Hc'].
    by eapply wf_frame_len. }
  destruct (frame_keys_present d mi_dedup_key) as [Kd HKd].
  { eapply Forall_impl with (P := fun c => c ∈ mi_select).
    - unfold mi_dedup_key, mi_select. repeat (constructor; [repeat first [by left|right]|]).
      constructor.
    - intros c Hc. rewrite Forall_forall in Hall. by apply Hall. }
  assert (HKd' : frame_keys sel mi_dedup_key = Ok Kd).
  { rewrite <- HKd. apply frame_keys_ext; [done|]. intros c Hc. apply Gsel.
    unfold mi_dedup_key, mi_select in *.
    repeat (apply elem_of_cons in Hc as [->|Hc]; [repeat first [by left|right]|]).
    by apply elem_of_nil in Hc. }
  assert (HKg' : frame_keys sel mi_group_key = Ok Kg).
  { rewrite <- HKg. apply frame_keys_ext; [done|]. intros c Hc. apply Gsel.
    by apply mi_group_key_selected. }
  pose proof (frame_keys_length _ _ _ W HKd) as LKd.
  set (idx := first_occurrences [] 0 Kd) in *.
  assert (Hidx : Forall (fun i => i < nrows sel) idx).
  { rewrite Nsel, <- LKd. eapply Forall_impl; [apply first_occurrences_bound|].
    simpl. lia. }
  unfold mi_pure, block_level_of. rewrite Hsel. simpl.
  unfold drop_duplicates. rewrite HKd'. simpl. fold idx.
  unfold groupby_apply.
  pose proof (frame_keys_take idx sel mi_group_key Kg Wsel Hidx HKg') as HK.
  unfold frame_keys in HK.
  destruct (frame_getitems (frame_take idx sel) mi_group_key) as [ss|] eqn:Ess;
    simpl in HK; [|done].
  injection HK as HK. simpl. rewrite HK.
  rewrite group_keys_all_na; [done|].
  apply Forall_forall. intros k Hk. apply take_idx_elem in Hk.
  rewrite Forall_forall in Hna. by apply Hna.
Qed.

(** *** Missing values in [_weighted_mean] *)


Lemma nansum_opt (l : list (option R)) :
  nansum (opt_float <$> l) = Fin (Rsum (from_option id 0%R <$> l)).
Proof.
  unfold nansum. induction l as [|[x|] l IH].
  - done.
  - rewrite !fmap_cons. cbn [opt_float from_option].
    rewrite filter_cons_True by done. unfold fsum in *. cbn [foldr].
    rewrite IH. unfold Rsum. cbn [foldr]. done.
  - rewrite !fmap_cons. cbn [opt_float from_option].
    rewrite filter_cons_False by (intros N; by apply N). rewrite IH.
    f_equal. unfold Rsum. cbn [foldr]. unfold id. lra.
Qed.

Lemma vmul_opt (D W : list (option R)) :
  vmul (opt_float <$> D) (opt_float <$> W)
  = opt_float <$> zip_with (fun d w => x ← d; y ← w; Some (x * y)%R) D W.
Proof.
  unfold vmul. revert W. induction D as [|d D IH]; intros [|w W]; try done.
  rewrite !fmap_cons. cbn [zip_with]. rewrite fmap_cons. f_equal; [|apply IH].
  by destruct d, w.
Qed.

(** X11 (missing values in [_weighted_mean]).  When the weights do not sum
    to 0, [_weighted_mean] returns the sum of [dkl_block * p_ni] over the
    rows where both are there, divided by the sum of [p_ni] over the rows
    where [p_ni] is there: a row with a weight and no [dkl_block] still
    counts in the denominator. *)
Theorem weighted_mean_with_missing_values g (D W : list (option R)) :
  df_get g "p_ni" = Some (FloatS (opt_float <$> W)) ->
  df_get g "dkl_block" = Some (FloatS (opt_float <$> D)) ->
  Rsum (from_option id 0%R <$> W) <> 0%R ->
  weighted_mean g =
    Ok (Fin (Rsum (from_option id 0%R <$>
                     zip_with (fun d w => x ← d; y ← w; Some (x * y)%R) D W)
             / Rsum (from_option id 0%R <$> W))).
Proof.
  intros HW HD N. unfold weighted_mean, frame_values, frame_getitem.
  rewrite HW. simpl. rewrite nansum_opt, feq_Fin_zero.
  rewrite bool_decide_eq_false_2 by done. rewrite HD. simpl.
  by rewrite vmul_opt, nansum_opt, fdiv_Fin.
Qed.

(** *** Only the first row of a block counts *)

Lemma take_idx_ext {A} idx (l1 l2 : list A) :
  (forall i, i ∈ idx -> l1 !! i = l2 !! i) -> take_idx idx l1 = take_idx idx l2.
Proof.
  intros Hx. unfold take_idx. apply list_omap_ext.
  apply Forall_Forall2_diag, Forall_forall. exact Hx.
Qed.

(** X12 (only the first row of a block counts).  Two tables with the same
    keys whose [dkl_block] and [p_ni] agree on the first row of every
    (block_fips, variable_group) get the same summary, whatever the later
    rows of a block hold. *)
Theorem get_mutual_info_reads_first_rows_only
  h1 df1 d1 out1 h1' h2 df2 d2 out2 h2' Kd Kg D1 P1 D2 P2 :
  h1 !! df1 = Some d1 -> wf_frame d1 = true ->
  h2 !! df2 = Some d2 -> wf_frame d2 = true ->
  frame_keys d1 ["block_fips"; "variable_group"] = Ok Kd ->
  frame_keys d2 ["block_fips"; "variable_group"] = Ok Kd ->
  frame_keys d1 ["cbsa_title"; "state_codes"; "group_label"] = Ok Kg ->
  frame_keys d2 ["cbsa_title"; "state_codes"; "group_label"] = Ok Kg ->
  df_get d1 "dkl_block" = Some (FloatS (Fin <$> D1)) ->
  df_get d1 "p_ni" = Some (FloatS (Fin <$> P1)) ->
  df_get d2 "dkl_block" = Some (FloatS (Fin <$> D2)) ->
  df_get d2 "p_ni" = Some (FloatS (Fin <$> P2)) ->
  (forall i, i ∈ first_occurrences [] 0 Kd -> D1 !! i = D2 !! i /\ P1 !! i = P2 !! i) ->
  get_mutual_info df1 h1 = (Ok out1, h1') ->
  get_mutual_info df2 h2 = (Ok out2, h2') ->
  exists o1 o2,
    h1' !! out1 = Some o1 /\ h2' !! out2 = Some o2 /\
    nrows o1 = nrows o2 /\
    frame_keys o1 ["cbsa_title"; "state_codes"; "group_label"]
      = frame_keys o2 ["cbsa_title"; "state_codes"; "group_label"] /\
    forall i, i < nrows o1 ->
      float_at o1 "avg_dkl_cbsa_pop" i = float_at o2 "avg_dkl_cbsa_pop" i.
Proof.
  intros H1 W1 H2 W2 HKd1 HKd2 HKg1 HKg2 HD1 HP1 HD2 HP2 Hfirst Hrun1 Hrun2.
  destruct (get_mutual_info_groups h1 df1 d1 out1 h1' Kd Kg D1 P1
              H1 W1 HKd1 HKg1 HD1 HP1 Hrun1) as (o1 & Ho1 & HG1 & Hn1 & Hv1).
  destruct (get_mutual_info_groups h2 df2 d2 out2 h2' Kd Kg D2 P2
              H2 W2 HKd2 HKg2 HD2 HP2 Hrun2) as (o2 & Ho2 & HG2 & Hn2 & Hv2).
  exists o1, o2. split; [done|]. split; [done|]. split; [congruence|].
  split; [congruence|]. intros i Hi. rewrite Hn1 in Hi.
  destruct (lookup_lt_is_Some_2 _ _ Hi) as [g Hg].
  rewrite (Hv1 i g Hg), (Hv2 i g Hg). do 2 f_equal.
  pose proof (frame_keys_length _ _ _ W1 HKd1) as LKd1.
  pose proof (frame_keys_length _ _ _ W1 HKg1) as LKg1.
  pose proof (frame_keys_length _ _ _ W2 HKd2) as LKd2.
  pose proof (wf_frame_len _ _ _ W1 HD1) as LD1. simpl in LD1. rewrite length_fmap in LD1.
  pose proof (wf_frame_len _ _ _ W1 HP1) as LP1. simpl in LP1. rewrite length_fmap in LP1.
  pose proof (wf_frame_len _ _ _ W2 HD2) as LD2. simpl in LD2. rewrite length_fmap in LD2.
  pose proof (wf_frame_len _ _ _ W2 HP2) as LP2. simpl in LP2. rewrite length_fmap in LP2.
  rewrite (mi_of_columns Kd Kg D1 P1 (nrows d1)) by done.
  rewrite (mi_of_columns Kd Kg D2 P2 (nrows d2)) by congruence.
  cbv zeta.
  rewrite (take_idx_ext _ D1 D2) by (intros j Hj; by apply Hfirst).
  rewrite (take_idx_ext _ P1 P2) by (intros j Hj; by apply Hfirst).
  done.
Qed.

(* ===================================================================== *)
(** * The callers                                                          *)
(* ===================================================================== *)

Lemma getitem_run h l d c : h !! l = Some d -> getitem l c h = (frame_getitem d c, h).
Proof. intros E. unfold getitem. by rewrite (bind_run _ _ _ _ _ (deref_run _ _ _ E)). Qed.

Lemma df_copy_run h df d :
  h !! df = Some d -> df_copy df h = (Ok (fresh (dom h)), <[fresh (dom h) := d]> h).
Proof. intros E. unfold df_copy. by rewrite (bind_run _ _ _ _ _ (deref_run _ _ _ E)). Qed.

Lemma frame_keys_same_column o a b rest s :
  df_get o a = Some s -> df_get o b = Some s ->
  frame_keys o (a :: rest) = frame_keys o (b :: rest).
Proof.
  intros Ea Eb. unfold frame_keys. cbn [frame_getitems].
  assert (G : frame_getitem o a = frame_getitem o b)
    by (unfold frame_getitem; by rewrite Ea, Eb).
  by rewrite G.
Qed.

Lemma broadcast_group_sum_same_column o a b rest part total s :
  df_get o a = Some s -> df_get o b = Some s ->
  broadcast_group_sum o (a :: rest) part total ->
  broadcast_group_sum o (b :: rest) part total.
Proof.
  intros Ea Eb (K & V & D & HK & HV & HD & Hrest).
  exists K, V, D. rewrite <- (frame_keys_same_column o a b rest s Ea Eb). done.
Qed.

Section Income2010Props.
Variable py_float : string -> option float.

(** How a call of [calc_dkl_income_2010] goes: the copy, the column, then
    [calculate_dkl] on the copy. *)
Lemma calc_dkl_income_2010_run h df d :
  h !! df = Some d -> wf_frame d = true ->
  calc_dkl_income_2010 py_float df h =
  match df_get d "group_label" with
  | None => (Raise (KeyError "group_label"), <[fresh (dom h) := d]> h)
  | Some g =>
      calculate_dkl py_float (fresh (dom h))
        (<[fresh (dom h) := df_set d "variable_group" g]> h)
  end.
Proof.
  intros Hd W. unfold calc_dkl_income_2010.
  rewrite (bind_run _ _ _ _ _ (df_copy_run h df d Hd)).
  set (l := fresh (dom h)). set (h1 := <[l := d]> h).
  assert (H1 : h1 !! l = Some d) by apply lookup_insert_eq.
  rewrite bind_unfold, (getitem_run h1 l d _ H1). unfold frame_getitem.
  destruct (df_get d "group_label") as [g|] eqn:Eg; [|done].
  rewrite bind_unfold, (setitem_run h1 l d _ g H1)
    by exact (wf_frame_len d "group_label" g W Eg).
  unfold h1. by rewrite insert_insert_eq.
Qed.

(** X13 ([calc_dkl_income_2010] groups by the label).  The table
    [calc_dkl_income_2010] returns carries the input's [group_label] column
    as its [variable_group], its [dkl_block] is the group sum of
    [dkl_block_j] by (group_label, block_fips), its [dkl_bin] the group sum
    of [dkl_bin_i] by (group_label, cbsa_fips, variable), and the input
    table is left as it was.  The group sums are stated twice: as the
    broadcast of pandas, and row by row, over the rows of the table whose
    (group_label, block_fips), or (group_label, cbsa_fips, variable), cells
    are those of the row. *)
Theorem calc_dkl_income_2010_groups_by_label h df d out h' :
  h !! df = Some d -> wf_frame d = true ->
  calc_dkl_income_2010 py_float df h = (Ok out, h') ->
  exists o g,
    h' !! out = Some o /\ h' !! df = Some d /\ out <> df /\
    df_get d "group_label" = Some g /\
    df_get o "group_label" = Some g /\ df_get o "variable_group" = Some g /\
    broadcast_group_sum o ["group_label"; "block_fips"] "dkl_block_j" "dkl_block" /\
    broadcast_group_sum o ["group_label"; "cbsa_fips"; "variable"] "dkl_bin_i" "dkl_bin" /\
    sum_over_rows_like o ["group_label"; "block_fips"] "dkl_block_j" "dkl_block" /\
    sum_over_rows_like o ["group_label"; "cbsa_fips"; "variable"] "dkl_bin_i" "dkl_bin".
Proof.
  intros Hd W Hrun. rewrite (calc_dkl_income_2010_run h df d Hd W) in Hrun.
  destruct (df_get d "group_label") as [g|] eqn:Eg; [|done].
  set (l := fresh (dom h)) in *. set (w := df_set d "variable_group" g) in *.
  set (h1 := <[l := w]> h) in *.
  assert (Hl : l <> df).
  { intros E. apply (is_fresh (dom h)). fold l. rewrite E. apply elem_of_dom. by eexists. }
  assert (H1 : h1 !! l = Some w) by apply lookup_insert_eq.
  assert (Ww : wf_frame w = true) by (apply df_set_wf; [done|exact (wf_frame_len d "group_label" g W Eg)]).
  destruct (calculate_dkl_Ok py_float h1 l w out h' H1 Ww Hrun)
    as (rows & K1 & K2 & -> & -> & HK1 & HK2 & Lr & LK1 & LK2 & _).
  set (o := dkl_frame w rows K1 K2).
  assert (Hout : fresh (dom h1) <> df).
  { intros E. apply (is_fresh (dom h1)). rewrite E. apply elem_of_dom.
    exists d. unfold h1. by rewrite lookup_insert_ne. }
  assert (Gl : df_get o "group_label" = Some g).
  { unfold o. rewrite dkl_frame_get_other by (unfold output_columns; names_disjoint).
    unfold w. rewrite df_get_set. done. }
  assert (Gv : df_get o "variable_group" = Some g).
  { unfold o. rewrite dkl_frame_get_other by (unfold output_columns; names_disjoint).
    unfold w. rewrite df_get_set. done. }
  exists o, g. split; [apply lookup_insert_eq|]. split.
  { rewrite lookup_insert_ne by done. unfold h1. by rewrite lookup_insert_ne. }
  split; [done|]. split; [done|]. split; [done|]. split; [done|].
  split; [|split; [|split]].
  - apply (broadcast_group_sum_same_column o "variable_group" _ _ _ _ g); [done|done|].
    apply transform_sum_broadcast with (K := K1) (V := row_dkl_block_j <$> rows).
    + fold block_key. unfold o. by rewrite dkl_frame_keys_block.
    + apply dkl_frame_values. in_dkl_columns.
    + apply dkl_frame_values. in_dkl_columns.
    + unfold o. by rewrite dkl_frame_nrows.
    + unfold o. by rewrite length_fmap, dkl_frame_nrows.
  - apply (broadcast_group_sum_same_column o "variable_group" _ _ _ _ g); [done|done|].
    apply transform_sum_broadcast with (K := K2) (V := row_dkl_bin_i <$> rows).
    + fold bin_key. unfold o. by rewrite dkl_frame_keys_bin.
    + apply dkl_frame_values. in_dkl_columns.
    + apply dkl_frame_values. in_dkl_columns.
    + unfold o. by rewrite dkl_frame_nrows.
    + unfold o. by rewrite length_fmap, dkl_frame_nrows.
  - apply (sum_over_rows_like_same_column o "variable_group" _ _ _ _ g); [done|done|].
    apply transform_sum_rows with (K := K1) (V := row_dkl_block_j <$> rows).
    + fold block_key. unfold o. by rewrite dkl_frame_keys_block.
    + apply dkl_frame_get. in_dkl_columns.
    + apply dkl_frame_get. in_dkl_columns.
    + unfold o. by rewrite dkl_frame_nrows.
    + unfold o. by rewrite length_fmap, dkl_frame_nrows.
  - apply (sum_over_rows_like_same_column o "variable_group" _ _ _ _ g); [done|done|].
    apply transform_sum_rows with (K := K2) (V := row_dkl_bin_i <$> rows).
    + fold bin_key. unfold o. by rewrite dkl_frame_keys_bin.
    + apply dkl_frame_get. in_dkl_columns.
    + apply dkl_frame_get. in_dkl_columns.
    + unfold o. by rewrite dkl_frame_nrows.
    + unfold o. by rewrite length_fmap, dkl_frame_nrows.
Qed.

(** X14 ([calc_dkl_income_2010] without a label).  On a table without a
    [group_label] column [calc_dkl_income_2010] raises
    [KeyError('group_label')], whatever else the table lacks, and leaves
    the input as it was. *)
Theorem calc_dkl_income_2010_needs_group_label h df d :
  h !! df = Some d -> wf_frame d = true -> df_get d "group_label" = None ->
  (calc_dkl_income_2010 py_float df h).1 = Raise (KeyError "group_label") /\
  (calc_dkl_income_2010 py_float df h).2 !! df = Some d.
Proof.
  intros Hd W Hm. rewrite (calc_dkl_income_2010_run h df d Hd W), Hm.
  split; [done|]. simpl. rewrite lookup_insert_ne; [done|].
  intros E. apply (is_fresh (dom h)). rewrite E. apply elem_of_dom. by eexists.
Qed.

End Income2010Props.

(** *** Running a script step by step *)

Section RunLemmas.
Context `{Paths}.

Lemma run_bind {S A B} (E : env S) (m : io A) (f : A -> io B) s :
  run E (m ≫= f) s =
  match run E m s with
  | (tr, Returned a, s1) =>
      let '(tr2, r, s2) := run E (f a) s1 in (tr ++ tr2, r, s2)
  | (tr, Raised e, s1) => (tr, Raised e, s1)
  end.
Proof.
  revert s. induction m as [a|e|p k IH|p k IH|p k IH|d p k IH|l fmt args k IH]; intros s.
  - change (Done a ≫= f) with (f a). simpl. by destruct (run E (f a) s) as [[? ?] ?].
  - done.
  - change (Exists p k ≫= f) with (Exists p (fun b => k b ≫= f)). simpl.
    rewrite IH. destruct (run E (k (env_exists E p s)) s) as [[tr [a|e]] s1]; [|done].
    by destruct (run E (f a) s1) as [[? ?] ?].
  - change (Mkdir p k ≫= f) with (Mkdir p (k ≫= f)). simpl.
    destruct (env_mkdir E p s) as [s0|]; [|done].
    rewrite IH. destruct (run E k s0) as [[tr [a|e]] s1]; [|done].
    by destruct (run E (f a) s1) as [[? ?] ?].
  - change (ReadParquet p k ≫= f) with (ReadParquet p (fun d => k d ≫= f)). simpl.
    destruct (env_read E p s) as [d|]; [|done].
    rewrite IH. destruct (run E (k d) s) as [[tr [a|e]] s1]; [|done].
    by destruct (run E (f a) s1) as [[? ?] ?].
  - change (ToParquet d p k ≫= f) with (ToParquet d p (k ≫= f)). simpl.
    destruct (env_write E d p s) as [s0|]; [|done].
    rewrite IH. destruct (run E k s0) as [[tr [a|e]] s1]; [|done].
    by destruct (run E (f a) s1) as [[? ?] ?].
  - change (Log l fmt args k ≫= f) with (Log l fmt args (k ≫= f)). simpl.
    rewrite IH. destruct (run E k s) as [[tr [a|e]] s1]; [|done].
    by destruct (run E (f a) s1) as [[? ?] ?].
Qed.

End RunLemmas.

Lemma call_fresh_get_mutual_info d : call_fresh get_mutual_info d = mi_pure d.
Proof.
  unfold call_fresh.
  rewrite (get_mutual_info_spec {[0 := d]} 0 d) by apply lookup_singleton_eq.
  destruct (mi_pure d) as [o|e]; [|done]. by rewrite lookup_insert_eq.
Qed.

Lemma call_fresh_calculate_dkl pf d :
  wf_frame d = true -> call_fresh (calculate_dkl pf) d = dkl_pure pf d.
Proof.
  intros W. unfold call_fresh.
  pose proof (calculate_dkl_spec pf {[0 := d]} 0 d (lookup_singleton_eq _ _) W) as S.
  destruct (dkl_pure pf d) as [o|e].
  - rewrite S. by rewrite lookup_insert_eq.
  - destruct S as [d' ->]. done.
Qed.

(** *** What can go wrong in the summary *)

Lemma col_names_get d c : c ∈ col_names d -> is_Some (df_get d c).
Proof.
  unfold col_names, df_get. induction (columns d) as [|[c0 s0] cols IH]; simpl.
  - by intros ?%elem_of_nil.
  - intros [->|Hc]%elem_of_cons.
    + rewrite String.eqb_refl. by eexists.
    + destruct (String.eqb c0 c); [by eexists|by apply IH].
Qed.

Lemma mapM_result_Raise {A B} (f : A -> result B) l e :
  mapM f l = Raise e -> exists x, x ∈ l /\ f x = Raise e.
Proof.
  induction l as [|x l IH]; simpl; [done|].
  destruct (f x) as [v|e'] eqn:E; simpl.
  - destruct (mapM f l) as [vs|e'']; simpl; [done|].
    intros [= ->]. destruct IH as (y & Hy & Ey); [done|]. exists y. split; [by right|done].
  - intros [= ->]. exists x. split; [by left|done].
Qed.

Lemma weighted_mean_raises g e :
  is_Some (df_get g "p_ni") -> is_Some (df_get g "dkl_block") ->
  weighted_mean g = Raise e -> e = TypeError.
Proof.
  intros [sp Hp] [sd Hd]. unfold weighted_mean, frame_values, frame_getitem.
  rewrite Hp, Hd. cbv [mbind result_bind mret result_ret].
  destruct sp as [l|l|l]; cbn [series_values]; [| |by intros [= <-]].
  - destruct (feq _ _); [done|]. destruct sd; cbn [series_values]; [done|done|by intros [= <-]].
  - destruct (feq _ _); [done|]. destruct sd; cbn [series_values]; [done|done|by intros [= <-]].
Qed.

Lemma mi_pure_raises d e :
  mi_pure d = Raise e ->
  (exists c, e = KeyError c /\ c ∈ mi_select /\ df_get d c = None) \/ e = TypeError.
Proof.
  unfold mi_pure, block_level_of.
  destruct (frame_select d mi_select) as [sel|e0] eqn:Hsel; simpl.
  2:{ intros [= ->]. left. unfold frame_select in Hsel.
      destruct (frame_getitems d mi_select) as [ss|e1] eqn:Hss; simpl in Hsel; [done|].
      injection Hsel as ->.
      assert (Hx : exists c, c ∈ mi_select /\ df_get d c = None).
      { destruct (decide (Forall (fun c => is_Some (df_get d c)) mi_select)) as [F|F].
        - destruct (frame_getitems_present d mi_select F) as [ss E]. congruence.
        - apply not_Forall_Exists in F; [|apply _].
          apply Exists_exists in F as (c & Hc & Hn). exists c. split; [done|].
          by apply eq_None_not_Some. }
      destruct Hx as (c & Hc & Hm).
      destruct (frame_getitems_missing d mi_select c Hc Hm) as (c' & E & Hc' & Hm').
      rewrite E in Hss. injection Hss as <-. by exists c'. }
  destruct (frame_select_Ok _ _ _ Hsel) as (Nsel & Gsel & Hsrc).
  assert (Hall : forall c, c ∈ mi_select -> is_Some (df_get sel c)).
  { intros c Hc. unfold frame_select in Hsel.
    destruct (frame_getitems d mi_select) as [ss|] eqn:Hss; simpl in Hsel; [|done].
    rewrite Gsel by done. clear -Hss Hc. revert ss Hss.
    induction mi_select as [|c0 cs IH]; intros ss Hss; [by apply elem_of_nil in Hc|].
    simpl in Hss. unfold frame_getitem in Hss at 1.
    destruct (df_get d c0) as [s0|] eqn:E0; simpl in Hss; [|done].
    destruct (frame_getitems d cs) as [ss'|] eqn:E'; simpl in Hss; [|done].
    apply elem_of_cons in Hc as [->|Hc]; [by eexists|]. by eapply IH. }
  unfold drop_duplicates.
  destruct (frame_keys_present sel mi_dedup_key) as [Kd HKd].
  { apply Forall_forall. intros c Hc. apply Hall.
    unfold mi_dedup_key, mi_select in *.
    repeat (apply elem_of_cons in Hc as [->|Hc]; [repeat first [by left|right]|]).
    by apply elem_of_nil in Hc. }
  rewrite HKd. simpl. set (idx := first_occurrences [] 0 Kd).
  unfold groupby_apply.
  destruct (frame_getitems_present sel mi_group_key) as [ss Hss].
  { apply Forall_forall. intros c Hc. apply Hall. by apply mi_group_key_selected. }
  rewrite (frame_take_getitems idx sel mi_group_key ss Hss). simpl.
  set (K := row_keys (length idx) (series_take idx <$> ss)).
  destruct (mapM _ _) as [vals|e1] eqn:Em; simpl.
  - destruct (group_keys K); [|done]. intros [= <-]. by right.
  - intros [= ->]. right.
    apply mapM_result_Raise in Em as (m & _ & Em).
    eapply weighted_mean_raises; [| |exact Em].
    + rewrite frame_take_get, frame_drop_get by (unfold mi_group_key; names_disjoint).
      rewrite frame_take_get.
      destruct (Hall "p_ni") as [s ->]; [unfold mi_select; repeat first [by left|right]|].
      by eexists.
    + rewrite frame_take_get, frame_drop_get by (unfold mi_group_key; names_disjoint).
      rewrite frame_take_get.
      destruct (Hall "dkl_block") as [s ->]; [unfold mi_select; repeat first [by left|right]|].
      by eexists.
Qed.

Section RunPrimitives.
Context `{Paths}.
Context {S : Type} (E : env S).

Lemma run_ret {A} (a : A) s : run E (mret a) s = ([], Returned a, s).
Proof. done. Qed.

Lemma run_path_exists p s :
  run E (path_exists p) s = ([EExists p (env_exists E p s)], Returned (env_exists E p s), s).
Proof. done. Qed.

Lemma run_log l fmt args s : run E (log l fmt args) s = ([ELog l fmt args], Returned tt, s).
Proof. done. Qed.

Lemma run_mkdir p s :
  run E (mkdir p) s =
  match env_mkdir E p s with
  | Some s1 => ([EMkdir p], Returned tt, s1)
  | None => ([EMkdir p], Raised OSError, s)
  end.
Proof. unfold mkdir. simpl. by destruct (env_mkdir E p s). Qed.

Lemma run_read_parquet p s :
  run E (read_parquet p) s =
  match env_read E p s with
  | Some d => ([ERead p (Some d)], Returned d, s)
  | None => ([ERead p None], Raised OSError, s)
  end.
Proof. unfold read_parquet. simpl. by destruct (env_read E p s). Qed.

Lemma run_to_parquet d p s :
  run E (to_parquet d p) s =
  match env_write E d p s with
  | Some s1 => ([EWrite d p], Returned tt, s1)
  | None => ([EWrite d p], Raised OSError, s)
  end.
Proof. unfold to_parquet. simpl. by destruct (env_write E d p s). Qed.

Lemma run_lift_result {A} (r : result A) s :
  run E (lift_result r) s =
  match r with
  | Ok a => ([], Returned a, s)
  | Raise e => ([], Raised (PyErr e), s)
  end.
Proof. by destruct r. Qed.

End RunPrimitives.

Section SaveMiFile.
Context `{Paths}.
Variable py_int : string -> option Z.

(** Every way [save_mi_body] can go. *)
Lemma run_save_mi_body {S} (E : env S) s vg tag path out_path :
  run E (MutualInfo.save_mi_body vg tag path out_path) s =
  if negb (env_exists E path s) then
    ([EExists path false;
      ELog WARNING "DKL file not found, skipping: %s" [APath path]], Returned tt, s)
  else if env_exists E out_path s then
    ([EExists path true; EExists out_path true;
      ELog INFO "Already exists, skipping: %s" [AStr (path_name out_path)]],
     Returned tt, s)
  else
    let pre := [EExists path true; EExists out_path false;
                ELog INFO "Computing MI for %s %s …" [AStr vg; AStr tag]] in
    match env_read E path s with
    | None => (pre ++ [ERead path None], Raised OSError, s)
    | Some d =>
        let missing := filter (fun c => c ∉ col_names d) MutualInfo.required in
        if bool_decide (missing ≠ []) then
          (pre ++ [ERead path (Some d);
                   ELog ERROR "Missing columns in %s: %s"
                        [AStr (path_name path); AList missing]], Returned tt, s)
        else
          match call_fresh get_mutual_info d with
          | Raise e => (pre ++ [ERead path (Some d)], Raised (PyErr e), s)
          | Ok mi =>
              match env_write E mi out_path s with
              | None => (pre ++ [ERead path (Some d); EWrite mi out_path], Raised OSError, s)
              | Some s1 =>
                  (pre ++ [ERead path (Some d); EWrite mi out_path;
                           ELog INFO "Saved %s (%d rows)"
                             [AStr (path_name out_path); AInt (Z.of_nat (nrows mi))]],
                   Returned tt, s1)
              end
          end
    end.
Proof.
  unfold MutualInfo.save_mi_body.
  rewrite run_bind, run_path_exists.
  destruct (env_exists E path s); cbn [negb]; [|by rewrite run_log].
  rewrite run_bind, run_path_exists.
  destruct (env_exists E out_path s); [by rewrite run_log|].
  rewrite run_bind, run_log, run_bind, run_read_parquet.
  destruct (env_read E path s) as [d|]; [|done].
  cbv zeta.
  destruct (bool_decide _); [by rewrite run_log|].
  rewrite run_bind, run_lift_result.
  destruct (call_fresh get_mutual_info d) as [mi|e]; [|done].
  rewrite run_bind, run_to_parquet.
  destruct (env_write E mi out_path s) as [s1|]; [|done].
  by rewrite run_log.
Qed.

End SaveMiFile.

Section TraceLemmas.
Context `{Paths}.
Variable Q : Path -> DataFrame -> Path -> DataFrame -> Prop.

Lemma each_write_nil : each_write Q [].
Proof. intros [|? ?] d p post E; done. Qed.

Lemma each_write_cons e tr :
  is_write e = false -> each_write Q tr -> each_write Q (e :: tr).
Proof.
  intros He Htr [|e0 pre] d p post E; simpl in E.
  - injection E as -> _. done.
  - injection E as -> E.
    destruct (Htr pre d p post E) as (pre' & l & fmt & args & q & src & -> & HQ).
    exists (e0 :: pre'), l, fmt, args, q, src. done.
Qed.

Lemma each_write_step p l fmt args q src d tr :
  Q q src p d -> each_write Q tr ->
  each_write Q (EExists p false :: ELog l fmt args :: ERead q (Some src) :: EWrite d p :: tr).
Proof.
  intros HQ Htr pre d' p' post E.
  destruct pre as [|e1 [|e2 [|e3 [|e4 pre]]]]; simpl in E; try discriminate E.
  - injection E as <- <- <- <- <- <-.
    exists [], l, fmt, args, q, src. done.
  - injection E as <- <- <- <- E.
    destruct (Htr pre d' p' post E) as (pre' & l' & fmt' & args' & q' & src' & -> & HQ').
    exists (EExists p false :: ELog l fmt args :: ERead q (Some src) :: EWrite d p :: pre'),
      l', fmt', args', q', src'. done.
Qed.

Lemma each_write_app t1 t2 :
  each_write Q t1 -> each_write Q t2 -> each_write Q (t1 ++ t2).
Proof.
  intros H1 H2 pre d p post E.
  apply app_eq_app in E as [l [[-> E]|[-> E]]].
  - destruct l as [|e l]; simpl in E.
    + destruct (H2 [] d p post) as (pre' & ? & ? & ? & ? & ? & E' & _); [done|].
      by destruct pre' as [|? [|? [|? ?]]].
    + injection E as <- ->.
      destruct (H1 pre d p l eq_refl) as (pre' & l' & fmt & args & q & src & -> & HQ).
      by exists pre', l', fmt, args, q, src.
  - destruct (H2 l d p post E) as (pre' & l' & fmt & args & q & src & -> & HQ).
    exists (t1 ++ pre'), l', fmt, args, q, src. by rewrite app_assoc.
Qed.

End TraceLemmas.

Section SaveMiFileProps.
Context `{Paths}.
Variable py_int : string -> option Z.

(** [save_mi_file]: the two paths, the directory, then the body. *)
Lemma run_save_mi_file {S} (E : env S) s var_group year_tag dkl_path geo :
  run E (MutualInfo.save_mi_file py_int var_group year_tag dkl_path geo) s =
  match py_int year_tag with
  | None => ([], Raised (PyErr ValueError), s)
  | Some n =>
      let full_year := if (n <? 50)%Z then "20" +:+ year_tag else "19" +:+ year_tag in
      let kind := if String.eqb geo "tract" then "tract" else "block" in
      let suffix := if String.eqb geo "tract" then "_tract_all_states.parquet"
                    else "_blkgrp_all_states.parquet" in
      let d := joinpath DATA_DIR ("acs5_" +:+ kind +:+ "_" +:+ full_year +:+ "_data") in
      let path := match dkl_path with
                  | Some p => p
                  | None => joinpath d ("dkl_" +:+ var_group +:+ "_" +:+ year_tag +:+ suffix)
                  end in
      let out_path := joinpath d ("mi_" +:+ var_group +:+ "_" +:+ year_tag +:+ suffix) in
      match env_mkdir E d s with
      | None => ([EMkdir d], Raised OSError, s)
      | Some s1 =>
          let '(tr, r, s2) := run E (MutualInfo.save_mi_body var_group year_tag path out_path) s1 in
          (EMkdir d :: tr, r, s2)
      end
  end.
Proof.
  unfold MutualInfo.save_mi_file, MutualInfo._dkl_path, MutualInfo._mi_path,
    MutualInfo.full_year.
  destruct (py_int year_tag) as [n|]; [|by destruct dkl_path].
  cbv zeta. set (fy := if (n <? 50)%Z then _ else _).
  assert (P : forall (p : Path) (k : Path -> io unit),
            run E ((mret p : io Path) ≫= k) s = run E (k p) s) by done.
  assert (B : forall (d : Path) (f : string) (k : Path -> io unit),
            run E ((mkdir d;; mret (joinpath d f)) ≫= k) s =
            match env_mkdir E d s with
            | None => ([EMkdir d], Raised OSError, s)
            | Some s1 => let '(tr, r, s2) := run E (k (joinpath d f)) s1 in (EMkdir d :: tr, r, s2)
            end).
  { intros d f k. rewrite run_bind, run_bind, run_mkdir.
    destruct (env_mkdir E d s) as [s1|]; [|done].
    simpl. by destruct (run E (k (joinpath d f)) s1) as [[? ?] ?]. }
  destruct dkl_path as [p|].
  - rewrite P. change (mret fy ≫= ?f) with (f fy). cbv beta.
    destruct (String.eqb geo "tract"); apply B.
  - change (mret fy ≫= ?f) with (f fy). cbv beta.
    destruct (String.eqb geo "tract"); rewrite P; apply B.
Qed.

(** The body raises no [KeyError], writes at most once, and only the
    summary of a table that has the nine columns, to a path found free. *)
Lemma save_mi_body_props {S} (E : env S) s vg tag path out_path :
  let '(tr, r, _) := run E (MutualInfo.save_mi_body vg tag path out_path) s in
  (forall c, r <> Raised (PyErr (KeyError c))) /\
  each_write (fun q src p d =>
                call_fresh get_mutual_info src = Ok d /\
                forall c, c ∈ MutualInfo.required -> c ∈ col_names src) tr /\
  length (filter (fun e => is_write e = true) tr) <= 1.
Proof.
  rewrite run_save_mi_body.
  destruct (env_exists E path s); cbn [negb].
  2:{ split; [done|]. split; [|simpl; lia].
      repeat (apply each_write_cons; [done|]). apply each_write_nil. }
  destruct (env_exists E out_path s).
  { split; [done|]. split; [|simpl; lia].
    repeat (apply each_write_cons; [done|]). apply each_write_nil. }
  cbv zeta. destruct (env_read E path s) as [d|].
  2:{ split; [done|]. split; [|simpl; lia].
      repeat (apply each_write_cons; [done|]). apply each_write_nil. }
  destruct (bool_decide _) eqn:Emiss.
  { split; [done|]. split; [|simpl; lia].
    repeat (apply each_write_cons; [done|]). apply each_write_nil. }
  apply bool_decide_eq_false in Emiss.
  assert (Hall : filter (fun c => c ∉ col_names d) MutualInfo.required = []).
  { destruct (filter _ _); [done|]. exfalso. by apply Emiss. }
  assert (Hreq : forall c, c ∈ MutualInfo.required -> c ∈ col_names d).
  { intros c Hc. destruct (decide (c ∈ col_names d)) as [|N]; [done|].
    assert (Hin : c ∈ filter (fun c => c ∉ col_names d) MutualInfo.required)
      by by apply list_elem_of_filter.
    rewrite Hall in Hin. by apply elem_of_nil in Hin. }
  destruct (call_fresh get_mutual_info d) as [mi|e] eqn:Ecall.
  2:{ split.
      - intros c [= ->]. rewrite call_fresh_get_mutual_info in Ecall.
        apply mi_pure_raises in Ecall as [(c' & [= <-] & Hc' & Hm)|?]; [|done].
        destruct (col_names_get d c (Hreq c Hc')) as [? ?]. congruence.
      - split; [|simpl; lia].
        repeat (apply each_write_cons; [done|]). apply each_write_nil. }
  destruct (env_write E mi out_path s) as [s1|].
  - split; [done|]. split; [|simpl; lia].
    apply each_write_cons; [done|]. cbn [app]. apply each_write_step; [done|].
    apply each_write_cons; [done|]. apply each_write_nil.
  - split; [done|]. split; [|simpl; lia].
    apply each_write_cons; [done|]. cbn [app]. apply each_write_step; [done|].
    apply each_write_nil.
Qed.

(** X15 (no [KeyError] out of [save_mi_file]).  Whatever the file system
    answers and whatever table the DKL file holds, no [KeyError] of
    [get_mutual_info] comes out of [save_mi_file]: it checks for the nine
    columns before the call.  (What the file system itself raises is an
    error of its own class here.) *)
Theorem save_mi_file_never_raises_KeyError {S} (E : env S) s
  var_group year_tag dkl_path geo c :
  (run E (MutualInfo.save_mi_file py_int var_group year_tag dkl_path geo) s).1.2
    <> Raised (PyErr (KeyError c)).
Proof.
  rewrite run_save_mi_file. destruct (py_int year_tag) as [n|]; [|done].
  cbv zeta. destruct (env_mkdir E _ s) as [s1|]; [|done].
  match goal with |- context [run E (MutualInfo.save_mi_body ?a ?b ?p ?o) s1] =>
    pose proof (save_mi_body_props E s1 a b p o) as P;
    destruct (run E (MutualInfo.save_mi_body a b p o) s1) as [[tr r] s2] end.
  destruct P as (P & _). apply P.
Qed.

(** X16 ([save_mi_file] writes the summary, once).  In every run
    [save_mi_file] writes at most one file; what it writes is the summary
    [get_mutual_info] returns for the table it has just read, a table with
    all nine columns, and it writes it to a path it was told does not
    exist. *)
Theorem save_mi_file_writes_the_summary_once {S} (E : env S) s
  var_group year_tag dkl_path geo :
  let tr := (run E (MutualInfo.save_mi_file py_int var_group year_tag dkl_path geo) s).1.1 in
  each_write (fun q src p d =>
                call_fresh get_mutual_info src = Ok d /\
                forall c, c ∈ MutualInfo.required -> c ∈ col_names src) tr /\
  length (filter (fun e => is_write e = true) tr) <= 1.
Proof.
  cbv zeta. rewrite run_save_mi_file. destruct (py_int year_tag) as [n|].
  2:{ split; [apply each_write_nil|simpl; lia]. }
  cbv zeta. destruct (env_mkdir E _ s) as [s1|].
  2:{ split; [|simpl; lia]. apply each_write_cons; [done|]. apply each_write_nil. }
  match goal with |- context [run E (MutualInfo.save_mi_body ?a ?b ?p ?o) s1] =>
    pose proof (save_mi_body_props E s1 a b p o) as P;
    destruct (run E (MutualInfo.save_mi_body a b p o) s1) as [[tr r] s2] end.
  destruct P as (_ & P1 & P2). cbn [fst snd]. split.
  - by apply each_write_cons.
  - rewrite filter_cons_False by done. done.
Qed.

End SaveMiFileProps.

Section RunDkl.
Context `{Paths}.
Variable py_float : string -> option float.

(** Every way the loop body of [run_dkl_for_year] can go. *)
Lemma run_dkl_for_group_cases {S} (E : env S) s year config geo vg :
  run E (CalculateDkl.run_dkl_for_group py_float year config geo vg) s =
  if bool_decide (vg ∉ available_vars config) then
    ([ELog WARNING "Skipping %s for %d — not in available_vars." [AStr vg; AInt year]],
     Returned tt, s)
  else
    let clean_path := CalculateDkl._clean_path year vg geo in
    let out_path := CalculateDkl._dkl_path year vg geo in
    if negb (env_exists E clean_path s) then
      ([EExists clean_path false;
        ELog ERROR "Clean file not found: %s — run 1_clean.py --geo %s first."
             [APath clean_path; AStr geo]], Returned tt, s)
    else if env_exists E out_path s then
      ([EExists clean_path true; EExists out_path true;
        ELog INFO "Already exists, skipping: %s" [AStr (path_name out_path)]],
       Returned tt, s)
    else
      let pre := [EExists clean_path true; EExists out_path false;
                  ELog INFO "Calculating DKL for %d — %s (%s) …"
                       [AInt year; AStr vg; AStr geo]] in
      match env_read E clean_path s with
      | None => (pre ++ [ERead clean_path None], Raised OSError, s)
      | Some df =>
          match call_fresh (calculate_dkl py_float) df with
          | Raise e => (pre ++ [ERead clean_path (Some df)], Raised (PyErr e), s)
          | Ok dkl_df =>
              match env_write E dkl_df out_path s with
              | None =>
                  (pre ++ [ERead clean_path (Some df); EWrite dkl_df out_path],
                   Raised OSError, s)
              | Some s1 =>
                  (pre ++ [ERead clean_path (Some df); EWrite dkl_df out_path;
                           ELog INFO "Saved %s (%d rows)"
                             [AStr (path_name out_path); AInt (Z.of_nat (nrows dkl_df))]],
                   Returned tt, s1)
              end
          end
      end.
Proof.
  unfold CalculateDkl.run_dkl_for_group.
  destruct (bool_decide _); [by rewrite run_log|].
  cbv zeta. rewrite run_bind, run_path_exists.
  destruct (env_exists E _ s); cbn [negb]; [|by rewrite run_log].
  rewrite run_bind, run_path_exists.
  destruct (env_exists E _ s); [by rewrite run_log|].
  rewrite run_bind, run_log, run_bind, run_read_parquet.
  destruct (env_read E _ s) as [d|]; [|done].
  rewrite run_bind, run_lift_result.
  destruct (call_fresh _ d) as [o|e]; [|done].
  rewrite run_bind, run_to_parquet.
  destruct (env_write E o _ s) as [s1|]; [|done].
  by rewrite run_log.
Qed.

Lemma run_for_each_cons {S A} (E : env S) (x : A) rest body s :
  run E (for_each (x :: rest) body) s =
  match run E (body x) s with
  | (tr, Returned _, s1) =>
      let '(tr2, r, s2) := run E (for_each rest body) s1 in (tr ++ tr2, r, s2)
  | (tr, Raised e, s1) => (tr, Raised e, s1)
  end.
Proof. cbn [for_each]. apply run_bind. Qed.

Lemma run_dkl_for_group_writes {S} (E : env S) s year config geo vg :
  each_write (dkl_write py_float year [vg] geo)
    (run E (CalculateDkl.run_dkl_for_group py_float year config geo vg) s).1.1.
Proof.
  rewrite run_dkl_for_group_cases.
  destruct (bool_decide _).
  { repeat (apply each_write_cons; [done|]). apply each_write_nil. }
  cbv zeta. destruct (env_exists E _ s); cbn [negb].
  2:{ repeat (apply each_write_cons; [done|]). apply each_write_nil. }
  destruct (env_exists E _ s).
  { repeat (apply each_write_cons; [done|]). apply each_write_nil. }
  destruct (env_read E _ s) as [d|].
  2:{ repeat (apply each_write_cons; [done|]). apply each_write_nil. }
  destruct (call_fresh _ d) as [o|e] eqn:Ecall.
  2:{ repeat (apply each_write_cons; [done|]). apply each_write_nil. }
  assert (HQ : dkl_write py_float year [vg] geo (CalculateDkl._clean_path year vg geo) d
                 (CalculateDkl._dkl_path year vg geo) o).
  { exists vg. split; [by left|done]. }
  destruct (env_write E o _ s) as [s1|]; cbn [fst snd app].
  - apply each_write_cons; [done|]. apply each_write_step; [done|].
    apply each_write_cons; [done|]. apply each_write_nil.
  - apply each_write_cons; [done|]. apply each_write_step; [done|].
    apply each_write_nil.
Qed.

Lemma each_write_mono (Q1 Q2 : Path -> DataFrame -> Path -> DataFrame -> Prop) tr :
  (forall q src p d, Q1 q src p d -> Q2 q src p d) -> each_write Q1 tr -> each_write Q2 tr.
Proof.
  intros M Htr pre d p post E.
  destruct (Htr pre d p post E) as (pre' & l & fmt & args & q & src & -> & HQ).
  exists pre', l, fmt, args, q, src. split; [done|]. by apply M.
Qed.

Lemma run_for_each_writes {S} (E : env S) year config geo vgs s :
  each_write (dkl_write py_float year vgs geo)
    (run E (for_each vgs (CalculateDkl.run_dkl_for_group py_float year config geo)) s).1.1.
Proof.
  revert s. induction vgs as [|vg vgs IH]; intros s; [apply each_write_nil|].
  rewrite run_for_each_cons.
  pose proof (run_dkl_for_group_writes E s year config geo vg) as P1.
  destruct (run E (CalculateDkl.run_dkl_for_group py_float year config geo vg) s)
    as [[tr1 [[]|e]] s1]; cbn [fst snd] in *.
  - pose proof (IH s1) as P2.
    destruct (run E (for_each vgs _) s1) as [[tr2 r2] s2]. cbn [fst snd] in *.
    apply each_write_app.
    + eapply each_write_mono; [|exact P1]. intros q src p d (v & Hv & ?).
      exists v. split; [|done]. apply list_elem_of_singleton in Hv as ->. by left.
    + eapply each_write_mono; [|exact P2]. intros q src p d (v & Hv & ?).
      exists v. split; [by right|done].
  - eapply each_write_mono; [|exact P1]. intros q src p d (v & Hv & ?).
    exists v. split; [|done]. apply list_elem_of_singleton in Hv as ->. by left.
Qed.

(** X17 ([run_dkl_for_year] writes the DKL tables).  In every run, each
    file [run_dkl_for_year] writes is the result of [calculate_dkl] on the
    clean file of one of the requested variable groups, written to the DKL
    path of that group right after that path was found not to exist. *)
Theorem run_dkl_for_year_writes {S} (E : env S) s year var_groups geo :
  each_write
    (fun q src p d =>
       exists vg, vg ∈ var_groups /\
         q = CalculateDkl._clean_path year vg geo /\
         p = CalculateDkl._dkl_path year vg geo /\
         call_fresh (calculate_dkl py_float) src = Ok d)
    (run E (CalculateDkl.run_dkl_for_year py_float year var_groups geo) s).1.1.
Proof.
  unfold CalculateDkl.run_dkl_for_year.
  destruct (config_get (KInt year) YEAR_CONFIGS) as [config|]; [|apply each_write_nil].
  change (mret config ≫= ?f) with (f config). cbv beta.
  apply run_for_each_writes.
Qed.

End RunDkl.

Section RunDklErrors.
Context `{Paths}.
Variable py_float : string -> option float.

(** X18 ([run_dkl_for_year] stops at a bad table).  When the clean file of
    the first variable group lacks a column [calculate_dkl] reads, the
    exception of [calculate_dkl] ends the run: nothing is written and the
    other variable groups are not looked at. *)
Theorem run_dkl_for_year_stops_at_a_bad_table {S} (E : env S) s
  year config vg rest geo src c :
  config_get (KInt year) YEAR_CONFIGS = Some config ->
  vg ∈ available_vars config ->
  env_exists E (CalculateDkl._clean_path year vg geo) s = true ->
  env_exists E (CalculateDkl._dkl_path year vg geo) s = false ->
  env_read E (CalculateDkl._clean_path year vg geo) s = Some src ->
  wf_frame src = true ->
  c ∈ required_columns -> df_get src c = None ->
  exists e,
    run E (CalculateDkl.run_dkl_for_year py_float year (vg :: rest) geo) s =
      ([EExists (CalculateDkl._clean_path year vg geo) true;
        EExists (CalculateDkl._dkl_path year vg geo) false;
        ELog INFO "Calculating DKL for %d — %s (%s) …" [AInt year; AStr vg; AStr geo];
        ERead (CalculateDkl._clean_path year vg geo) (Some src)],
       Raised (PyErr e), s) /\
    ((exists c', e = KeyError c' /\ c' ∈ required_columns /\ df_get src c' = None) \/
     e = ValueError).
Proof.
  intros Hcfg Hvg Hclean Hout Hread W Hc Hm.
  assert (Hraise : exists e, call_fresh (calculate_dkl py_float) src = Raise e /\
            ((exists c', e = KeyError c' /\ c' ∈ required_columns /\ df_get src c' = None) \/
             e = ValueError)).
  { rewrite call_fresh_calculate_dkl by done.
    pose proof (dkl_pure_cases py_float src) as Hcases.
    destruct (dkl_pure py_float src) as [o|e].
    - destruct (first_missing_Some src required_columns c Hc Hm) as [c' Hc']. congruence.
    - exists e. split; [done|].
      destruct Hcases as [(c' & -> & Hf)|[-> _]]; [|by right].
      left. exists c'. split; [done|]. by apply first_missing_spec. }
  destruct Hraise as (e & Ecall & He). exists e. split; [|done].
  unfold CalculateDkl.run_dkl_for_year. rewrite Hcfg.
  change (mret config ≫= ?f) with (f config). cbv beta.
  rewrite run_for_each_cons, run_dkl_for_group_cases.
  rewrite bool_decide_eq_false_2 by (intros N; by apply N).
  cbv zeta. rewrite Hclean. cbn [negb]. rewrite Hout, Hread, Ecall. done.
Qed.

End RunDklErrors.

(** *** The two scripts agree on the file name *)

Lemma year_tag_ok_range (year : Z) : (1950 <= year < 2050)%Z -> year_tag_ok year = true.
Proof.
  intros Hy.
  assert (A : forallb year_tag_ok (seqZ 1950 100) = true) by (vm_compute; reflexivity).
  rewrite forallb_forall in A. apply A. apply list_elem_of_In, elem_of_seqZ. lia.
Qed.

Section PathsAgree.
Context `{Paths}.
Variable py_int : string -> option Z.
Hypothesis py_int_decimal : forall s n, decimal s = Some n -> py_int s = Some n.

(** X19 (the two scripts name the same DKL file).  For a year from 1950 to
    2049, the path [4_mutual_info.py] reads for the two-digit tag of the
    year is the path [2_calculate_dkl.py] writes for the year, provided
    [int] reads a string of decimal digits as the number it writes. *)
Theorem dkl_path_of_both_scripts (year : Z) (var_group geo : string) :
  (1950 <= year < 2050)%Z ->
  MutualInfo._dkl_path py_int (slice_from 2 (str_int year)) var_group geo
  = mret (CalculateDkl._dkl_path year var_group geo).
Proof.
  intros Hy. apply year_tag_ok_range in Hy. unfold year_tag_ok in Hy. cbv zeta in Hy.
  destruct (decimal (slice_from 2 (str_int year))) as [n|] eqn:En; [|done].
  apply bool_decide_eq_true in Hy.
  unfold MutualInfo._dkl_path, MutualInfo.full_year, CalculateDkl._dkl_path.
  rewrite (py_int_decimal _ _ En). rewrite Hy.
  change (mret (str_int year) ≫= ?f) with (f (str_int year)). cbv beta zeta.
  by destruct (String.eqb geo "tract").
Qed.

End PathsAgree.

(* ===================================================================== *)
(** * The further theorems at work *)

Lemma row_columns_finite_on_negative_count :
  exists out h' o (v : R),
    calculate_dkl no_strings 0 {[0 := negative_count]} = (Ok out, h') /\
    h' !! out = Some o /\
    float_at o "dkl_block_j" 0 = Some (Fin v).
Proof.
  assert (Hd : ({[0 := negative_count]} : gmap nat DataFrame) !! 0 = Some negative_count)
    by apply lookup_singleton_eq.
  destruct (calculate_dkl_readable no_strings _ 0 negative_count Hd eq_refl)
    as (BE & BT & CE & CT & K1 & K2 & _ & _ & _ & _ & _ & _ & Hrun).
  destruct (calculate_dkl_row_columns_finite no_strings _ 0 negative_count _ _ 0
              (-5) 10 20 40 Hd eq_refl Hrun eq_refl
              ltac:(unfold int64; lia) ltac:(unfold int64; lia)
              ltac:(unfold int64; lia) ltac:(unfold int64; lia))
    as (o & Ho & Hcols).
  destruct (Hcols "dkl_block_j") as [v Hv]; [repeat first [by left | right]|].
  do 2 eexists. exists o, v. split; [exact Hrun|]. by split.
Defined.

Lemma missing_block_id_gives_NaN :
  exists out h' o,
    calculate_dkl no_strings 0 {[0 := block_without_id]} = (Ok out, h') /\
    h' !! out = Some o /\
    float_at o "dkl_block" 0 = Some NaN.
Proof.
  assert (Hd : ({[0 := block_without_id]} : gmap nat DataFrame) !! 0 = Some block_without_id)
    by apply lookup_singleton_eq.
  destruct (calculate_dkl_readable no_strings _ 0 block_without_id Hd eq_refl)
    as (BE & BT & CE & CT & K1 & K2 & _ & _ & _ & _ & _ & _ & Hrun).
  destruct (calculate_dkl_missing_key_gives_NaN no_strings _ 0 block_without_id _ _
              Hd eq_refl Hrun) as (o & Ho & Hblock & _).
  do 2 eexists. exists o. split; [exact Hrun|]. split; [exact Ho|].
  exact (Hblock _ 0 _ eq_refl eq_refl eq_refl).
Defined.

Lemma mirror_block_has_no_divergence :
  exists out h' o,
    calculate_dkl no_strings 0 {[0 := mirror_block]} = (Ok out, h') /\
    h' !! out = Some o /\
    float_at o "dkl_block" 0 = Some (Fin 0) /\
    float_at o "dkl_bin" 0 = Some (Fin 0).
Proof.
  assert (Hd : ({[0 := mirror_block]} : gmap nat DataFrame) !! 0 = Some mirror_block)
    by apply lookup_singleton_eq.
  destruct (calculate_dkl_readable no_strings _ 0 mirror_block Hd eq_refl)
    as (fBE & fBT & fCE & fCT & K1 & K2 & _ & _ & _ & _ & _ & _ & Hrun).
  destruct (dkl_aggregates_zero_when_balanced no_strings _ 0 mirror_block _ _
              [1; 1]%Z [2; 2]%Z [2; 2]%Z [4; 4]%Z
              Hd eq_refl eq_refl eq_refl eq_refl eq_refl
              ltac:(repeat (constructor; [unfold exact_in_float; lia|]); constructor)
              ltac:(repeat (constructor; [unfold exact_in_float; lia|]); constructor)
              ltac:(repeat (constructor; [unfold exact_in_float; lia|]); constructor)
              ltac:(repeat (constructor; [unfold exact_in_float; lia|]); constructor)
              Hrun)
    as (o & Ho & Hblock & Hbin).
  do 2 eexists. exists o. split; [exact Hrun|]. split; [exact Ho|]. split.
  - apply (Hblock _ 0 _ eq_refl eq_refl eq_refl).
    repeat (constructor; [reflexivity|]). constructor.
  - apply (Hbin _ 0 _ eq_refl eq_refl eq_refl).
    repeat (constructor; [reflexivity|]). constructor.
Defined.

Lemma calculate_dkl_twice_on_two_blocks :
  exists out h' o out2 h'',
    calculate_dkl no_strings 0 {[0 := two_blocks]} = (Ok out, h') /\
    h' !! out = Some o /\
    calculate_dkl no_strings out h' = (Ok out2, h'') /\
    out2 <> out /\ h'' !! out = Some o /\ h'' !! out2 = Some o.
Proof.
  assert (Hd : ({[0 := two_blocks]} : gmap nat DataFrame) !! 0 = Some two_blocks)
    by apply lookup_singleton_eq.
  destruct (calculate_dkl_readable no_strings _ 0 two_blocks Hd eq_refl)
    as (BE & BT & CE & CT & K1 & K2 & _ & _ & _ & _ & _ & _ & Hrun).
  destruct (calculate_dkl_idempotent no_strings _ 0 two_blocks _ _ Hd eq_refl Hrun)
    as (o & out2 & h'' & Ho & H2).
  do 2 eexists. exists o, out2, h''. split; [exact Hrun|]. split; [exact Ho|]. exact H2.
Defined.

Lemma summary_shape_on_two_blocks :
  exists out h' o G vals,
    get_mutual_info 0 {[0 := two_blocks_dkl]} = (Ok out, h') /\
    h' !! out = Some o /\
    col_names o = ["cbsa_title"; "state_codes"; "group_label"; "avg_dkl_cbsa_pop"] /\
    frame_keys o ["cbsa_title"; "state_codes"; "group_label"] = Ok G /\
    df_get o "avg_dkl_cbsa_pop" = Some (FloatS vals) /\
    nrows o = length G /\ length vals = length G /\ 0 < nrows o /\
    Sorted (fun a b => Is_true (key_leb a b)) G /\ NoDup G /\
    Forall (fun k => has_na k = false) G.
Proof.
  destruct two_blocks_dkl_summary_exists as (o0 & _ & Hrun).
  destruct (get_mutual_info_output_shape {[0 := two_blocks_dkl]} 0 two_blocks_dkl _ _
              (lookup_singleton_eq _ _) eq_refl Hrun)
    as (o & G & vals & Ho & Hrest).
  do 2 eexists. exists o, G, vals. split; [exact Hrun|]. split; [exact Ho|]. exact Hrest.
Defined.

Lemma summary_of_a_table_without_dkl_block :
  exists c',
    get_mutual_info 0 {[0 := two_blocks]} = (Raise (KeyError c'), {[0 := two_blocks]}) /\
    c' ∈ ["block_fips"; "variable_group"; "group_label"; "block_total"; "dkl_block";
          "p_ni"; "cbsa_title"; "cbsa_total"; "state_codes"] /\
    df_get two_blocks c' = None.
Proof.
  apply (get_mutual_info_missing_column {[0 := two_blocks]} 0 two_blocks "dkl_block").
  - apply lookup_singleton_eq.
  - repeat first [by left | right].
  - reflexivity.
Defined.

Lemma summary_without_cbsa_fips :
  match get_mutual_info 0 {[0 := two_blocks_dkl]} with
  | (Ok out1, h1') =>
      exists out2 h2' o,
        get_mutual_info 0 {[0 := two_blocks_dkl_nine]} = (Ok out2, h2') /\
        h1' !! out1 = Some o /\ h2' !! out2 = Some o
  | (Raise e, _) => (get_mutual_info 0 {[0 := two_blocks_dkl_nine]}).1 = Raise e
  end.
Proof.
  apply (get_mutual_info_reads_nine_columns
           {[0 := two_blocks_dkl]} 0 two_blocks_dkl
           {[0 := two_blocks_dkl_nine]} 0 two_blocks_dkl_nine).
  - apply lookup_singleton_eq.
  - apply lookup_singleton_eq.
  - reflexivity.
  - intros c Hc.
    repeat (apply elem_of_cons in Hc as [->|Hc]; [reflexivity|]).
    by apply elem_of_nil in Hc.
Defined.

Lemma summary_of_no_rows :
  get_mutual_info 0 {[0 := no_rows]} = (Raise TypeError, {[0 := no_rows]}).
Proof.
  apply (get_mutual_info_no_group_raises {[0 := no_rows]} 0 no_rows []).
  - apply lookup_singleton_eq.
  - reflexivity.
  - repeat (constructor; [by eexists|]). constructor.
  - reflexivity.
  - constructor.
Defined.

Lemma weighted_mean_of_group_with_gap :
  (1 + (1 + 0) <> 0)%R /\
  weighted_mean group_with_gap = Ok (Fin ((0 + (3 * 1 + 0)) / (1 + (1 + 0)))).
Proof.
  assert (N : Rsum (from_option id 0%R <$> [Some 1%R; Some 1%R]) <> 0%R).
  { unfold Rsum. simpl. unfold id. lra. }
  split; [lra|].
  exact (weighted_mean_with_missing_values group_with_gap
           [None; Some 3%R] [Some 1%R; Some 1%R] eq_refl eq_refl N).
Defined.

Lemma two_blocks_dkl_later_rows_summary_exists :
  exists o,
    mi_pure two_blocks_dkl_later_rows = Ok o /\
    get_mutual_info 0 {[0 := two_blocks_dkl_later_rows]} =
      (Ok (fresh (dom ({[0 := two_blocks_dkl_later_rows]} : gmap nat DataFrame))),
       <[fresh (dom ({[0 := two_blocks_dkl_later_rows]} : gmap nat DataFrame)) := o]>
         {[0 := two_blocks_dkl_later_rows]}).
Proof.
  eapply (get_mutual_info_succeeds {[0 := two_blocks_dkl_later_rows]} 0
            two_blocks_dkl_later_rows).
  - apply lookup_singleton_eq.
  - reflexivity.
  - unfold mi_select. repeat (constructor; [by eexists|]). constructor.
  - reflexivity.
  - reflexivity.
  - reflexivity.
  - reflexivity.
  - reflexivity.
  - reflexivity.
  - left.
  - reflexivity.
Qed.

Lemma later_rows_do_not_change_the_summary :
  exists out1 h1' out2 h2' o1 o2,
    get_mutual_info 0 {[0 := two_blocks_dkl]} = (Ok out1, h1') /\
    get_mutual_info 0 {[0 := two_blocks_dkl_later_rows]} = (Ok out2, h2') /\
    h1' !! out1 = Some o1 /\ h2' !! out2 = Some o2 /\
    nrows o1 = nrows o2 /\
    forall i, i < nrows o1 ->
      float_at o1 "avg_dkl_cbsa_pop" i = float_at o2 "avg_dkl_cbsa_pop" i.
Proof.
  destruct two_blocks_dkl_summary_exists as (a1 & _ & Hrun1).
  destruct two_blocks_dkl_later_rows_summary_exists as (a2 & _ & Hrun2).
  destruct (get_mutual_info_reads_first_rows_only
              {[0 := two_blocks_dkl]} 0 two_blocks_dkl _ _
              {[0 := two_blocks_dkl_later_rows]} 0 two_blocks_dkl_later_rows _ _
              [[CStr "A"; CStr "B19001"]; [CStr "A"; CStr "B19001"];
               [CStr "B"; CStr "B19001"]; [CStr "B"; CStr "B19001"]]
              (replicate 4 [CStr "Metro"; CStr "IL"; CStr "Household Income"])
              [3; 3; 1; 1]%R [1 / 2; 1 / 2; 1 / 2; 1 / 2]%R
              [3; 7; 1; 9]%R [1 / 2; 0; 1 / 2; 1 / 4]%R
              (lookup_singleton_eq _ _) eq_refl (lookup_singleton_eq _ _) eq_refl
              eq_refl eq_refl eq_refl eq_refl eq_refl eq_refl eq_refl eq_refl
              ltac:(intros i Hi; change (i ∈ [0; 2]) in Hi;
                    repeat (apply elem_of_cons in Hi as [->|Hi]; [by split|]);
                    by apply elem_of_nil in Hi)
              Hrun1 Hrun2)
    as (o1 & o2 & Ho1 & Ho2 & Hn & _ & Hv).
  do 4 eexists. exists o1, o2.
  split; [exact Hrun1|]. split; [exact Hrun2|]. split; [exact Ho1|]. split; [exact Ho2|].
  by split.
Defined.

Lemma income_2010_on_two_blocks :
  exists out h' o g,
    calc_dkl_income_2010 no_strings 0 {[0 := two_blocks]} = (Ok out, h') /\
    h' !! out = Some o /\ h' !! 0 = Some two_blocks /\ out <> 0 /\
    df_get two_blocks "group_label" = Some g /\
    df_get o "group_label" = Some g /\ df_get o "variable_group" = Some g /\
    broadcast_group_sum o ["group_label"; "block_fips"] "dkl_block_j" "dkl_block" /\
    broadcast_group_sum o ["group_label"; "cbsa_fips"; "variable"] "dkl_bin_i" "dkl_bin" /\
    sum_over_rows_like o ["group_label"; "block_fips"] "dkl_block_j" "dkl_block" /\
    sum_over_rows_like o ["group_label"; "cbsa_fips"; "variable"] "dkl_bin_i" "dkl_bin".
Proof.
  assert (Hd : ({[0 := two_blocks]} : gmap nat DataFrame) !! 0 = Some two_blocks)
    by apply lookup_singleton_eq.
  pose proof (calc_dkl_income_2010_run no_strings _ 0 two_blocks Hd eq_refl) as Hrun.
  change (df_get two_blocks "group_label")
    with (Some (strs ["Household Income"; "Household Income";
                      "Household Income"; "Household Income"])) in Hrun.
  cbv iota beta in Hrun.
  set (h1 := <[fresh (dom ({[0 := two_blocks]} : gmap nat DataFrame)) :=
                 df_set two_blocks "variable_group"
                   (strs ["Household Income"; "Household Income";
                          "Household Income"; "Household Income"])]>
              ({[0 := two_blocks]} : gmap nat DataFrame)) in *.
  destruct (calculate_dkl_readable no_strings h1
              (fresh (dom ({[0 := two_blocks]} : gmap nat DataFrame)))
              (df_set two_blocks "variable_group"
                 (strs ["Household Income"; "Household Income";
                        "Household Income"; "Household Income"]))
              (lookup_insert_eq _ _ _) eq_refl)
    as (BE & BT & CE & CT & K1 & K2 & _ & _ & _ & _ & _ & _ & Hcalc).
  rewrite Hcalc in Hrun.
  destruct (calc_dkl_income_2010_groups_by_label no_strings _ 0 two_blocks _ _
              Hd eq_refl Hrun) as (o & g & Hrest).
  do 2 eexists. exists o, g. split; [exact Hrun|]. exact Hrest.
Defined.

Lemma income_2010_without_group_label :
  (calc_dkl_income_2010 no_strings 0 {[0 := empty_block]}).1 = Raise (KeyError "group_label") /\
  (calc_dkl_income_2010 no_strings 0 {[0 := empty_block]}).2 !! 0 = Some empty_block.
Proof.
  apply (calc_dkl_income_2010_needs_group_label no_strings {[0 := empty_block]} 0 empty_block).
  - apply lookup_singleton_eq.
  - reflexivity.
  - reflexivity.
Defined.

Lemma race_2015_stops_without_cbsa_total :
  exists e,
    @run list_paths unit unit
      (answering [@CalculateDkl._clean_path list_paths 2015 "race" "blockgroup"]
                 two_blocks_no_total)
      (@CalculateDkl.run_dkl_for_year list_paths no_strings 2015 ["race"; "income"] "blockgroup")
      tt =
      ([EExists (@CalculateDkl._clean_path list_paths 2015 "race" "blockgroup") true;
        EExists (@CalculateDkl._dkl_path list_paths 2015 "race" "blockgroup") false;
        ELog INFO "Calculating DKL for %d — %s (%s) …"
             [AInt 2015; AStr "race"; AStr "blockgroup"];
        ERead (@CalculateDkl._clean_path list_paths 2015 "race" "blockgroup")
              (Some two_blocks_no_total)],
       Raised (PyErr e), tt) /\
    ((exists c', e = KeyError c' /\ c' ∈ required_columns /\
                 df_get two_blocks_no_total c' = None) \/
     e = ValueError).
Proof.
  apply (@run_dkl_for_year_stops_at_a_bad_table list_paths no_strings unit
           (answering [@CalculateDkl._clean_path list_paths 2015 "race" "blockgroup"]
                      two_blocks_no_total)
           tt 2015 (mkYearConfig "acs5"
                      (census_files +:+ "2015/delineation-files/list1.xls") 2015 all_vars)
           "race" ["income"] "blockgroup" two_blocks_no_total "cbsa_total").
  - reflexivity.
  - unfold all_vars. simpl. by left.
  - vm_compute. reflexivity.
  - vm_compute. reflexivity.
  - reflexivity.
  - reflexivity.
  - unfold required_columns, count_columns. simpl. repeat first [by left | right].
  - reflexivity.
Defined.

Lemma dkl_path_for_2015 :
  (1950 <= 2015 < 2050)%Z /\
  @MutualInfo._dkl_path list_paths decimal (slice_from 2 (str_int 2015)) "race" "blockgroup"
  = mret (@CalculateDkl._dkl_path list_paths 2015 "race" "blockgroup").
Proof.
  split; [lia|].
  apply (@dkl_path_of_both_scripts list_paths decimal (fun s n E => E) 2015
           "race" "blockgroup").
  lia.
Defined.
